(** * StreamingSampler: a shallow embedding of Source/StreamingSampler.cpp

    The development follows the three classes of the source file:
    [StreamingSamplerSound] (the memory-mapped sample with its preload
    buffer), [SampleLoader] (the double-buffer state machine fed by a
    background job) and [StreamingSamplerVoice] (the render path with
    linear interpolation).

    Conventions of the embedding.
    - C++ [int] and [int64] are [Z]; signed overflow (undefined in C++) is
      not modelled.
    - [float] and [double] are exact rationals ([Q]): the arithmetic
      operations are the exact ones, their rounding is not modelled, and
      neither is overflow to infinity.  Copies of samples are exact in the
      source as well.  Conversions are modelled: [(int)] truncates
      ([toInt]), and the narrowing of a [double] to a [float], which the
      render loop applies to the position inside the block before it
      truncates it, rounds to the nearest single-precision value
      ([toFloat]).
    - A memory access outside a buffer, a null dereference and a remainder
      by zero are undefined behaviour in the source; the embedding makes
      such a step return [None].  Debug assertions ([jassert]) do not
      change the state and are left out, except the one that reports an
      underrun, which is the [FillOutcome] of a block request; what the
      assertion of [requestNewData] tests is [poolContains].
    - Clock readings, the outcome of allocations and the contents of the
      mapped file are inputs of the model.  The macros, [getPitchFactor],
      [wakeSound] and [resetVoice] belong to StreamingSampler.h, which is
      not among the sources: macros are fields of [Config], the pitch
      factor is a field of the sound, and [resetVoice] follows the spec.
    - [runJob] takes no lock, so the lock of [startNote] excludes nothing.
      A call of the audio thread ([startNote], [fillSampleBlockBuffer]) is
      one step of the model.  A job of the pool is modelled twice: as the
      steps of [runJob] one statement at a time ([jobStep]), between which
      calls of the audio thread may be placed, and as the schedule in which
      it runs from its first to its last statement with no such call in
      between ([poolRunsJob]).  The copy of a window into a buffer is one
      step; a reader of that buffer while the copy is under way is not
      modelled. *)

From Stdlib Require Import ZArith QArith Qround Qminmax List Bool Lia Lqa.
Import ListNotations.

Local Open Scope Z_scope.

(** ** Numbers *)

Definition float := Q.
Definition double := Q.

(** [(int) x] for a floating-point [x]: truncation towards zero. *)
Definition toInt (x : Q) : Z := Z.quot (Qnum x) (Z.pos (Qden x)).

(** [(double) i] for an integer [i]. *)
Definition ofInt (i : Z) : Q := inject_Z i.

(** [a / b] rounded to the nearest integer, ties to the even one, for
    [0 < b]. *)
Definition roundDiv (a b : Z) : Z :=
  let q := a / b in
  let r := a mod b in
  if 2 * r <? b then q
  else if b <? 2 * r then q + 1
  else if Z.even q then q else q + 1.

(** The exponent [e] with [2^e <= a / d < 2^(e + 1)], for [0 < a] and
    [0 < d]. *)
Definition floorLog2 (a d : Z) : Z :=
  let e := Z.log2 a - Z.log2 d in
  if (if 0 <=? e then d * 2 ^ e <=? a else d <=? a * 2 ^ (- e)) then e else e - 1.

(** The single-precision number nearest to [x], ties to the even
    significand: 24 significant bits for a binary exponent of at least -126,
    multiples of [2^-149] below. *)
Definition roundBinary32 (x : Q) : Q :=
  let n := Qnum x in
  let d := Z.pos (Qden x) in
  if n =? 0 then 0%Q
  else
    let s := Z.max (floorLog2 (Z.abs n) d - 23) (-149) in
    if 0 <=? s then inject_Z (roundDiv n (d * 2 ^ s) * 2 ^ s)
    else Qmake (roundDiv (n * 2 ^ (- s)) d) (Z.to_pos (2 ^ (- s))).

(** [(float) x] for a double [x], as in [const float f = x].  A value that
    is a single-precision number already is returned as it is. *)
Definition toFloat (x : double) : float :=
  let r := roundBinary32 x in if Qeq_bool r x then x else r.

(** [a < b] on floating-point values. *)
Definition Qltb (a b : Q) : bool := negb (Qle_bool b a).

(** JUCE's [jmin (a, b)] is [(b < a) ? b : a]; [jmax (a, b)] is
    [(a < b) ? b : a]. *)
Definition jmin (a b : Q) : Q := if Qltb b a then b else a.
Definition jmax (a b : Q) : Q := if Qltb a b then b else a.

(** The literal [0.99999f]: the single-precision number nearest to
    0.99999 is 16777048 / 2^24. *)
Definition c_0_99999f : Q := 2097131 # 2097152.

(** ** Option monad for steps that may be undefined *)

Definition obind {A B : Type} (o : option A) (k : A -> option B) : option B :=
  match o with
  | Some a => k a
  | None => None
  end.

Notation "x <- e ;; k" := (obind e (fun x => k))
  (at level 61, e at next level, right associativity).
Notation "' p <- e ;; k" := (obind e (fun p => k))
  (at level 61, p pattern, e at next level, right associativity).

(** ** Audio buffers

    Every buffer of the source has two channels.  A buffer is the list of
    its stereo frames; channel 0 is the first component. *)

Definition frame := (float * float)%type.
Definition AudioSampleBuffer := list frame.

Inductive Channel := Ch0 | Ch1.

Definition getCh (c : Channel) (f : frame) : float :=
  match c with Ch0 => fst f | Ch1 => snd f end.

Definition setCh (c : Channel) (v : float) (f : frame) : frame :=
  match c with Ch0 => (v, snd f) | Ch1 => (fst f, v) end.

Definition getNumSamples (b : AudioSampleBuffer) : Z := Z.of_nat (length b).

Definition silence : frame := (0%Q, 0%Q).

(** [AudioSampleBuffer (2, n)] followed by [clear ()]. *)
Definition clearedBuffer (n : Z) : AudioSampleBuffer := repeat silence (Z.to_nat n).

(** The frame at index [i], when [i] is inside the buffer. *)
Definition frameAt (b : AudioSampleBuffer) (i : Z) : option frame :=
  if i <? 0 then None else nth_error b (Z.to_nat i).

(** Frames [off, off + n) of a buffer. *)
Definition slice (b : AudioSampleBuffer) (off n : Z) : list frame :=
  firstn (Z.to_nat n) (skipn (Z.to_nat off) b).

(** Overwrite channel [c] of the leading frames of [dst] with channel [c]
    of [vals]. *)
Fixpoint zipSet (c : Channel) (vals dst : list frame) : list frame :=
  match vals, dst with
  | v :: vs, d :: ds => setCh c (getCh c v) d :: zipSet c vs ds
  | _, _ => dst
  end.

(** [FloatVectorOperations::copy (dst.getWritePointer (c, dOff),
    src.getReadPointer (c, sOff), n)]: [n] samples of channel [c]. *)
Definition copyChannel (c : Channel) (dst : AudioSampleBuffer) (dOff : Z)
    (src : AudioSampleBuffer) (sOff n : Z) : option AudioSampleBuffer :=
  if (0 <=? n) && (0 <=? sOff) && (sOff + n <=? getNumSamples src)
     && (0 <=? dOff) && (dOff + n <=? getNumSamples dst)
  then Some (firstn (Z.to_nat dOff) dst
             ++ zipSet c (slice src sOff n) (skipn (Z.to_nat dOff) dst))
  else None.

(** The two copies (channel 0, then channel 1) that the source always
    issues together. *)
Definition copyStereo (dst : AudioSampleBuffer) (dOff : Z)
    (src : AudioSampleBuffer) (sOff n : Z) : option AudioSampleBuffer :=
  d0 <- copyChannel Ch0 dst dOff src sOff n ;;
  copyChannel Ch1 d0 dOff src sOff n.

(** ** The memory-mapped reader (external collaborator)

    [mapEntireFile] maps the section [0, lengthInSamples): the mapped
    section is the list of the file's frames, its length and its end
    coincide. *)

Definition MappedSource := list frame.

Definition mappedLength (m : MappedSource) : Z := Z.of_nat (length m).
Definition mappedEnd (m : MappedSource) : Z := Z.of_nat (length m).

Definition sourceFrame (m : MappedSource) (i : Z) : frame :=
  match frameAt m i with Some f => f | None => silence end.

Definition sourceFrames (m : MappedSource) (start n : Z) : list frame :=
  map (fun k => sourceFrame m (start + Z.of_nat k)) (seq 0 (Z.to_nat n)).

(** [memoryReader->read (&buf, startSample, numSamples, readerStart, true,
    true)]: both channels of [numSamples] frames; nothing happens for a
    count that is not positive. *)
Definition readerRead (m : MappedSource) (buf : AudioSampleBuffer)
    (startSample numSamples readerStart : Z) : option AudioSampleBuffer :=
  if numSamples <=? 0 then Some buf
  else if (0 <=? startSample) && (startSample + numSamples <=? getNumSamples buf)
  then Some (firstn (Z.to_nat startSample) buf
             ++ sourceFrames m readerStart numSamples
             ++ skipn (Z.to_nat (startSample + numSamples)) buf)
  else None.

(** ** Build configuration (macros of the missing header) *)

Record Config := mkConfig {
  PRELOAD_SIZE : Z;
  MAX_SAMPLER_PITCH : double;
  USE_BACKGROUND_THREAD : bool;
  STANDALONE : bool;
  (** the macro tested inside the render loop is spelled differently *)
  STAND_ALONE : bool
}.

(** ** StreamingSamplerSound *)

Record StreamingSamplerSound := mkSound {
  memoryReader : MappedSource;
  rootNote : Z;
  preloadSize : Z;
  preloadBuffer : AudioSampleBuffer;
  (** [getPitchFactor], declared in the header *)
  getPitchFactor : Z -> double
}.

Definition withPreloadSize (s : StreamingSamplerSound) (n : Z) : StreamingSamplerSound :=
  mkSound (memoryReader s) (rootNote s) n (preloadBuffer s) (getPitchFactor s).

Definition withPreloadBuffer (s : StreamingSamplerSound) (b : AudioSampleBuffer)
  : StreamingSamplerSound :=
  mkSound (memoryReader s) (rootNote s) (preloadSize s) b (getPitchFactor s).

Inductive LoadingError :=
| FileDoesNotExist
| ErrorAtMemoryMapping
| OutOfMemory.

(** Calls into the collaborators made while (re)building the preload
    buffer, in program order. *)
Inductive Event :=
| EvAlloc (numChannels numSamples : Z)
| EvRead (startSample numSamples readerStart : Z).

Record PreloadResult := mkPreloadResult {
  pr_sound : StreamingSamplerSound;
  pr_error : option LoadingError;
  pr_trace : list Event
}.

(** [StreamingSamplerSound::setPreloadSize].  [allocOk n] tells whether the
    allocation of [AudioSampleBuffer (2, n)] succeeds ([std::bad_alloc]
    otherwise). *)
Definition setPreloadSize (allocOk : Z -> bool) (s : StreamingSamplerSound)
    (newPreloadSize : Z) : PreloadResult :=
  let s1 := withPreloadSize s newPreloadSize in
  let maxSize := mappedLength (memoryReader s1) in
  let s2 := if (newPreloadSize =? -1) || (maxSize <? preloadSize s1)
            then withPreloadSize s1 maxSize else s1 in
  if allocOk (preloadSize s2) then
    let fresh := clearedBuffer (preloadSize s2) in
    (* the destination range [0, preloadSize) is the whole fresh buffer:
       the read is always inside it *)
    let filled := match readerRead (memoryReader s2) fresh 0 (preloadSize s2) 0 with
                  | Some b => b
                  | None => fresh
                  end in
    mkPreloadResult (withPreloadBuffer s2 filled) None
      [EvAlloc 2 (preloadSize s2); EvRead 0 (preloadSize s2) 0]
  else
    mkPreloadResult s2 (Some OutOfMemory) [EvAlloc 2 (preloadSize s2)].

(** The constructor: [reader] is the result of [createMemoryMappedReader]
    followed by [mapEntireFile] ([None] for a null reader). *)
Definition load (cfg : Config) (allocOk : Z -> bool) (reader : option MappedSource)
    (midiNoteForNormalPitch : Z) (pitch : Z -> double)
  : StreamingSamplerSound + LoadingError :=
  match reader with
  | None => inr FileDoesNotExist
  | Some m =>
      if 0 <? mappedLength m then
        let r := setPreloadSize allocOk
                   (mkSound m midiNoteForNormalPitch 0 [] pitch) (PRELOAD_SIZE cfg) in
        match pr_error r with
        | None => inl (pr_sound r)
        | Some e => inr e
        end
      else inr ErrorAtMemoryMapping
  end.

(** [StreamingSamplerSound::hasEnoughSamplesForBlock]. *)
Definition hasEnoughSamplesForBlock (s : StreamingSamplerSound)
    (maxSampleIndexInFile : Z) : bool :=
  maxSampleIndexInFile <? mappedEnd (memoryReader s).

(** [StreamingSamplerSound::fillSampleBuffer]. *)
Definition fillSampleBuffer (s : StreamingSamplerSound)
    (sampleBuffer : AudioSampleBuffer) (samplesToCopy uptime : Z)
  : option AudioSampleBuffer :=
  if uptime + samplesToCopy <? preloadSize s then
    copyStereo sampleBuffer 0 (preloadBuffer s) uptime samplesToCopy
  else
    readerRead (memoryReader s) sampleBuffer 0 samplesToCopy uptime.

(** ** SampleLoader *)

(** What [readBuffer] and [writeBuffer] may point at: the bound sound's
    preload buffer, or one of the loader's own buffers. *)
Inductive BufferRef := PreloadRef | B1 | B2.

Definition BufferRef_eqb (a b : BufferRef) : bool :=
  match a, b with
  | PreloadRef, PreloadRef | B1, B1 | B2, B2 => true
  | _, _ => false
  end.

Record SampleLoader := mkLoader {
  bufferSize : Z;
  b1 : AudioSampleBuffer;
  b2 : AudioSampleBuffer;
  readBuffer : BufferRef;
  writeBuffer : BufferRef;
  sound : option StreamingSamplerSound;
  readIndex : Z;
  positionInSampleFile : Z;
  writeBufferIsBeingFilled : bool;
  diskUsage : double;
  lastCallToRequestData : double;
  (** jobs of this loader waiting in [backgroundPool] *)
  queuedJobs : nat;
  (** ghost: number of calls of [requestNewData] so far *)
  fillRequests : nat
}.

(** Clock readings taken by one run of the job:
    [Time::getHighResolutionTicks] before and after the read. *)
Record Ticks := mkTicks { readStart : double; readStop : double }.

Definition setBuffers (l : SampleLoader) (r w : BufferRef) : SampleLoader :=
  mkLoader (bufferSize l) (b1 l) (b2 l) r w (sound l) (readIndex l)
    (positionInSampleFile l) (writeBufferIsBeingFilled l) (diskUsage l)
    (lastCallToRequestData l) (queuedJobs l) (fillRequests l).

Definition setPosition (l : SampleLoader) (p : Z) : SampleLoader :=
  mkLoader (bufferSize l) (b1 l) (b2 l) (readBuffer l) (writeBuffer l) (sound l)
    (readIndex l) p (writeBufferIsBeingFilled l) (diskUsage l)
    (lastCallToRequestData l) (queuedJobs l) (fillRequests l).

Definition setBeingFilled (l : SampleLoader) (f : bool) : SampleLoader :=
  mkLoader (bufferSize l) (b1 l) (b2 l) (readBuffer l) (writeBuffer l) (sound l)
    (readIndex l) (positionInSampleFile l) f (diskUsage l)
    (lastCallToRequestData l) (queuedJobs l) (fillRequests l).

Definition setUsage (l : SampleLoader) (usage lastCall : double) : SampleLoader :=
  mkLoader (bufferSize l) (b1 l) (b2 l) (readBuffer l) (writeBuffer l) (sound l)
    (readIndex l) (positionInSampleFile l) (writeBufferIsBeingFilled l) usage
    lastCall (queuedJobs l) (fillRequests l).

Definition setPool (l : SampleLoader) (jobs requests : nat) : SampleLoader :=
  mkLoader (bufferSize l) (b1 l) (b2 l) (readBuffer l) (writeBuffer l) (sound l)
    (readIndex l) (positionInSampleFile l) (writeBufferIsBeingFilled l)
    (diskUsage l) (lastCallToRequestData l) jobs requests.

(** The buffer a reference designates. *)
Definition deref (l : SampleLoader) (r : BufferRef) : option AudioSampleBuffer :=
  match r with
  | B1 => Some (b1 l)
  | B2 => Some (b2 l)
  | PreloadRef => option_map preloadBuffer (sound l)
  end.

(** Store through [writeBuffer]; it never points at the (const) preload
    buffer. *)
Definition store (l : SampleLoader) (r : BufferRef) (b : AudioSampleBuffer)
  : option SampleLoader :=
  match r with
  | B1 => Some (mkLoader (bufferSize l) b (b2 l) (readBuffer l) (writeBuffer l)
                  (sound l) (readIndex l) (positionInSampleFile l)
                  (writeBufferIsBeingFilled l) (diskUsage l)
                  (lastCallToRequestData l) (queuedJobs l) (fillRequests l))
  | B2 => Some (mkLoader (bufferSize l) (b1 l) b (readBuffer l) (writeBuffer l)
                  (sound l) (readIndex l) (positionInSampleFile l)
                  (writeBufferIsBeingFilled l) (diskUsage l)
                  (lastCallToRequestData l) (queuedJobs l) (fillRequests l))
  | PreloadRef => None
  end.

(** [SampleLoader::fillInactiveBuffer]. *)
Definition fillInactiveBuffer (l : SampleLoader) : option SampleLoader :=
  s <- sound l ;;
  if hasEnoughSamplesForBlock s (bufferSize l + positionInSampleFile l) then
    w <- deref l (writeBuffer l) ;;
    w' <- fillSampleBuffer s w (bufferSize l) (positionInSampleFile l) ;;
    store l (writeBuffer l) w'
  else Some l.

(** [SampleLoader::runJob]. *)
Definition runJob (tk : Ticks) (l : SampleLoader) : option SampleLoader :=
  l1 <- fillInactiveBuffer l ;;
  let l2 := setBeingFilled l1 false in
  let readTime := (readStop tk - readStart tk)%Q in
  let timeSinceLastCall := (readStop tk - lastCallToRequestData l2)%Q in
  let diskUsageThisTime := (readTime / timeSinceLastCall)%Q in
  Some (setUsage l2 (jmax (diskUsage l2) diskUsageThisTime) (readStart tk)).

(** [SampleLoader::requestNewData]: with [USE_BACKGROUND_THREAD] the job is
    handed to the pool, otherwise it runs at once. *)
Definition requestNewData (cfg : Config) (tk : Ticks) (l : SampleLoader)
  : option SampleLoader :=
  let l1 := setPool (setBeingFilled l true) (queuedJobs l) (S (fillRequests l)) in
  if USE_BACKGROUND_THREAD cfg
  then Some (setPool l1 (S (queuedJobs l1)) (fillRequests l1))
  else runJob tk l1.

(** ** A job on a thread of the pool, statement by statement

    Where a thread of the pool stands in [runJob]; [t0] is the local
    [readStart].  [fillSampleBuffer] is called with the sound, the
    destination [*writeBuffer], the size and the position read when the
    call is made (line 215); while the copy is under way they are those of
    the call, whatever the audio thread assigns to the loader's fields. *)
Inductive JobPc :=
| AtReadStart
| AtGuard (t0 : double)
| AtCall (t0 : double)
| InCopy (t0 : double) (s : StreamingSamplerSound) (target : BufferRef)
    (size position : Z)
| AtClear (t0 : double)
| AtMeasure (t0 : double)
| AtReturn.

(** A thread of the pool takes a queued job of the loader. *)
Definition poolTakesJob (l : SampleLoader) : option (JobPc * SampleLoader) :=
  match queuedJobs l with
  | O => None
  | S n => Some (AtReadStart, setPool l n (fillRequests l))
  end.

(** One statement of the job: the first clock reading (line 175); the test
    of [fillInactiveBuffer] (line 213); the call of [fillSampleBuffer]
    (line 215) and its body; the clearing of the flag (line 179); the
    second clock reading and the disk usage (lines 181 to 186); the return
    (line 188), after which the pool no longer holds the job.  The result
    is the next place in the job ([None] once it has returned) and the
    loader. *)
Definition jobStep (tk : Ticks) (pc : JobPc) (l : SampleLoader)
  : option (option JobPc * SampleLoader) :=
  match pc with
  | AtReadStart => Some (Some (AtGuard (readStart tk)), l)
  | AtGuard t0 =>
      s <- sound l ;;
      if hasEnoughSamplesForBlock s (bufferSize l + positionInSampleFile l)
      then Some (Some (AtCall t0), l)
      else Some (Some (AtClear t0), l)
  | AtCall t0 =>
      s <- sound l ;;
      Some (Some (InCopy t0 s (writeBuffer l) (bufferSize l) (positionInSampleFile l)), l)
  | InCopy t0 s target size position =>
      w <- deref l target ;;
      w' <- fillSampleBuffer s w size position ;;
      l' <- store l target w' ;;
      Some (Some (AtClear t0), l')
  | AtClear t0 => Some (Some (AtMeasure t0), setBeingFilled l false)
  | AtMeasure t0 =>
      let readTime := (readStop tk - t0)%Q in
      let timeSinceLastCall := (readStop tk - lastCallToRequestData l)%Q in
      let diskUsageThisTime := (readTime / timeSinceLastCall)%Q in
      Some (Some AtReturn, setUsage l (jmax (diskUsage l) diskUsageThisTime) t0)
  | AtReturn => Some (None, l)
  end.

(** Up to [n] consecutive statements of the job, with no call of the audio
    thread in between. *)
Fixpoint jobSteps (tk : Ticks) (n : nat) (pc : JobPc) (l : SampleLoader)
  : option (option JobPc * SampleLoader) :=
  match n with
  | O => Some (Some pc, l)
  | S n' =>
      match jobStep tk pc l with
      | Some (Some pc', l') => jobSteps tk n' pc' l'
      | finished => finished
      end
  end.

(** [backgroundPool->contains (this)]: JUCE's pool holds a job from
    [addJob] until [runJob] has returned. *)
Definition poolContains (running : option JobPc) (l : SampleLoader) : bool :=
  negb (Nat.eqb (queuedJobs l) 0)
  || match running with Some _ => true | None => false end.

(** A queued job of the loader runs on a thread of the pool from the first
    statement of [runJob] to the last, in the schedule where the audio
    thread makes no call meanwhile: a thread takes the job and executes its
    statements in a row (seven steps at most). *)
Definition poolRunsJob (tk : Ticks) (l : SampleLoader) : option SampleLoader :=
  match poolTakesJob l with
  | None => Some l
  | Some (pc, l1) =>
      match jobSteps tk 7 pc l1 with
      | Some (_, l') => Some l'
      | None => None
      end
  end.

(** ** SampleLoader, continued *)

(** [SampleLoader::swapBuffers]. *)
Definition swapBuffers (l : SampleLoader) : SampleLoader * bool :=
  let l' := if BufferRef_eqb (readBuffer l) B1
            then setBuffers l B2 B1
            else setBuffers l B1 B2 in
  (l', negb (writeBufferIsBeingFilled l')).

(** [SampleLoader::startNote]. *)
Definition loaderStartNote (cfg : Config) (tk : Ticks) (l : SampleLoader)
    (s : StreamingSamplerSound) : option SampleLoader :=
  let l1 := mkLoader (bufferSize l) (b1 l) (b2 l) PreloadRef B1 (Some s) 0
              (bufferSize l) (writeBufferIsBeingFilled l) 0%Q
              (lastCallToRequestData l) (queuedJobs l) (fillRequests l) in
  if negb (writeBufferIsBeingFilled l1) then requestNewData cfg tk l1 else Some l1.

(** What the debug assertion of the slow path reports. *)
Inductive FillOutcome := FillOk | BufferUnderrun.

(** [SampleLoader::fillSampleBlockBuffer].  [sampleIndex % bufferSize] is
    the C++ remainder. *)
Definition fillSampleBlockBuffer (cfg : Config) (tk : Ticks) (l : SampleLoader)
    (sampleBlockBuffer : AudioSampleBuffer) (numSamples sampleIndex : Z)
  : option (SampleLoader * AudioSampleBuffer * FillOutcome) :=
  if bufferSize l =? 0 then None else
  let readIndex := Z.rem sampleIndex (bufferSize l) in
  if readIndex + numSamples <? bufferSize l then
    rb <- deref l (readBuffer l) ;;
    d <- copyStereo sampleBlockBuffer 0 rb readIndex numSamples ;;
    Some (l, d, FillOk)
  else
    let remainingSamples := bufferSize l - readIndex in
    rb <- deref l (readBuffer l) ;;
    d <- copyStereo sampleBlockBuffer 0 rb readIndex remainingSamples ;;
    let '(l1, swapped) := swapBuffers l in
    if swapped then
      let numSamplesInNewReadBuffer := numSamples - remainingSamples in
      rb' <- deref l1 (readBuffer l1) ;;
      d' <- copyStereo d remainingSamples rb' 0 numSamplesInNewReadBuffer ;;
      l2 <- requestNewData cfg tk (setPosition l1 (positionInSampleFile l1 + bufferSize l1)) ;;
      Some (l2, d', FillOk)
    else
      Some (l1, d, BufferUnderrun).

(** ** StreamingSamplerVoice *)

Record StreamingSamplerVoice := mkVoice {
  loader : SampleLoader;
  voiceUptime : double;
  uptimeDelta : double;
  samplesForThisBlock : AudioSampleBuffer;
  (** per-sample pitch values supplied by the host; [None] is [nullptr] *)
  pitchData : option (Z -> float)
}.

(** [StreamingSamplerVoice::startNote].  [s] is the result of the
    [dynamic_cast]; [wakeSound] (declared in the header) touches no field of
    the model; the velocity is not used. *)
Definition startNote (cfg : Config) (tk : Ticks) (v : StreamingSamplerVoice)
    (midiNoteNumber : Z) (velocity : float) (s : StreamingSamplerSound)
  : option StreamingSamplerVoice :=
  l <- loaderStartNote cfg tk (loader v) s ;;
  Some (mkVoice l 0%Q
          (jmin (getPitchFactor s midiNoteNumber) (MAX_SAMPLER_PITCH cfg))
          (samplesForThisBlock v) (pitchData v)).

(** Modelled from the spec: [resetVoice] is declared in the header, which is
    not part of the sources.  The spec says that the voice is transitioned
    to Finished (the note is stopped), that a Finished voice is idle until
    the next [startNote], that an idle loader has no bound asset, and that
    rendering with no bound asset does nothing: the voice's loader is
    unbound. *)
Definition resetVoice (v : StreamingSamplerVoice) : StreamingSamplerVoice :=
  let l := loader v in
  mkVoice
    (mkLoader (bufferSize l) (b1 l) (b2 l) (readBuffer l) (writeBuffer l) None
       (readIndex l) (positionInSampleFile l) (writeBufferIsBeingFilled l)
       (diskUsage l) (lastCallToRequestData l) (queuedJobs l) (fillRequests l))
    (voiceUptime v) (uptimeDelta v) (samplesForThisBlock v) (pitchData v).

(** The voice is Finished when its loader has no sound
    ([loader.getLoadedSound () == nullptr]). *)
Definition isFinished (v : StreamingSamplerVoice) : bool :=
  match sound (loader v) with None => true | Some _ => false end.

(** The first loop of [renderNextBlock]: [n] iterations from index [i],
    adding one pitch value per output sample to [acc]. *)
Fixpoint accumulatePitch (cfg : Config) (delta : double) (pd : option (Z -> float))
    (i : Z) (n : nat) (acc : double) : option double :=
  match n with
  | O => Some acc
  | S n' =>
      if STANDALONE cfg then
        accumulatePitch cfg delta pd (i + 1) n' (acc + delta)%Q
      else
        match pd with
        | None => None
        | Some f =>
            accumulatePitch cfg delta pd (i + 1) n'
              (acc + jmin (delta * f i) (MAX_SAMPLER_PITCH cfg))%Q
        end
  end.

(** [numSamplesUsed] after the first loop. *)
Definition numSamplesUsed (cfg : Config) (v : StreamingSamplerVoice)
    (startSample numSamples : Z) : option double :=
  let pos := toInt (voiceUptime v) in
  accumulatePitch cfg (uptimeDelta v) (pitchData v) startSample
    (Z.to_nat numSamples) (voiceUptime v - ofInt pos)%Q.

(** [samplesToCopy = (int) (numSamplesUsed + 0.99999f)]. *)
Definition samplesToCopy (cfg : Config) (v : StreamingSamplerVoice)
    (startSample numSamples : Z) : option Z :=
  used <- numSamplesUsed cfg v startSample numSamples ;;
  Some (toInt (used + c_0_99999f)%Q).

(** One iteration of the render loop, first half: the interpolated left and
    right values read from the work buffer at the current uptime.
    [indexFloat] is a [float]: the difference, a [double], is narrowed
    before it is truncated. *)
Definition interpolate (work : AudioSampleBuffer) (pos : Z) (uptime : double)
  : option frame :=
  let indexFloat := toFloat (uptime - ofInt pos)%Q in
  let index := toInt indexFloat in
  let alpha := (indexFloat - ofInt index)%Q in
  let invAlpha := (1 - alpha)%Q in
  a <- frameAt work index ;;
  b <- frameAt work (index + 1) ;;
  Some ((fst a * invAlpha + fst b * alpha)%Q, (snd a * invAlpha + snd b * alpha)%Q).

(** One iteration, second half: the advance of [voiceUptime]. *)
Definition advanceUptime (cfg : Config) (delta : double) (pd : option (Z -> float))
    (startSample : Z) (uptime : double) : option double :=
  if STAND_ALONE cfg then
    match pd with
    | None => None
    | Some f => Some (uptime + delta * f startSample)%Q
    end
  else Some (uptime + delta)%Q.

(** [*outL++ += l; *outR++ += r] at offset [o] of the output buffer. *)
Definition addFrame (out : AudioSampleBuffer) (o : Z) (c : frame)
  : option AudioSampleBuffer :=
  f <- frameAt out o ;;
  Some (firstn (Z.to_nat o) out
        ++ ((fst f + fst c)%Q, (snd f + snd c)%Q) :: skipn (Z.to_nat (o + 1)) out).

(** The render loop [while (--numSamples >= 0)]: [n] iterations; [o] is the
    offset the output pointers have reached. *)
Fixpoint renderLoop (cfg : Config) (delta : double) (pd : option (Z -> float))
    (work : AudioSampleBuffer) (pos : Z) (n : nat) (startSample : Z)
    (uptime : double) (out : AudioSampleBuffer) (o : Z)
  : option (double * AudioSampleBuffer) :=
  match n with
  | O => Some (uptime, out)
  | S n' =>
      c <- interpolate work pos uptime ;;
      out' <- addFrame out o c ;;
      uptime' <- advanceUptime cfg delta pd startSample uptime ;;
      renderLoop cfg delta pd work pos n'
        (if STAND_ALONE cfg then startSample + 1 else startSample)
        uptime' out' (o + 1)
  end.

(** [StreamingSamplerVoice::renderNextBlock]. *)
Definition renderNextBlock (cfg : Config) (tk : Ticks) (v : StreamingSamplerVoice)
    (outputBuffer : AudioSampleBuffer) (startSample numSamples : Z)
  : option (StreamingSamplerVoice * AudioSampleBuffer * FillOutcome) :=
  match sound (loader v) with
  | None => Some (v, outputBuffer, FillOk)
  | Some s =>
      let pos := toInt (voiceUptime v) in
      n <- samplesToCopy cfg v startSample numSamples ;;
      if negb (hasEnoughSamplesForBlock s (pos + n)) then
        Some (resetVoice v, outputBuffer, FillOk)
      else
        '(l, work, outcome) <-
          fillSampleBlockBuffer cfg tk (loader v) (samplesForThisBlock v) n pos ;;
        '(uptime, out) <-
          renderLoop cfg (uptimeDelta v) (pitchData v) work pos
            (Z.to_nat numSamples) startSample (voiceUptime v) outputBuffer
            startSample ;;
        Some (mkVoice l uptime (uptimeDelta v) work (pitchData v), out, outcome)
  end.

(** ** Vocabulary of the statements *)

(** The buffer that becomes the read buffer at the next swap. *)
Definition otherBuffer (l : SampleLoader) : BufferRef :=
  if BufferRef_eqb (readBuffer l) B1 then B2 else B1.

(** A direct, unbuffered read of [frameCount] frames of the asset at
    [streamPosition] into the head of [dest]. *)
Definition directRead (s : StreamingSamplerSound) (dest : AudioSampleBuffer)
    (frameCount streamPosition : Z) : option AudioSampleBuffer :=
  readerRead (memoryReader s) dest 0 frameCount streamPosition.

(** [buf] starts with the [size] frames of the asset that begin at [base],
    all of them inside the mapped section. *)
Definition holdsWindow (s : StreamingSamplerSound) (buf : AudioSampleBuffer)
    (base size : Z) : Prop :=
  0 <= base /\ base + size <= mappedLength (memoryReader s)
  /\ slice buf 0 size = slice (memoryReader s) base size.

(** Sizes of a loader bound to [s]: both swap buffers have [bufferSize]
    frames, the preload buffer has at least [preloadSize] frames. *)
Record loaderWf (l : SampleLoader) (s : StreamingSamplerSound) : Prop := mkLoaderWf {
  wf_sound : sound l = Some s;
  wf_size : 0 < bufferSize l;
  wf_b1 : getNumSamples (b1 l) = bufferSize l;
  wf_b2 : getNumSamples (b2 l) = bufferSize l;
  wf_pos : 0 <= positionInSampleFile l;
  wf_preload : preloadSize s <= getNumSamples (preloadBuffer s)
}.

(** The preload buffer of [s] is a copy of the head of the file, as
    [setPreloadSize] leaves it. *)
Definition preloaded (s : StreamingSamplerSound) : Prop :=
  0 <= preloadSize s <= mappedLength (memoryReader s)
  /\ preloadBuffer s = slice (memoryReader s) 0 (preloadSize s).

(** The state of a loader that streams window [k]: the read buffer holds
    window [k], the stream offset is the start of window [k + 1], no fill is
    in flight, and the write buffer, which is the other buffer, holds window
    [k + 1]. *)
Definition streaming (l : SampleLoader) (s : StreamingSamplerSound) (k : Z) : Prop :=
  loaderWf l s
  /\ positionInSampleFile l = (k + 1) * bufferSize l
  /\ writeBufferIsBeingFilled l = false
  /\ writeBuffer l = otherBuffer l
  /\ (exists rb, deref l (readBuffer l) = Some rb
                 /\ holdsWindow s rb (k * bufferSize l) (bufferSize l))
  /\ (exists ob, deref l (otherBuffer l) = Some ob
                 /\ holdsWindow s ob ((k + 1) * bufferSize l) (bufferSize l)).

(** The fields of a loader other than the contents of its two buffers. *)
Definition control (l : SampleLoader) :=
  (bufferSize l, readBuffer l, writeBuffer l, sound l, readIndex l,
   positionInSampleFile l, writeBufferIsBeingFilled l, diskUsage l,
   lastCallToRequestData l, queuedJobs l, fillRequests l).

(** The disk usage measured by a job with clock readings [tk] that finds
    [lastCall] in [lastCallToRequestData]. *)
Definition diskUsageThisTime (tk : Ticks) (lastCall : double) : double :=
  ((readStop tk - readStart tk) / (readStop tk - lastCall))%Q.

(** The loader of a voice that plays nothing, with swap buffers of [n]
    frames: the fields [setBufferSize] assigns, no sound bound, no fill in
    flight. *)
Definition idleLoader (n : Z) : SampleLoader :=
  mkLoader n (clearedBuffer n) (clearedBuffer n) B1 B2 None 0 0 false 0%Q 0%Q 0 0.

(** The frame count of the spec, following its words: the ceiling of
    [framesNeeded], the sum over the output frames of the (modulated,
    clamped) pitch ratio, plus one. *)
Definition framesNeeded (cfg : Config) (v : StreamingSamplerVoice)
    (startSample numSamples : Z) : option double :=
  accumulatePitch cfg (uptimeDelta v) (pitchData v) startSample
    (Z.to_nat numSamples) 0%Q.

Definition specSamplesToCopy (cfg : Config) (v : StreamingSamplerVoice)
    (startSample numSamples : Z) : option Z :=
  needed <- framesNeeded cfg v startSample numSamples ;;
  Some (Qceiling needed + 1).

(** [voiceUptime] after [k] iterations of the render loop. *)
Fixpoint uptimeAt (cfg : Config) (delta : double) (pd : option (Z -> float))
    (startSample : Z) (uptime : double) (k : nat) : option double :=
  match k with
  | O => Some uptime
  | S k' =>
      uptime' <- advanceUptime cfg delta pd startSample uptime ;;
      uptimeAt cfg delta pd
        (if STAND_ALONE cfg then startSample + 1 else startSample) uptime' k'
  end.

(** Where the render loop reads at playback position [uptime] in a block
    fetched from frame [pos]: the index of the left neighbour is the whole
    part, and the weight of the right neighbour the fractional part, of the
    single-precision value of [uptime - pos]. *)
Definition indexAt (pos : Z) (uptime : double) : Z :=
  toInt (toFloat (uptime - ofInt pos)%Q).



(** Every index the render loop reads in [n] iterations is inside the work
    buffer, and the pitch data it needs is there. *)
Fixpoint indicesInBounds (cfg : Config) (delta : double) (pd : option (Z -> float))
    (work : AudioSampleBuffer) (pos : Z) (n : nat) (startSample : Z)
    (uptime : double) : bool :=
  match n with
  | O => true
  | S n' =>
      let index := indexAt pos uptime in
      (0 <=? index) && (index + 1 <? getNumSamples work)
      && match advanceUptime cfg delta pd startSample uptime with
         | Some uptime' =>
             indicesInBounds cfg delta pd work pos n'
               (if STAND_ALONE cfg then startSample + 1 else startSample) uptime'
         | None => false
         end
  end.

(** ** Examples used below: a ramp of ten frames, buffers of four frames *)

Definition ramp (n : nat) : MappedSource :=
  map (fun k => (inject_Z (Z.of_nat k), inject_Z (- Z.of_nat k))) (seq 0 n).

Definition exTicks : Ticks := mkTicks 1%Q 2%Q.

Definition exSync : Config := mkConfig 4 4%Q false true false.
Definition exBackground : Config := mkConfig 4 4%Q true true false.

Definition exSound : StreamingSamplerSound :=
  pr_sound (setPreloadSize (fun _ => true)
              (mkSound (ramp 10) 60 0 []
                 (fun note => if note =? 48 then (1 # 2)%Q else 1%Q)) 4).

(** The loader right after [startNote] with a background pool: the first
    fill is queued and has not run yet. *)
Definition exInFlight : SampleLoader :=
  match loaderStartNote exBackground exTicks (idleLoader 4) exSound with
  | Some l => l
  | None => idleLoader 4
  end.

(** The loader right after [startNote] without a background pool: the
    first fill has run inside the call. *)
Definition exStreaming : SampleLoader :=
  match loaderStartNote exSync exTicks (idleLoader 4) exSound with
  | Some l => l
  | None => idleLoader 4
  end.

(** A voice with a work buffer of eight frames, idle, then started on note
    60 (pitch factor 1) and on note 48 (pitch factor 1/2). *)
Definition exIdleVoice : StreamingSamplerVoice :=
  mkVoice (idleLoader 4) 0%Q 0%Q (clearedBuffer 8) None.

Definition exVoice : StreamingSamplerVoice :=
  match startNote exSync exTicks exIdleVoice 60 1%Q exSound with
  | Some v => v
  | None => exIdleVoice
  end.

Definition exVoiceHalf : StreamingSamplerVoice :=
  match startNote exSync exTicks exIdleVoice 48 1%Q exSound with
  | Some v => v
  | None => exIdleVoice
  end.

(** The same voice when its work buffer still holds the frames of an
    earlier block. *)
Definition exVoiceHalfStale : StreamingSamplerVoice :=
  mkVoice (loader exVoiceHalf) (voiceUptime exVoiceHalf) (uptimeDelta exVoiceHalf)
    (repeat (7%Q, 7%Q) 8) (pitchData exVoiceHalf).

(** An output buffer that another voice has already written to. *)
Definition exOutput : AudioSampleBuffer := repeat (10%Q, 10%Q) 4.

(** ** Vocabulary of the further properties *)

(** The size [setPreloadSize] settles on for a request. *)
Definition clampedSize (m : MappedSource) (requested : Z) : Z :=
  if (requested =? -1) || (mappedLength m <? requested)
  then mappedLength m else requested.

(** A caller that reads the stream block by block: each request starts
    where the previous one ended and goes into a fresh buffer of its own
    size; the frames delivered are collected in order. *)
Fixpoint readBlocks (cfg : Config) (tk : Ticks) (l : SampleLoader) (p : Z)
    (counts : list Z) : option (SampleLoader * list frame) :=
  match counts with
  | [] => Some (l, [])
  | c :: cs =>
      '(l1, d, _) <- fillSampleBlockBuffer cfg tk l (clearedBuffer c) c p ;;
      '(l2, rest) <- readBlocks cfg tk l1 (p + c) cs ;;
      Some (l2, d ++ rest)
  end.

(** The sum of the request sizes. *)
Definition totalFrames (counts : list Z) : Z := fold_right Z.add 0 counts.

(** A longer file for the examples of sequential reading: 24 frames. *)
Definition exLongSound : StreamingSamplerSound :=
  pr_sound (setPreloadSize (fun _ => true)
              (mkSound (ramp 24) 60 0 [] (fun _ => 1%Q)) 4).

(** A sound of the same length with other frames: the left channel is
    raised by 100. *)
Definition exOtherSound : StreamingSamplerSound :=
  pr_sound (setPreloadSize (fun _ => true)
              (mkSound (map (fun f => ((fst f + 100)%Q, snd f)) (ramp 24)) 60 0 []
                 (fun _ => 1%Q)) 4).

(** * Properties *)

(** ** Conversions *)

Lemma toInt_floor (x : Q) : (0 <= x)%Q -> toInt x = Qfloor x.
Proof.
  intros H. unfold toInt, Qfloor. destruct x as [a b]. simpl.
  apply Z.quot_div_nonneg; [|lia].
  unfold Qle in H. simpl in H. lia.
Qed.



Lemma roundDiv_one (a : Z) : roundDiv a 1 = a.
Proof.
  unfold roundDiv. rewrite Z.mod_1_r, Z.div_1_r. reflexivity.
Qed.



Lemma toFloat_exact (x : Q) : (roundBinary32 x == x)%Q -> toFloat x = x.
Proof.
  intros H. unfold toFloat. apply Qeq_bool_iff in H. rewrite H. reflexivity.
Qed.

(** The whole numbers up to [2^24] are single-precision numbers. *)
Lemma toFloat_whole (j : Z) :
  0 <= j <= 16777216 -> toFloat (inject_Z j) = inject_Z j.
Proof.
  intros Hj. apply toFloat_exact. unfold roundBinary32, inject_Z. cbn [Qnum Qden].
  destruct (j =? 0) eqn:E0; [apply Z.eqb_eq in E0; subst j; reflexivity|].
  apply Z.eqb_neq in E0.
  assert (Hpos : 0 < j) by lia.
  rewrite (Z.abs_eq j) by lia.
  pose proof (Z.log2_spec j Hpos) as (Hlo & Hhi).
  pose proof (Z.log2_nonneg j) as He0.
  assert (He : Z.log2 j <= 24).
  { change 24 with (Z.log2 16777216). apply Z.log2_le_mono. lia. }
  assert (Hfl : floorLog2 j 1 = Z.log2 j).
  { unfold floorLog2. change (Z.log2 1) with 0. rewrite Z.sub_0_r.
    destruct (0 <=? Z.log2 j) eqn:E; [|apply Z.leb_gt in E; lia].
    rewrite Z.mul_1_l.
    destruct (2 ^ Z.log2 j <=? j) eqn:E1; [reflexivity | apply Z.leb_gt in E1; lia]. }
  rewrite Hfl.
  rewrite Z.max_l by lia.
  destruct (0 <=? Z.log2 j - 23) eqn:Es.
  - apply Z.leb_le in Es.
    assert (Hcase : Z.log2 j = 23 \/ Z.log2 j = 24) by lia.
    destruct Hcase as [H23 | H24].
    + rewrite H23. change (2 ^ (23 - 23)) with 1. rewrite Z.mul_1_l, roundDiv_one.
      rewrite Z.mul_1_r. reflexivity.
    + rewrite H24 in *. change (2 ^ 24) with 16777216 in Hlo.
      assert (j = 16777216) as -> by lia. reflexivity.
  - apply Z.leb_gt in Es.
    rewrite roundDiv_one.
    assert (0 < 2 ^ (- (Z.log2 j - 23))) by (apply Z.pow_pos_nonneg; lia).
    unfold Qeq. cbn [Qnum Qden]. rewrite Z2Pos.id by assumption. lia.
Qed.

(** The literal [0.99999f] is the narrowing of 0.99999. *)
Lemma c_0_99999f_is_a_float : (toFloat (99999 # 100000) == c_0_99999f)%Q.
Proof. vm_compute. reflexivity. Qed.


(** ** Buffers and copies *)

(** Closes a goal [true = b] where [b] is a conjunction of integer
    comparisons that hold. *)
Ltac range_check :=
  symmetry; repeat (apply andb_true_intro; split);
  first [apply Z.leb_le | apply Z.ltb_lt]; lia.

Lemma zipSet_length (c : Channel) (vals dst : list frame) :
  length (zipSet c vals dst) = length dst.
Proof.
  revert dst. induction vals as [|v vs IH]; intros [|d ds]; simpl; auto.
Qed.

Lemma zipSet_both_channels (vals dst : list frame) :
  (length vals <= length dst)%nat ->
  zipSet Ch1 vals (zipSet Ch0 vals dst) = vals ++ skipn (length vals) dst.
Proof.
  revert dst. induction vals as [|[vl vr] vs IH]; intros [|d ds] Hlen; simpl in *;
    try reflexivity; try lia.
  f_equal. apply IH. lia.
Qed.

Lemma slice_length (b : AudioSampleBuffer) (off n : Z) :
  0 <= off -> 0 <= n -> off + n <= getNumSamples b ->
  length (slice b off n) = Z.to_nat n.
Proof.
  unfold slice, getNumSamples. intros Ho Hn Hb.
  rewrite length_firstn, length_skipn. lia.
Qed.

Lemma slice_slice (b : AudioSampleBuffer) (off len r n : Z) :
  0 <= off -> 0 <= r -> 0 <= n -> r + n <= len ->
  slice (slice b off len) r n = slice b (off + r) n.
Proof.
  unfold slice. intros Ho Hr Hn Hl.
  rewrite skipn_firstn_comm, firstn_firstn, skipn_skipn.
  replace (Init.Nat.min (Z.to_nat n) (Z.to_nat len - Z.to_nat r)) with (Z.to_nat n) by lia.
  replace (Z.to_nat r + Z.to_nat off)%nat with (Z.to_nat (off + r)) by lia.
  reflexivity.
Qed.

Lemma slice_whole_prefix (b : AudioSampleBuffer) (r n len : Z) :
  0 <= r -> 0 <= n -> r + n <= len ->
  slice b r n = slice (slice b 0 len) r n.
Proof.
  intros. rewrite slice_slice by lia. reflexivity.
Qed.

Lemma slice_app (b : AudioSampleBuffer) (off n k : Z) :
  0 <= off -> 0 <= n -> 0 <= k ->
  slice b off n ++ slice b (off + n) k = slice b off (n + k).
Proof.
  unfold slice. intros Ho Hn Hk.
  replace (Z.to_nat (off + n)) with (Z.to_nat n + Z.to_nat off)%nat by lia.
  rewrite <- skipn_skipn.
  replace (Z.to_nat (n + k)) with (Z.to_nat n + Z.to_nat k)%nat by lia.
  generalize (skipn (Z.to_nat off) b) as l. generalize (Z.to_nat n) as a.
  induction a as [|a IH]; intros [|x l]; simpl; try reflexivity.
  - now rewrite firstn_nil.
  - f_equal. apply IH.
Qed.

(** The two channel copies together replace whole frames. *)
Lemma copyStereo_defined (dst : AudioSampleBuffer) (dOff : Z)
    (src : AudioSampleBuffer) (sOff n : Z) :
  0 <= n -> 0 <= sOff -> sOff + n <= getNumSamples src ->
  0 <= dOff -> dOff + n <= getNumSamples dst ->
  copyStereo dst dOff src sOff n
  = Some (firstn (Z.to_nat dOff) dst ++ slice src sOff n
          ++ skipn (Z.to_nat (dOff + n)) dst).
Proof.
  intros Hn Hs Hsn Hd Hdn.
  assert (Hlen : length (slice src sOff n) = Z.to_nat n) by (apply slice_length; lia).
  unfold copyStereo, copyChannel.
  replace ((0 <=? n) && (0 <=? sOff) && (sOff + n <=? getNumSamples src)
           && (0 <=? dOff) && (dOff + n <=? getNumSamples dst)) with true
    by range_check.
  simpl.
  set (vals := slice src sOff n) in *.
  set (d0 := firstn (Z.to_nat dOff) dst ++ zipSet Ch0 vals (skipn (Z.to_nat dOff) dst)).
  assert (Hd0 : getNumSamples d0 = getNumSamples dst).
  { unfold d0, getNumSamples. rewrite length_app, zipSet_length, <- length_app.
    now rewrite firstn_skipn. }
  rewrite Hd0.
  replace ((0 <=? n) && (0 <=? sOff) && (sOff + n <=? getNumSamples src)
           && (0 <=? dOff) && (dOff + n <=? getNumSamples dst)) with true
    by range_check.
  assert (Hfl : length (firstn (Z.to_nat dOff) dst) = Z.to_nat dOff).
  { rewrite length_firstn. unfold getNumSamples in *. lia. }
  f_equal. unfold d0.
  rewrite firstn_app, Hfl, Nat.sub_diag, firstn_O, app_nil_r.
  rewrite firstn_all2 by (rewrite Hfl; lia).
  f_equal.
  rewrite skipn_app, Hfl, Nat.sub_diag. simpl skipn at 2.
  rewrite skipn_all2 by (rewrite Hfl; lia). simpl.
  rewrite zipSet_both_channels.
  - f_equal. rewrite Hlen, skipn_skipn. f_equal. lia.
  - rewrite Hlen, length_skipn. unfold getNumSamples in *. lia.
Qed.

(** Inside the mapped section the reader returns the frames of the file. *)
Lemma sourceFrames_in_range (m : MappedSource) (start n : Z) :
  0 <= start -> 0 <= n -> start + n <= mappedLength m ->
  sourceFrames m start n = slice m start n.
Proof.
  unfold sourceFrames, slice, mappedLength. intros Hs Hn Hl.
  assert (Hgen : forall (k : nat) (a : nat) (l : list frame),
             (k <= length l)%nat ->
             map (fun i => match nth_error l (i - a) with Some f => f | None => silence end)
                 (seq a k) = firstn k l).
  { induction k as [|k IH]; intros a l Hk; [reflexivity|].
    destruct l as [|x l]; [simpl in Hk; lia|].
    simpl. rewrite Nat.sub_diag. simpl. f_equal.
    rewrite <- (IH (S a) l) by (simpl in Hk; lia).
    apply map_ext_in. intros i Hi. apply in_seq in Hi.
    replace (i - a)%nat with (S (i - S a)) by lia. reflexivity. }
  rewrite <- (Hgen (Z.to_nat n) 0%nat) by (rewrite length_skipn; lia).
  apply map_ext_in. intros i Hi. apply in_seq in Hi.
  unfold sourceFrame, frameAt.
  destruct (start + Z.of_nat i <? 0) eqn:E; [apply Z.ltb_lt in E; lia|].
  rewrite Nat.sub_0_r, nth_error_skipn.
  replace (Z.to_nat (start + Z.of_nat i)) with (Z.to_nat start + i)%nat by lia.
  reflexivity.
Qed.

(** ** The loader *)

Lemma jmax_ge_left (a b : Q) : (a <= jmax a b)%Q.
Proof.
  unfold jmax, Qltb. destruct (Qle_bool b a) eqn:E; simpl.
  - apply Qle_refl.
  - apply Qlt_le_weak. apply Qnot_le_lt. intro H.
    apply Qle_bool_iff in H. congruence.
Qed.

Lemma jmax_ge_right (a b : Q) : (b <= jmax a b)%Q.
Proof.
  unfold jmax, Qltb. destruct (Qle_bool b a) eqn:E; simpl.
  - now apply Qle_bool_iff.
  - apply Qle_refl.
Qed.

Lemma store_control (l l' : SampleLoader) (r : BufferRef) (b : AudioSampleBuffer) :
  store l r b = Some l' -> control l' = control l.
Proof. destruct r; simpl; intros H; inversion H; reflexivity. Qed.

Lemma fillInactiveBuffer_control (l l' : SampleLoader) :
  fillInactiveBuffer l = Some l' -> control l' = control l.
Proof.
  unfold fillInactiveBuffer, obind.
  destruct (sound l) as [s|]; [|discriminate].
  destruct (hasEnoughSamplesForBlock s _).
  - destruct (deref l (writeBuffer l)) as [w|]; [|discriminate].
    destruct (fillSampleBuffer s w _ _) as [w'|]; [|discriminate].
    apply store_control.
  - intros H; inversion H; reflexivity.
Qed.

Lemma runJob_inv (tk : Ticks) (l l' : SampleLoader) :
  runJob tk l = Some l' ->
  exists l1, fillInactiveBuffer l = Some l1
    /\ l' = setUsage (setBeingFilled l1 false)
               (jmax (diskUsage l) (diskUsageThisTime tk (lastCallToRequestData l)))
               (readStart tk).
Proof.
  unfold runJob, obind. destruct (fillInactiveBuffer l) as [l1|] eqn:E; [|discriminate].
  intros H; inversion H; subst l'. exists l1. split; [reflexivity|].
  pose proof (fillInactiveBuffer_control _ _ E) as Hc. unfold control in Hc.
  inversion Hc. simpl. unfold diskUsageThisTime. simpl. congruence.
Qed.

(** The statements of a job, run one after the other with no call of the
    audio thread in between, are [runJob]. *)
Lemma jobSteps_uninterrupted (tk : Ticks) (l : SampleLoader) :
  jobSteps tk 7 AtReadStart l
  = match runJob tk l with Some l' => Some (None, l') | None => None end.
Proof.
  unfold runJob, fillInactiveBuffer. cbn [jobSteps jobStep].
  destruct (sound l) as [s|] eqn:Hs; cbn [obind]; [|reflexivity].
  destruct (hasEnoughSamplesForBlock s _); cbn [jobSteps jobStep].
  - rewrite Hs. cbn [obind jobSteps jobStep].
    destruct (deref l (writeBuffer l)) as [w|]; cbn [obind]; [|reflexivity].
    destruct (fillSampleBuffer s w _ _) as [w'|]; cbn [obind]; [|reflexivity].
    destruct (store l (writeBuffer l) w') as [l1|] eqn:Hst; cbn [obind]; [|reflexivity].
    reflexivity.
  - reflexivity.
Qed.

(** A step of the pool in that schedule is [runJob] on the loader that the
    thread found. *)
Lemma poolRunsJob_runJob (tk : Ticks) (l : SampleLoader) :
  poolRunsJob tk l
  = match queuedJobs l with
    | O => Some l
    | S n => runJob tk (setPool l n (fillRequests l))
    end.
Proof.
  unfold poolRunsJob, poolTakesJob. destruct (queuedJobs l); [reflexivity|].
  rewrite jobSteps_uninterrupted. destruct (runJob tk _); reflexivity.
Qed.

Lemma requestNewData_inv (cfg : Config) (tk : Ticks) (l l' : SampleLoader) :
  requestNewData cfg tk l = Some l' ->
  bufferSize l' = bufferSize l /\ readBuffer l' = readBuffer l
  /\ writeBuffer l' = writeBuffer l /\ sound l' = sound l
  /\ positionInSampleFile l' = positionInSampleFile l
  /\ fillRequests l' = S (fillRequests l)
  /\ (if USE_BACKGROUND_THREAD cfg
      then writeBufferIsBeingFilled l' = true /\ queuedJobs l' = S (queuedJobs l)
           /\ diskUsage l' = diskUsage l /\ b1 l' = b1 l /\ b2 l' = b2 l
      else writeBufferIsBeingFilled l' = false /\ queuedJobs l' = queuedJobs l
           /\ diskUsage l'
              = jmax (diskUsage l) (diskUsageThisTime tk (lastCallToRequestData l))).
Proof.
  unfold requestNewData. destruct (USE_BACKGROUND_THREAD cfg).
  - intros H; inversion H; subst l'; simpl. repeat split; reflexivity.
  - intros H. apply runJob_inv in H. destruct H as (l1 & Hf & ->).
    apply fillInactiveBuffer_control in Hf. unfold control in Hf.
    simpl in Hf. inversion Hf. simpl. repeat split; congruence.
Qed.

Lemma requestNewData_usage (cfg : Config) (tk : Ticks) (l l' : SampleLoader) :
  requestNewData cfg tk l = Some l' -> (diskUsage l <= diskUsage l')%Q.
Proof.
  intros H. apply requestNewData_inv in H.
  destruct H as (_ & _ & _ & _ & _ & _ & H).
  destruct (USE_BACKGROUND_THREAD cfg).
  - destruct H as (_ & _ & -> & _). apply Qle_refl.
  - destruct H as (_ & _ & ->). apply jmax_ge_left.
Qed.

(** With sizes in order, a job always runs to completion. *)
Lemma fillInactiveBuffer_defined (l : SampleLoader) (s : StreamingSamplerSound) :
  loaderWf l s -> writeBuffer l <> PreloadRef ->
  exists l', fillInactiveBuffer l = Some l'
    /\ getNumSamples (b1 l') = bufferSize l /\ getNumSamples (b2 l') = bufferSize l.
Proof.
  intros [Hs Hsz H1 H2 Hp Hpre] Hw.
  unfold fillInactiveBuffer. rewrite Hs. simpl.
  destruct (hasEnoughSamplesForBlock s _); [|exists l; auto].
  assert (Hd : exists w, deref l (writeBuffer l) = Some w
                         /\ getNumSamples w = bufferSize l).
  { destruct (writeBuffer l); [congruence| |]; simpl; eauto. }
  destruct Hd as (w & Hd & Hlen). rewrite Hd. simpl.
  assert (Hf : exists w', fillSampleBuffer s w (bufferSize l) (positionInSampleFile l)
                          = Some w' /\ getNumSamples w' = bufferSize l).
  { unfold fillSampleBuffer.
    destruct (_ <? preloadSize s) eqn:E.
    - apply Z.ltb_lt in E.
      rewrite copyStereo_defined by lia.
      eexists. split; [reflexivity|].
      unfold getNumSamples in *. rewrite !length_app, length_firstn, length_skipn.
      rewrite slice_length by (unfold getNumSamples; lia). simpl. lia.
    - unfold readerRead.
      destruct (bufferSize l <=? 0) eqn:E0; [apply Z.leb_le in E0; lia|].
      replace ((0 <=? 0) && (0 + bufferSize l <=? getNumSamples w)) with true
        by range_check.
      eexists. split; [reflexivity|].
      unfold getNumSamples in *. rewrite !length_app, length_firstn, length_skipn.
      unfold sourceFrames. rewrite length_map, length_seq. simpl. lia. }
  destruct Hf as (w' & Hf & Hlen'). rewrite Hf. simpl.
  destruct (writeBuffer l); [congruence| |]; simpl; eexists; split;
    try reflexivity; simpl; auto.
Qed.

Lemma requestNewData_defined (cfg : Config) (tk : Ticks) (l : SampleLoader)
    (s : StreamingSamplerSound) :
  loaderWf l s -> writeBuffer l <> PreloadRef ->
  exists l', requestNewData cfg tk l = Some l'
    /\ getNumSamples (b1 l') = bufferSize l /\ getNumSamples (b2 l') = bufferSize l.
Proof.
  intros Hwf Hw. pose proof Hwf as [Hs Hsz H1 H2 Hp Hpre].
  unfold requestNewData. destruct (USE_BACKGROUND_THREAD cfg).
  - eexists. split; [reflexivity|]. simpl. auto.
  - unfold runJob.
    destruct (fillInactiveBuffer_defined
                (setPool (setBeingFilled l true) (queuedJobs l) (S (fillRequests l))) s)
      as (l1 & Hf & Hb1 & Hb2).
    + constructor; simpl; auto.
    + simpl. exact Hw.
    + rewrite Hf. simpl. eexists. split; [reflexivity|]. simpl. auto.
Qed.

(** ** Swapping the buffers *)

Lemma swapBuffers_unfold (l : SampleLoader) :
  swapBuffers l
  = (if BufferRef_eqb (readBuffer l) B1 then setBuffers l B2 B1 else setBuffers l B1 B2,
     negb (writeBufferIsBeingFilled l)).
Proof.
  unfold swapBuffers. destruct (BufferRef_eqb (readBuffer l) B1); reflexivity.
Qed.

(** The two ways out of the slow path. *)
Lemma fillSampleBlockBuffer_slow_inv (cfg : Config) (tk : Ticks) (l l' : SampleLoader)
    (dest d : AudioSampleBuffer) (n p : Z) (oc : FillOutcome) :
  bufferSize l <= Z.rem p (bufferSize l) + n ->
  fillSampleBlockBuffer cfg tk l dest n p = Some (l', d, oc) ->
  (writeBufferIsBeingFilled l = true /\ l' = fst (swapBuffers l)
   /\ oc = BufferUnderrun)
  \/ (writeBufferIsBeingFilled l = false
      /\ requestNewData cfg tk
           (setPosition (fst (swapBuffers l))
              (positionInSampleFile (fst (swapBuffers l))
               + bufferSize (fst (swapBuffers l)))) = Some l'
      /\ oc = FillOk).
Proof.
  intros Hslow. unfold fillSampleBlockBuffer.
  destruct (bufferSize l =? 0); [discriminate|].
  destruct (_ <? bufferSize l) eqn:E; [apply Z.ltb_lt in E; lia|].
  unfold obind. destruct (deref l (readBuffer l)); [|discriminate].
  destruct (copyStereo dest 0 _ _ _); [|discriminate].
  rewrite swapBuffers_unfold.
  destruct (writeBufferIsBeingFilled l); cbn [negb fst].
  - intros H; injection H as <- _ <-. left. auto.
  - destruct (deref _ _); [|discriminate].
    destruct (copyStereo _ _ _ _ _); [|discriminate].
    destruct (requestNewData _ _ _) as [l2|] eqn:R; [|discriminate].
    intros H; injection H as <- _ <-. right. auto.
Qed.

(** C9.  [swapBuffers] exchanges the read and the write pointer whatever the
    state of the fill: the read buffer becomes [b2] when it was [b1] and
    [b1] otherwise, in particular when it was the preload buffer.  Its
    result only tells whether [writeBufferIsBeingFilled] is false; no other
    field changes.  On the slow path of [fillSampleBlockBuffer] the pointers
    of the resulting loader are the exchanged ones in both cases, while the
    stream offset advances by [bufferSize] and a fill is requested exactly
    when [swapBuffers] returned true; when it returned false the offset and
    the number of fill requests are unchanged and an underrun is
    reported. *)
Theorem swapBuffers_exchanges_unconditionally :
  forall (cfg : Config) (tk : Ticks) (l : SampleLoader)
         (dest : AudioSampleBuffer) (n p : Z),
    readBuffer (fst (swapBuffers l))
      = (if BufferRef_eqb (readBuffer l) B1 then B2 else B1)
    /\ writeBuffer (fst (swapBuffers l))
      = (if BufferRef_eqb (readBuffer l) B1 then B1 else B2)
    /\ (readBuffer l = PreloadRef -> readBuffer (fst (swapBuffers l)) = B1)
    /\ snd (swapBuffers l) = negb (writeBufferIsBeingFilled l)
    /\ positionInSampleFile (fst (swapBuffers l)) = positionInSampleFile l
    /\ writeBufferIsBeingFilled (fst (swapBuffers l)) = writeBufferIsBeingFilled l
    /\ fillRequests (fst (swapBuffers l)) = fillRequests l
    /\ b1 (fst (swapBuffers l)) = b1 l /\ b2 (fst (swapBuffers l)) = b2 l
    /\ (forall l' d oc,
          bufferSize l <= Z.rem p (bufferSize l) + n ->
          fillSampleBlockBuffer cfg tk l dest n p = Some (l', d, oc) ->
          readBuffer l' = readBuffer (fst (swapBuffers l))
          /\ writeBuffer l' = writeBuffer (fst (swapBuffers l))
          /\ if snd (swapBuffers l)
             then positionInSampleFile l' = positionInSampleFile l + bufferSize l
                  /\ fillRequests l' = S (fillRequests l) /\ oc = FillOk
             else positionInSampleFile l' = positionInSampleFile l
                  /\ fillRequests l' = fillRequests l /\ oc = BufferUnderrun).
Proof.
  intros cfg tk l dest n p.
  pose proof (swapBuffers_unfold l) as Hsw.
  rewrite Hsw. cbn [fst snd].
  repeat split; try (destruct (BufferRef_eqb (readBuffer l) B1); reflexivity).
  - intros ->. reflexivity.
  - destruct (fillSampleBlockBuffer_slow_inv _ _ _ _ _ _ _ _ _ H H0)
      as [(_ & -> & _) | (_ & R & _)]; [rewrite Hsw; reflexivity|].
    apply requestNewData_inv in R. destruct R as (_ & R & _). rewrite R, Hsw.
    reflexivity.
  - destruct (fillSampleBlockBuffer_slow_inv _ _ _ _ _ _ _ _ _ H H0)
      as [(_ & -> & _) | (_ & R & _)]; [rewrite Hsw; reflexivity|].
    apply requestNewData_inv in R. destruct R as (_ & _ & R & _). rewrite R, Hsw.
    reflexivity.
  - destruct (fillSampleBlockBuffer_slow_inv _ _ _ _ _ _ _ _ _ H H0)
      as [(Hf & -> & ->) | (Hf & R & ->)]; rewrite Hf; cbn [negb].
    + rewrite Hsw. destruct (BufferRef_eqb (readBuffer l) B1); auto.
    + apply requestNewData_inv in R.
      destruct R as (_ & _ & _ & _ & Rp & Rf & _). rewrite Rp, Rf, Hsw.
      destruct (BufferRef_eqb (readBuffer l) B1); cbn; auto.
Qed.

(** ** Underruns *)

(** C2, counterexample.  After [startNote] with a background pool the first
    fill is in flight.  A request that crosses the end of the read buffer
    then reports an underrun, and yet the loader it leaves has its read and
    write pointers exchanged: the read buffer, which was the preload buffer,
    is now [b1], which no job has filled.  The next request, for frame 4,
    stays inside that read buffer: it returns the cleared content of [b1]
    and reports nothing. *)
Lemma underrun_still_exchanges_buffers :
  writeBufferIsBeingFilled exInFlight = true
  /\ readBuffer exInFlight = PreloadRef /\ writeBuffer exInFlight = B1
  /\ exists l' d d',
       fillSampleBlockBuffer exBackground exTicks exInFlight (clearedBuffer 3) 2 3
       = Some (l', d, BufferUnderrun)
       /\ readBuffer l' = B1 /\ writeBuffer l' = B2
       /\ (readBuffer l', writeBuffer l') <> (readBuffer exInFlight, writeBuffer exInFlight)
       /\ writeBufferIsBeingFilled l' = true
       /\ fillSampleBlockBuffer exBackground exTicks l' (clearedBuffer 3) 1 4
          = Some (l', d', FillOk)
       /\ frameAt d' 0 = Some silence
       /\ frameAt (memoryReader exSound) 4 = Some (4%Q, (-4)%Q).
Proof.
  repeat split; try reflexivity.
  do 3 eexists. split; [vm_compute; reflexivity|].
  split; [reflexivity|]. split; [reflexivity|]. split; [discriminate|].
  split; [reflexivity|]. split; [vm_compute; reflexivity|].
  split; reflexivity.
Qed.

Lemma rem_bounds (p bs : Z) : 0 <= p -> 0 < bs -> 0 <= Z.rem p bs < bs.
Proof. intros. apply Z.rem_bound_pos; lia. Qed.

Lemma firstn_app_exact {A : Type} (a b : list A) (k : nat) :
  length a = k -> firstn k (a ++ b) = a.
Proof.
  intros <-. rewrite firstn_app, Nat.sub_diag, firstn_O, app_nil_r.
  apply firstn_all.
Qed.

Lemma skipn_app_beyond {A : Type} (a b : list A) (j : nat) :
  (length a <= j)%nat -> skipn j (a ++ b) = skipn (j - length a) b.
Proof.
  intros H. rewrite skipn_app, skipn_all2 by lia. reflexivity.
Qed.

Lemma deref_after_swap (l : SampleLoader) :
  deref (fst (swapBuffers l)) (readBuffer (fst (swapBuffers l)))
  = deref l (otherBuffer l).
Proof.
  unfold swapBuffers, otherBuffer.
  destruct (BufferRef_eqb (readBuffer l) B1); reflexivity.
Qed.

Lemma swapBuffers_wf (l : SampleLoader) (s : StreamingSamplerSound) (p : Z) :
  loaderWf l s -> 0 <= p ->
  loaderWf (setPosition (fst (swapBuffers l)) p) s
  /\ writeBuffer (setPosition (fst (swapBuffers l)) p) <> PreloadRef.
Proof.
  intros [Hs Hsz H1 H2 Hp Hpre] Hpos. unfold swapBuffers.
  destruct (BufferRef_eqb (readBuffer l) B1); simpl;
    (split; [constructor; simpl; auto | discriminate]).
Qed.

(** A request that crosses into the other buffer when no fill is in flight:
    the tail of the read buffer, then the head of the other buffer, and a
    new request for data. *)
Lemma fillSampleBlockBuffer_crossing (cfg : Config) (tk : Ticks) (l : SampleLoader)
    (s : StreamingSamplerSound) (dest : AudioSampleBuffer) (n p : Z)
    (rb ob : AudioSampleBuffer) :
  loaderWf l s -> 0 <= p ->
  deref l (readBuffer l) = Some rb -> bufferSize l <= getNumSamples rb ->
  deref l (otherBuffer l) = Some ob ->
  bufferSize l <= Z.rem p (bufferSize l) + n ->
  Z.rem p (bufferSize l) + n <= 2 * bufferSize l ->
  n <= getNumSamples dest ->
  writeBufferIsBeingFilled l = false ->
  exists l',
    fillSampleBlockBuffer cfg tk l dest n p
    = Some (l',
            slice rb (Z.rem p (bufferSize l)) (bufferSize l - Z.rem p (bufferSize l))
            ++ slice ob 0 (n - (bufferSize l - Z.rem p (bufferSize l)))
            ++ skipn (Z.to_nat n) dest,
            FillOk)
    /\ requestNewData cfg tk
         (setPosition (fst (swapBuffers l)) (positionInSampleFile l + bufferSize l))
       = Some l'.
Proof.
  intros Hwf Hp Hrb Hrblen Hob Hslow Hend Hn Hflag.
  pose proof Hwf as [Hs Hsz H1 H2 Hpos Hpre].
  set (bs := bufferSize l) in *.
  pose proof (rem_bounds p bs Hp Hsz) as Hr.
  set (r := Z.rem p bs) in *.
  assert (Hoblen : getNumSamples ob = bs).
  { revert Hob. unfold otherBuffer.
    destruct (BufferRef_eqb (readBuffer l) B1); simpl; intros H; injection H as <-;
      assumption. }
  unfold fillSampleBlockBuffer. fold bs. fold r.
  remember (swapBuffers l) as sw eqn:Hsw.
  destruct (bs =? 0) eqn:E0; [apply Z.eqb_eq in E0; lia|].
  destruct (r + n <? bs) eqn:E; [apply Z.ltb_lt in E; lia|].
  rewrite Hrb. cbn [obind].
  rewrite copyStereo_defined by lia. cbn [obind].
  replace (0 + (bs - r)) with (bs - r) by lia.
  change (firstn (Z.to_nat 0) dest) with (@nil frame). cbn [app].
  pose proof (deref_after_swap l) as Hderef.
  assert (Hokflag : snd (swapBuffers l) = true).
  { unfold swapBuffers. destruct (BufferRef_eqb _ _); simpl; rewrite Hflag; reflexivity. }
  assert (Hbs1 : bufferSize (fst (swapBuffers l)) = bs
                 /\ positionInSampleFile (fst (swapBuffers l)) = positionInSampleFile l).
  { unfold swapBuffers. destruct (BufferRef_eqb _ _); simpl; auto. }
  destruct (swapBuffers_wf l s (positionInSampleFile l + bs) Hwf ltac:(lia))
    as (Hwf1 & Hw1).
  rewrite <- Hsw in Hderef, Hokflag, Hbs1, Hwf1, Hw1.
  destruct sw as [l1 ok]. cbn [fst snd] in *. subst ok.
  rewrite Hderef, Hob. cbn [obind].
  assert (Hd1len : length (slice rb r (bs - r)) = Z.to_nat (bs - r)).
  { apply slice_length; lia. }
  rewrite copyStereo_defined;
    [| lia | lia | lia | lia
     | unfold getNumSamples in *; rewrite length_app, length_skipn, Hd1len; lia].
  cbn [obind].
  destruct Hbs1 as (Hb1 & Hp1). rewrite Hb1, Hp1.
  destruct (requestNewData_defined cfg tk
              (setPosition l1 (positionInSampleFile l + bs)) s Hwf1 Hw1)
    as (l2 & Hreq & _).
  rewrite Hreq. cbn [obind].
  rewrite firstn_app_exact by exact Hd1len.
  rewrite skipn_app_beyond by (rewrite Hd1len; lia).
  rewrite Hd1len, skipn_skipn.
  replace (Z.to_nat (bs - r + (n - (bs - r))) - Z.to_nat (bs - r) + Z.to_nat (bs - r))%nat
    with (Z.to_nat n) by lia.
  exists l2. split; reflexivity.
Qed.

(** C2, as amended.  A request that stays inside the read buffer leaves the
    loader, and so the read and write designation, as it was.  A request
    that reaches the end of the read buffer exchanges the read and the write
    pointer whether or not the fill of the other buffer has completed:
    whenever the call returns, the read buffer is the other buffer, and an
    underrun is reported exactly when the fill flag was set.  When the fill
    has completed, the call returns: it copies the tail of the read buffer
    and then the head of the other buffer, advances the stream offset by
    [bufferSize], requests a new fill and reports no underrun.  When the
    fill is still in flight, the call returns too: it copies the tail of the
    read buffer only, nothing from the other buffer, and reports an
    underrun; the stream offset, the fill flag and the number of fill
    requests are unchanged, but the pointers have been exchanged all the
    same. *)
Theorem fillSampleBlockBuffer_swap_discipline :
  forall (cfg : Config) (tk : Ticks) (l : SampleLoader)
         (dest : AudioSampleBuffer) (n p : Z) (rb : AudioSampleBuffer),
    0 < bufferSize l -> 0 <= p ->
    deref l (readBuffer l) = Some rb -> bufferSize l <= getNumSamples rb ->
    (Z.rem p (bufferSize l) + n < bufferSize l -> 0 <= n <= getNumSamples dest ->
     fillSampleBlockBuffer cfg tk l dest n p
     = Some (l, slice rb (Z.rem p (bufferSize l)) n ++ skipn (Z.to_nat n) dest, FillOk))
    /\ (bufferSize l <= Z.rem p (bufferSize l) + n ->
        forall l' d oc,
          fillSampleBlockBuffer cfg tk l dest n p = Some (l', d, oc) ->
          readBuffer l' = otherBuffer l
          /\ writeBuffer l' = (if BufferRef_eqb (readBuffer l) B1 then B1 else B2)
          /\ readBuffer l' <> readBuffer l
          /\ (oc = BufferUnderrun <-> writeBufferIsBeingFilled l = true)
          /\ (oc = FillOk <-> writeBufferIsBeingFilled l = false))
    /\ (bufferSize l <= Z.rem p (bufferSize l) + n ->
        writeBufferIsBeingFilled l = false ->
        forall s ob,
          loaderWf l s -> deref l (otherBuffer l) = Some ob ->
          Z.rem p (bufferSize l) + n <= 2 * bufferSize l ->
          n <= getNumSamples dest ->
          exists l',
            fillSampleBlockBuffer cfg tk l dest n p
            = Some (l',
                    slice rb (Z.rem p (bufferSize l))
                      (bufferSize l - Z.rem p (bufferSize l))
                    ++ slice ob 0 (n - (bufferSize l - Z.rem p (bufferSize l)))
                    ++ skipn (Z.to_nat n) dest,
                    FillOk)
            /\ readBuffer l' = otherBuffer l
            /\ readBuffer l' <> readBuffer l
            /\ positionInSampleFile l' = positionInSampleFile l + bufferSize l
            /\ fillRequests l' = S (fillRequests l))
    /\ (bufferSize l <= Z.rem p (bufferSize l) + n ->
        bufferSize l - Z.rem p (bufferSize l) <= getNumSamples dest ->
        writeBufferIsBeingFilled l = true ->
        fillSampleBlockBuffer cfg tk l dest n p
        = Some (fst (swapBuffers l),
                slice rb (Z.rem p (bufferSize l)) (bufferSize l - Z.rem p (bufferSize l))
                ++ skipn (Z.to_nat (bufferSize l - Z.rem p (bufferSize l))) dest,
                BufferUnderrun)
        /\ readBuffer (fst (swapBuffers l)) = otherBuffer l
        /\ readBuffer (fst (swapBuffers l)) <> readBuffer l
        /\ positionInSampleFile (fst (swapBuffers l)) = positionInSampleFile l
        /\ writeBufferIsBeingFilled (fst (swapBuffers l)) = true
        /\ queuedJobs (fst (swapBuffers l)) = queuedJobs l
        /\ fillRequests (fst (swapBuffers l)) = fillRequests l).
Proof.
  intros cfg tk l dest n p rb Hbs Hp Hrb Hlen.
  pose proof (rem_bounds p (bufferSize l) Hp Hbs) as Hr.
  assert (Hex : readBuffer (fst (swapBuffers l)) = otherBuffer l
                /\ writeBuffer (fst (swapBuffers l))
                   = (if BufferRef_eqb (readBuffer l) B1 then B1 else B2)
                /\ readBuffer (fst (swapBuffers l)) <> readBuffer l
                /\ positionInSampleFile (fst (swapBuffers l)) = positionInSampleFile l
                /\ bufferSize (fst (swapBuffers l)) = bufferSize l
                /\ fillRequests (fst (swapBuffers l)) = fillRequests l).
  { unfold swapBuffers, otherBuffer.
    destruct (readBuffer l) eqn:Er; simpl; repeat split; auto; discriminate. }
  destruct Hex as (Hex1 & Hex2 & Hex3 & Hex4 & Hex5 & Hex6).
  split; [|split; [|split]].
  - intros Hfast Hn. unfold fillSampleBlockBuffer.
    destruct (bufferSize l =? 0) eqn:E0; [apply Z.eqb_eq in E0; lia|].
    destruct (_ <? bufferSize l) eqn:E; [|apply Z.ltb_ge in E; lia].
    rewrite Hrb. simpl. rewrite copyStereo_defined by lia. reflexivity.
  - intros Hslow l' d oc H.
    destruct (fillSampleBlockBuffer_slow_inv _ _ _ _ _ _ _ _ _ Hslow H)
      as [(Hf & -> & ->) | (Hf & R & ->)].
    + rewrite Hf. repeat split; auto; discriminate.
    + apply requestNewData_inv in R. destruct R as (_ & Rr & Rw & _).
      cbn [readBuffer writeBuffer setPosition] in Rr, Rw.
      rewrite Rr, Rw, Hf. repeat split; auto; discriminate.
  - intros Hslow Hflag s ob Hwf Hob Hend Hn.
    destruct (fillSampleBlockBuffer_crossing cfg tk l s dest n p rb ob
                Hwf Hp Hrb Hlen Hob Hslow Hend Hn Hflag) as (l' & Hrun & R).
    exists l'. split; [exact Hrun|].
    apply requestNewData_inv in R. destruct R as (_ & Rr & _ & _ & Rp & Rf & _).
    cbn [readBuffer positionInSampleFile fillRequests setPosition] in Rr, Rp, Rf.
    rewrite Rr, Rp, Rf, Hex6. repeat split; auto.
  - intros Hslow Hd Hflag. split.
    + unfold fillSampleBlockBuffer.
      destruct (bufferSize l =? 0) eqn:E0; [apply Z.eqb_eq in E0; lia|].
      destruct (_ <? bufferSize l) eqn:E; [apply Z.ltb_lt in E; lia|].
      rewrite Hrb. simpl. rewrite copyStereo_defined by lia. simpl.
      unfold swapBuffers.
      destruct (BufferRef_eqb (readBuffer l) B1); simpl; rewrite Hflag; reflexivity.
    + unfold swapBuffers, otherBuffer.
      destruct (readBuffer l) eqn:Er; simpl; repeat split; auto; discriminate.
Qed.

Lemma fillSampleBlockBuffer_swap_discipline_witness :
  fillSampleBlockBuffer exBackground exTicks exInFlight (clearedBuffer 3) 1 2
  = Some (exInFlight,
          slice (preloadBuffer exSound) 2 1 ++ skipn 1 (clearedBuffer 3), FillOk)
  /\ readBuffer (fst (swapBuffers exInFlight)) <> readBuffer exInFlight
  /\ exists l',
       fillSampleBlockBuffer exSync exTicks exStreaming (clearedBuffer 3) 2 3
       = Some (l', slice (preloadBuffer exSound) 3 1 ++ slice (b1 exStreaming) 0 1
                   ++ skipn 2 (clearedBuffer 3), FillOk)
       /\ readBuffer l' = B1 /\ readBuffer exStreaming = PreloadRef.
Proof.
  pose proof (fillSampleBlockBuffer_swap_discipline exBackground exTicks exInFlight
                (clearedBuffer 3) 1 2 (preloadBuffer exSound)) as H.
  destruct H as [Hfast _]; [reflexivity | lia | reflexivity | vm_compute; discriminate |].
  split; [|split].
  - apply Hfast; vm_compute; [reflexivity | split; discriminate].
  - pose proof (fillSampleBlockBuffer_swap_discipline exBackground exTicks exInFlight
                  (clearedBuffer 3) 2 3 (preloadBuffer exSound)) as H.
    destruct H as (_ & _ & _ & Hslow);
      [reflexivity | lia | reflexivity | vm_compute; discriminate |].
    apply Hslow; vm_compute; [discriminate | discriminate | reflexivity].
  - pose proof (fillSampleBlockBuffer_swap_discipline exSync exTicks exStreaming
                  (clearedBuffer 3) 2 3 (preloadBuffer exSound)) as H.
    destruct H as (_ & _ & Hdone & _);
      [reflexivity | lia | reflexivity | vm_compute; discriminate |].
    destruct (Hdone ltac:(vm_compute; discriminate) eq_refl exSound (b1 exStreaming))
      as (l' & Hrun & Hr & _).
    + constructor; vm_compute; try reflexivity; discriminate.
    + reflexivity.
    + vm_compute; discriminate.
    + vm_compute; discriminate.
    + exists l'. split; [exact Hrun|]. split; [exact Hr | reflexivity].
Defined.

(** ** Disk usage *)

Lemma fillSampleBlockBuffer_usage (cfg : Config) (tk : Ticks) (l l' : SampleLoader)
    (dest d : AudioSampleBuffer) (n p : Z) (oc : FillOutcome) :
  fillSampleBlockBuffer cfg tk l dest n p = Some (l', d, oc) ->
  (diskUsage l <= diskUsage l')%Q.
Proof.
  unfold fillSampleBlockBuffer.
  destruct (bufferSize l =? 0); [discriminate|].
  unfold obind. destruct (_ <? bufferSize l).
  - destruct (deref l (readBuffer l)); [|discriminate].
    destruct (copyStereo _ _ _ _ _); [|discriminate].
    intros H; inversion H; subst. apply Qle_refl.
  - destruct (deref l (readBuffer l)); [|discriminate].
    destruct (copyStereo _ _ _ _ _); [|discriminate].
    assert (Hsw : diskUsage (fst (swapBuffers l)) = diskUsage l).
    { unfold swapBuffers. destruct (BufferRef_eqb _ _); reflexivity. }
    destruct (swapBuffers l) as [l1 ok]. simpl in Hsw.
    destruct ok.
    + destruct (deref _ _); [|discriminate].
      destruct (copyStereo _ _ _ _ _); [|discriminate].
      destruct (requestNewData _ _ _) as [l2|] eqn:R; [|discriminate].
      intros H; inversion H; subst.
      apply requestNewData_usage in R. simpl in R. now rewrite Hsw in R.
    + intros H; inversion H; subst. rewrite Hsw. apply Qle_refl.
Qed.

(** C8.  [startNote] clears the disk usage: the value it leaves does not
    depend on the previous one; it is 0 unless the first fill ran to
    completion inside the call (no background pool, no fill in flight), in
    which case it is the peak of 0 and that fill's measurement.  Every job
    that completes sets the usage to [jmax] of the previous usage and of
    read time over time since [lastCallToRequestData], so the usage never
    decreases across a job, a pool step, a swap or a block request. *)
Theorem diskUsage_is_a_peak_indicator :
  forall (cfg : Config) (tk : Ticks),
    (forall l s l',
        loaderStartNote cfg tk l s = Some l' ->
        diskUsage l'
        = if USE_BACKGROUND_THREAD cfg || writeBufferIsBeingFilled l then 0%Q
          else jmax 0 (diskUsageThisTime tk (lastCallToRequestData l)))
    /\ (forall l l',
          runJob tk l = Some l' ->
          diskUsage l' = jmax (diskUsage l)
                           (diskUsageThisTime tk (lastCallToRequestData l))
          /\ (diskUsage l <= diskUsage l')%Q
          /\ (diskUsageThisTime tk (lastCallToRequestData l) <= diskUsage l')%Q
          /\ writeBufferIsBeingFilled l' = false)
    /\ (forall l l', poolRunsJob tk l = Some l' -> (diskUsage l <= diskUsage l')%Q)
    /\ (forall l, diskUsage (fst (swapBuffers l)) = diskUsage l)
    /\ (forall l dest n p l' d oc,
          fillSampleBlockBuffer cfg tk l dest n p = Some (l', d, oc) ->
          (diskUsage l <= diskUsage l')%Q).
Proof.
  intros cfg tk. repeat split.
  - intros l s l'. unfold loaderStartNote. simpl.
    destruct (writeBufferIsBeingFilled l); simpl.
    + rewrite orb_true_r. intros H; inversion H; reflexivity.
    + rewrite orb_false_r. intros H. apply requestNewData_inv in H.
      destruct H as (_ & _ & _ & _ & _ & _ & H).
      destruct (USE_BACKGROUND_THREAD cfg).
      * destruct H as (_ & _ & H & _). exact H.
      * destruct H as (_ & _ & H). exact H.
  - apply runJob_inv in H. destruct H as (l1 & _ & ->). reflexivity.
  - apply runJob_inv in H. destruct H as (l1 & _ & ->). apply jmax_ge_left.
  - apply runJob_inv in H. destruct H as (l1 & _ & ->). apply jmax_ge_right.
  - apply runJob_inv in H. destruct H as (l1 & _ & ->). reflexivity.
  - intros l l'. rewrite poolRunsJob_runJob. destruct (queuedJobs l).
    + intros H; inversion H; apply Qle_refl.
    + intros H. apply runJob_inv in H. destruct H as (l1 & _ & ->).
      simpl. apply jmax_ge_left.
  - intros l. unfold swapBuffers. destruct (BufferRef_eqb _ _); reflexivity.
  - intros. eapply fillSampleBlockBuffer_usage; eauto.
Qed.

(** ** Starting a note *)

Lemma jmin_is_min (a b : Q) : (jmin a b == Qmin a b)%Q.
Proof.
  unfold jmin, Qltb. destruct (Qle_bool a b) eqn:E; simpl.
  - apply Qle_bool_iff in E. symmetry. now apply Q.min_l.
  - assert (H : (b <= a)%Q).
    { apply Qlt_le_weak, Qnot_le_lt. intro H. apply Qle_bool_iff in H. congruence. }
    symmetry. now apply Q.min_r.
Qed.

(** C7.  [startNote] on a voice whose loader has buffers of [bufferSize]
    frames: the read buffer is the preload buffer of the sound, the write
    buffer is [b1], the stream offset is [bufferSize], the playback position
    is 0, the pitch ratio is the smaller of the sound's pitch factor for the
    note and [MAX_SAMPLER_PITCH], and a fill of [b1] is requested (and, with
    a background pool, queued) exactly when no fill was in flight. *)
Theorem startNote_binds_preload :
  forall (cfg : Config) (tk : Ticks) (v : StreamingSamplerVoice)
         (midiNoteNumber : Z) (velocity : float) (s : StreamingSamplerSound),
    0 < bufferSize (loader v) ->
    getNumSamples (b1 (loader v)) = bufferSize (loader v) ->
    getNumSamples (b2 (loader v)) = bufferSize (loader v) ->
    preloadSize s <= getNumSamples (preloadBuffer s) ->
    exists v',
      startNote cfg tk v midiNoteNumber velocity s = Some v'
      /\ readBuffer (loader v') = PreloadRef
      /\ deref (loader v') (readBuffer (loader v')) = Some (preloadBuffer s)
      /\ writeBuffer (loader v') = B1
      /\ sound (loader v') = Some s
      /\ positionInSampleFile (loader v') = bufferSize (loader v)
      /\ bufferSize (loader v') = bufferSize (loader v)
      /\ voiceUptime v' = 0%Q
      /\ uptimeDelta v' = jmin (getPitchFactor s midiNoteNumber) (MAX_SAMPLER_PITCH cfg)
      /\ (uptimeDelta v' == Qmin (getPitchFactor s midiNoteNumber) (MAX_SAMPLER_PITCH cfg))%Q
      /\ fillRequests (loader v')
         = (if writeBufferIsBeingFilled (loader v) then fillRequests (loader v)
            else S (fillRequests (loader v)))
      /\ (USE_BACKGROUND_THREAD cfg = true ->
          writeBufferIsBeingFilled (loader v') = true
          /\ queuedJobs (loader v')
             = (if writeBufferIsBeingFilled (loader v) then queuedJobs (loader v)
                else S (queuedJobs (loader v)))).
Proof.
  intros cfg tk v midi vel s Hbs Hb1 Hb2 Hpre.
  unfold startNote, loaderStartNote. simpl.
  destruct (writeBufferIsBeingFilled (loader v)) eqn:Hflag; simpl.
  - eexists. split; [reflexivity|]. simpl.
    repeat split; auto. apply jmin_is_min.
  - set (l1 := mkLoader _ _ _ _ _ _ _ _ _ _ _ _ _).
    destruct (requestNewData_defined cfg tk l1 s) as (l' & Hreq & _).
    { constructor; simpl; auto; lia. }
    { simpl. discriminate. }
    rewrite Hreq. simpl. eexists. split; [reflexivity|]. simpl.
    apply requestNewData_inv in Hreq.
    destruct Hreq as (Hsz & Hr & Hw & Hs & Hp & Hf & Hmode). simpl in *.
    rewrite Hr, Hs. simpl.
    repeat split; auto; try apply jmin_is_min;
      try (rewrite Hs; reflexivity);
      match goal with
      | Hbg : USE_BACKGROUND_THREAD cfg = true |- _ => rewrite Hbg in Hmode; tauto
      end.
Qed.

Lemma startNote_binds_preload_witness :
  exists v',
    startNote exSync exTicks
      (mkVoice (idleLoader 4) 0%Q 0%Q (clearedBuffer 8) None) 60 1%Q exSound = Some v'
    /\ readBuffer (loader v') = PreloadRef
    /\ positionInSampleFile (loader v') = 4
    /\ fillRequests (loader v') = 1%nat.
Proof.
  destruct (startNote_binds_preload exSync exTicks
              (mkVoice (idleLoader 4) 0%Q 0%Q (clearedBuffer 8) None) 60 1%Q exSound)
    as (v' & H & Hr & _ & _ & _ & Hp & _ & _ & _ & _ & Hf & _);
    [reflexivity | reflexivity | reflexivity | vm_compute; discriminate |].
  exists v'. repeat split; assumption.
Defined.

(** ** The preload size *)

Lemma setPreloadSize_size (allocOk : Z -> bool) (s : StreamingSamplerSound) (n : Z) :
  preloadSize (pr_sound (setPreloadSize allocOk s n))
  = if (n =? -1) || (mappedLength (memoryReader s) <? n)
    then mappedLength (memoryReader s) else n.
Proof.
  unfold setPreloadSize. simpl.
  destruct ((n =? -1) || (mappedLength (memoryReader s) <? n)); simpl;
    match goal with |- context [allocOk ?x] => destruct (allocOk x) end; reflexivity.
Qed.

(** When the allocation succeeds and the size is not negative, the preload
    buffer holds the first [preloadSize] frames of the file. *)
Lemma setPreloadSize_preloaded (allocOk : Z -> bool) (s : StreamingSamplerSound) (n : Z) :
  pr_error (setPreloadSize allocOk s n) = None ->
  0 <= preloadSize (pr_sound (setPreloadSize allocOk s n)) ->
  memoryReader (pr_sound (setPreloadSize allocOk s n)) = memoryReader s
  /\ preloaded (pr_sound (setPreloadSize allocOk s n)).
Proof.
  assert (Hle : preloadSize (pr_sound (setPreloadSize allocOk s n))
                <= mappedLength (memoryReader s)).
  { rewrite setPreloadSize_size.
    destruct (n =? -1) eqn:E1; simpl; [lia|].
    destruct (mappedLength (memoryReader s) <? n) eqn:E2; [lia|].
    apply Z.ltb_ge in E2. lia. }
  revert Hle. unfold preloaded, setPreloadSize. simpl.
  set (s2 := if (n =? -1) || (mappedLength (memoryReader s) <? n) then _ else _).
  assert (Hm : memoryReader s2 = memoryReader s).
  { unfold s2. destruct ((n =? -1) || _); reflexivity. }
  destruct (allocOk (preloadSize s2)); simpl; [|discriminate].
  intros Hle _ Hnn. rewrite Hm. split; [reflexivity|]. split; [lia|].
  unfold readerRead.
  destruct (preloadSize s2 <=? 0) eqn:E0.
  - apply Z.leb_le in E0. assert (preloadSize s2 = 0) as -> by lia. reflexivity.
  - apply Z.leb_gt in E0.
    assert (Hc : getNumSamples (clearedBuffer (preloadSize s2)) = preloadSize s2).
    { unfold getNumSamples, clearedBuffer. rewrite repeat_length. lia. }
    rewrite Hc.
    replace ((0 <=? 0) && (0 + preloadSize s2 <=? preloadSize s2)) with true
      by range_check.
    simpl firstn. rewrite skipn_all2
      by (unfold getNumSamples in Hc; simpl; lia).
    rewrite app_nil_r. simpl.
    rewrite sourceFrames_in_range by lia. reflexivity.
Qed.

(** C6.  The preload size after [setPreloadSize] is the mapped length when
    the requested size is -1 or at least the mapped length, and the
    requested size otherwise; a successful load leaves the same clamp of
    [PRELOAD_SIZE]. *)
Theorem setPreloadSize_clamps :
  forall (allocOk : Z -> bool) (s : StreamingSamplerSound) (n : Z),
    preloadSize (pr_sound (setPreloadSize allocOk s n))
    = (if (n =? -1) || (mappedLength (memoryReader s) <=? n)
       then mappedLength (memoryReader s) else n)
    /\ (forall cfg m root pitch s',
          load cfg allocOk (Some m) root pitch = inl s' ->
          memoryReader s' = m
          /\ preloadSize s'
             = (if (PRELOAD_SIZE cfg =? -1) || (mappedLength m <=? PRELOAD_SIZE cfg)
                then mappedLength m else PRELOAD_SIZE cfg)).
Proof.
  intros allocOk s n.
  assert (Hclamp : forall s0 k,
             preloadSize (pr_sound (setPreloadSize allocOk s0 k))
             = (if (k =? -1) || (mappedLength (memoryReader s0) <=? k)
                then mappedLength (memoryReader s0) else k)).
  { intros s0 k. rewrite setPreloadSize_size.
    pose proof (Zle_cases (mappedLength (memoryReader s0)) k).
    pose proof (Zlt_cases (mappedLength (memoryReader s0)) k).
    destruct (k =? -1); simpl; [reflexivity|].
    destruct (_ <=? k), (_ <? k); try reflexivity; lia. }
  split; [apply Hclamp|].
  intros cfg m root pitch s'. unfold load.
  destruct (0 <? mappedLength m); [|discriminate].
  destruct (pr_error _) eqn:E; [discriminate|].
  intros H; inversion H; subst s'. split.
  - unfold setPreloadSize. simpl.
    destruct ((PRELOAD_SIZE cfg =? -1) || _); simpl;
      match goal with |- context [allocOk ?x] => destruct (allocOk x) end; reflexivity.
  - rewrite Hclamp. reflexivity.
Qed.

(** C10.  A negative request other than -1 passes both tests of the clamp:
    it is kept as the preload size, and it is the length of the allocation
    and, when the allocation succeeds, the count of the read. *)
Theorem negative_preload_size_is_kept :
  forall (allocOk : Z -> bool) (s : StreamingSamplerSound) (n : Z),
    n < 0 -> n <> -1 ->
    preloadSize (pr_sound (setPreloadSize allocOk s n)) = n
    /\ pr_trace (setPreloadSize allocOk s n)
       = (if allocOk n then [EvAlloc 2 n; EvRead 0 n 0] else [EvAlloc 2 n]).
Proof.
  intros allocOk s n Hneg Hne.
  unfold setPreloadSize. simpl.
  destruct (n =? -1) eqn:E1; [apply Z.eqb_eq in E1; lia|].
  destruct (mappedLength (memoryReader s) <? n) eqn:E2;
    [apply Z.ltb_lt in E2; unfold mappedLength in E2; lia|].
  simpl. destruct (allocOk n); split; reflexivity.
Qed.

Lemma negative_preload_size_is_kept_witness :
  preloadSize (pr_sound (setPreloadSize (fun _ => true) exSound (-2))) = -2
  /\ pr_trace (setPreloadSize (fun _ => true) exSound (-2))
     = [EvAlloc 2 (-2); EvRead 0 (-2) 0].
Proof.
  apply (negative_preload_size_is_kept (fun _ => true) exSound (-2)); lia.
Defined.

(** ** The end of the sample *)

(** C4.  When the sound is bound and [pos + samplesToCopy] is not below the
    end of the mapped section, [renderNextBlock] returns the output buffer
    as it received it, with the voice reset and no underrun reported; the
    reset voice is Finished and every later [renderNextBlock] on it returns
    the voice and the output buffer unchanged. *)
Theorem renderNextBlock_end_of_sample :
  forall (cfg : Config) (tk : Ticks) (v : StreamingSamplerVoice)
         (s : StreamingSamplerSound) (out : AudioSampleBuffer)
         (startSample numSamples n : Z),
    sound (loader v) = Some s ->
    samplesToCopy cfg v startSample numSamples = Some n ->
    hasEnoughSamplesForBlock s (toInt (voiceUptime v) + n) = false ->
    mappedEnd (memoryReader s) <= toInt (voiceUptime v) + n
    /\ renderNextBlock cfg tk v out startSample numSamples
       = Some (resetVoice v, out, FillOk)
    /\ isFinished (resetVoice v) = true
    /\ (forall cfg' tk' out' startSample' numSamples',
          renderNextBlock cfg' tk' (resetVoice v) out' startSample' numSamples'
          = Some (resetVoice v, out', FillOk)).
Proof.
  intros cfg tk v s out ss ns n Hs Hn He.
  split; [unfold hasEnoughSamplesForBlock in He; apply Z.ltb_ge in He; exact He|].
  split; [|split; [reflexivity | intros; reflexivity]].
  unfold renderNextBlock. rewrite Hs, Hn. simpl. rewrite He. reflexivity.
Qed.

Lemma renderNextBlock_end_of_sample_witness :
  renderNextBlock exSync exTicks
    (mkVoice exStreaming 8%Q 1%Q (clearedBuffer 8) None) (clearedBuffer 4) 0 4
  = Some (resetVoice (mkVoice exStreaming 8%Q 1%Q (clearedBuffer 8) None),
          clearedBuffer 4, FillOk).
Proof.
  apply (renderNextBlock_end_of_sample exSync exTicks
           (mkVoice exStreaming 8%Q 1%Q (clearedBuffer 8) None)
           exSound (clearedBuffer 4) 0 4 4); reflexivity.
Defined.

(** ** Transparency of the double buffering *)

Lemma rem_in_window (p bs k : Z) :
  0 < bs -> 0 <= k -> k * bs <= p < (k + 1) * bs -> Z.rem p bs = p - k * bs.
Proof.
  intros Hbs Hk Hp.
  rewrite Z.rem_mod_nonneg by nia.
  symmetry. apply Z.mod_unique_pos with k; nia.
Qed.

Lemma holdsWindow_length (s : StreamingSamplerSound) (buf : AudioSampleBuffer)
    (base size : Z) :
  0 <= size -> holdsWindow s buf base size -> size <= getNumSamples buf.
Proof.
  intros Hsz (Hb & Hm & Heq).
  assert (Hl : length (slice buf 0 size) = Z.to_nat size).
  { rewrite Heq. apply slice_length; unfold mappedLength, getNumSamples in *; lia. }
  unfold slice in Hl. simpl in Hl. rewrite length_firstn in Hl.
  unfold getNumSamples. lia.
Qed.

Lemma holdsWindow_slice (s : StreamingSamplerSound) (buf : AudioSampleBuffer)
    (base size r n : Z) :
  holdsWindow s buf base size -> 0 <= r -> 0 <= n -> r + n <= size ->
  slice buf r n = slice (memoryReader s) (base + r) n.
Proof.
  intros (Hb & Hm & Heq) Hr Hn Hrn.
  rewrite (slice_whole_prefix buf r n size) by lia.
  rewrite Heq. apply slice_slice; lia.
Qed.

Lemma directRead_in_range (s : StreamingSamplerSound) (dest : AudioSampleBuffer)
    (n p : Z) :
  0 <= p -> 0 <= n <= getNumSamples dest -> p + n <= mappedLength (memoryReader s) ->
  directRead s dest n p
  = Some (slice (memoryReader s) p n ++ skipn (Z.to_nat n) dest).
Proof.
  intros Hp Hn Hm. unfold directRead, readerRead.
  destruct (n <=? 0) eqn:E.
  - apply Z.leb_le in E. assert (n = 0) as -> by lia. reflexivity.
  - replace ((0 <=? 0) && (0 + n <=? getNumSamples dest)) with true
      by range_check.
    rewrite sourceFrames_in_range by lia. reflexivity.
Qed.

(** C1, counterexample.  A sound of ten frames, buffers of four frames, no
    background pool, so that every fill has completed when it is needed.
    After [startNote], the request for frames 3 and 4 is transparent.  The
    next request, for frames 7 and 8, lies inside the mapped section, but
    frame 8 comes from a buffer whose fill was skipped by the guard of
    [fillInactiveBuffer] (4 + 8 is not below 10): what is written is not
    what a direct read returns.  Two more requests, both in bounds, made
    right after [startNote]: frame 5, which is not in the window of the read
    buffer, is answered with frame 1; frames 3 to 8, which reach beyond the
    next window, read past the end of [b1]. *)
Lemma transparency_fails_in_last_partial_buffer :
  exists l1 l2 l3 d1 d2 d3,
    loaderStartNote exSync exTicks (idleLoader 4) exSound = Some l1
    /\ fillSampleBlockBuffer exSync exTicks l1 (clearedBuffer 3) 2 3
       = Some (l2, d1, FillOk)
    /\ directRead exSound (clearedBuffer 3) 2 3 = Some d1
    /\ writeBufferIsBeingFilled l2 = false
    /\ 7 + 2 <= mappedLength (memoryReader exSound)
    /\ fillSampleBlockBuffer exSync exTicks l2 (clearedBuffer 3) 2 7
       = Some (l3, d2, FillOk)
    /\ directRead exSound (clearedBuffer 3) 2 7 <> Some d2
    /\ frameAt d2 1 = Some silence
    /\ frameAt (memoryReader exSound) 8 = Some (8%Q, (-8)%Q)
    /\ fillSampleBlockBuffer exSync exTicks l1 (clearedBuffer 3) 1 5
       = Some (l1, d3, FillOk)
    /\ frameAt d3 0 = frameAt (memoryReader exSound) 1
    /\ directRead exSound (clearedBuffer 3) 1 5 <> Some d3
    /\ fillSampleBlockBuffer exSync exTicks l1 (clearedBuffer 8) 6 3 = None.
Proof.
  do 6 eexists.
  split; [vm_compute; reflexivity|].
  split; [vm_compute; reflexivity|].
  split; [vm_compute; reflexivity|].
  split; [reflexivity|].
  split; [vm_compute; discriminate|].
  split; [vm_compute; reflexivity|].
  split; [vm_compute; discriminate|].
  split; [reflexivity|]. split; [reflexivity|].
  split; [vm_compute; reflexivity|].
  split; [reflexivity|].
  split; [vm_compute; discriminate|].
  vm_compute; reflexivity.
Qed.

(** C1, as amended.  The loader is bound to [s] with buffers of [bufferSize]
    frames, its read buffer holds the [k]-th window of the asset, and the
    request starts inside that window.  If the request ends before the end
    of the window, or if it ends no later than the end of the next window
    while the fill is not in flight and the other buffer holds that next
    window, then the frames written are those of a direct read of the asset
    over the same range, and no underrun is reported. *)
Theorem fillSampleBlockBuffer_transparent :
  forall (cfg : Config) (tk : Ticks) (l : SampleLoader) (s : StreamingSamplerSound)
         (dest : AudioSampleBuffer) (n p k : Z) (rb : AudioSampleBuffer),
    loaderWf l s ->
    0 <= k -> k * bufferSize l <= p < (k + 1) * bufferSize l ->
    0 <= n <= getNumSamples dest ->
    deref l (readBuffer l) = Some rb ->
    holdsWindow s rb (k * bufferSize l) (bufferSize l) ->
    (p + n < (k + 1) * bufferSize l
     \/ (writeBufferIsBeingFilled l = false
         /\ p + n <= (k + 2) * bufferSize l
         /\ exists ob, deref l (otherBuffer l) = Some ob
              /\ holdsWindow s ob ((k + 1) * bufferSize l) (bufferSize l))) ->
    exists l' d,
      fillSampleBlockBuffer cfg tk l dest n p = Some (l', d, FillOk)
      /\ directRead s dest n p = Some d
      /\ slice d 0 n = slice (memoryReader s) p n
      /\ p + n <= mappedLength (memoryReader s).
Proof.
  intros cfg tk l s dest n p k rb Hwf Hk Hp Hn Hrb Hwin Hcase.
  pose proof Hwf as [Hs Hsz H1 H2 Hpos Hpre].
  set (bs := bufferSize l) in *.
  assert (Hrem : Z.rem p bs = p - k * bs) by (apply rem_in_window; lia).
  assert (Hrblen : bs <= getNumSamples rb) by (eapply holdsWindow_length; eauto; lia).
  assert (Hhead : forall m, p + n <= mappedLength (memoryReader s) ->
             slice (slice (memoryReader s) p n ++ m) 0 n = slice (memoryReader s) p n).
  { intros m Hm. unfold slice at 1. simpl skipn. apply firstn_app_exact.
    apply slice_length; unfold getNumSamples, mappedLength in *; nia. }
  unfold fillSampleBlockBuffer. fold bs.
  remember (swapBuffers l) as sw eqn:Hsw.
  destruct (bs =? 0) eqn:E0; [apply Z.eqb_eq in E0; lia|].
  rewrite Hrem, Hrb. simpl.
  destruct Hcase as [Hfast | (Hflag & Hend & ob & Hob & Hwin')].
  - (* the request stays inside the read buffer *)
    destruct (_ <? bs) eqn:E; [|apply Z.ltb_ge in E; lia].
    assert (Hm : p + n <= mappedLength (memoryReader s))
      by (destruct Hwin as (_ & Hm & _); nia).
    rewrite copyStereo_defined by lia. simpl.
    rewrite (holdsWindow_slice s rb (k * bs) bs) by (auto; lia).
    replace (k * bs + (p - k * bs)) with p by lia.
    replace (0 + n) with n by lia.
    do 2 eexists. split; [reflexivity|].
    split; [apply directRead_in_range; lia|].
    split; [apply Hhead; exact Hm | exact Hm].
  - destruct (_ <? bs) eqn:E.
    + (* still the fast path *)
      apply Z.ltb_lt in E.
      assert (Hm : p + n <= mappedLength (memoryReader s))
        by (destruct Hwin as (_ & Hm & _); nia).
      rewrite copyStereo_defined by lia. simpl.
      rewrite (holdsWindow_slice s rb (k * bs) bs) by (auto; lia).
      replace (k * bs + (p - k * bs)) with p by lia.
      replace (0 + n) with n by lia.
      do 2 eexists. split; [reflexivity|].
      split; [apply directRead_in_range; lia|].
      split; [apply Hhead; exact Hm | exact Hm].
    + (* the request crosses into the other buffer *)
      apply Z.ltb_ge in E.
      assert (Hm : p + n <= mappedLength (memoryReader s))
        by (destruct Hwin' as (_ & Hm & _); nia).
      assert (Hoblen : bs <= getNumSamples ob)
        by (eapply holdsWindow_length; eauto; lia).
      set (rem := bs - (p - k * bs)) in *.
      rewrite copyStereo_defined by lia. simpl.
      rewrite (holdsWindow_slice s rb (k * bs) bs) by (auto; lia).
      replace (k * bs + (p - k * bs)) with p by lia.
      replace (0 + rem) with rem by lia.
      pose proof (deref_after_swap l) as Hderef.
      assert (Hokflag : snd (swapBuffers l) = true).
      { unfold swapBuffers. destruct (BufferRef_eqb _ _); simpl; rewrite Hflag; reflexivity. }
      assert (Hbs1 : bufferSize (fst (swapBuffers l)) = bs
                     /\ positionInSampleFile (fst (swapBuffers l)) = positionInSampleFile l).
      { unfold swapBuffers. destruct (BufferRef_eqb _ _); simpl; auto. }
      destruct (swapBuffers_wf l s (positionInSampleFile l + bs) Hwf ltac:(lia))
        as (Hwf1 & Hw1).
      rewrite <- Hsw in Hderef, Hokflag, Hbs1, Hwf1, Hw1.
      destruct sw as [l1 ok]. cbn [fst snd] in *. subst ok.
      rewrite Hderef, Hob. simpl.
      assert (Hd1len : length (slice (memoryReader s) p rem) = Z.to_nat rem).
      { apply slice_length; unfold getNumSamples, mappedLength in *; lia. }
      rewrite copyStereo_defined;
        [| lia | lia | lia | lia
         | unfold getNumSamples in *; rewrite length_app, length_skipn, Hd1len; lia].
      simpl.
      destruct Hbs1 as (Hb1 & Hp1). rewrite Hb1, Hp1.
      destruct (requestNewData_defined cfg tk
                  (setPosition l1 (positionInSampleFile l + bs)) s Hwf1 Hw1)
        as (l2 & Hreq & _).
      rewrite Hreq. simpl.
      rewrite firstn_app_exact by exact Hd1len.
      rewrite skipn_app_beyond by (rewrite Hd1len; lia).
      rewrite Hd1len, skipn_skipn.
      replace (Z.to_nat (rem + (n - rem)) - Z.to_nat rem + Z.to_nat rem)%nat
        with (Z.to_nat n) by lia.
      rewrite (holdsWindow_slice s ob ((k + 1) * bs) bs) by (auto; lia).
      replace ((k + 1) * bs + 0) with (p + rem) by (unfold rem; lia).
      rewrite app_assoc, slice_app by lia.
      replace (rem + (n - rem)) with n by lia.
      do 2 eexists. split; [reflexivity|].
      split; [apply directRead_in_range; lia|].
      split; [apply Hhead; exact Hm | exact Hm].
Qed.

Lemma fillSampleBlockBuffer_transparent_witness :
  exists l' d,
    fillSampleBlockBuffer exSync exTicks exStreaming (clearedBuffer 3) 2 3
    = Some (l', d, FillOk)
    /\ directRead exSound (clearedBuffer 3) 2 3 = Some d
    /\ slice d 0 2 = slice (memoryReader exSound) 3 2
    /\ 3 + 2 <= mappedLength (memoryReader exSound).
Proof.
  apply (fillSampleBlockBuffer_transparent exSync exTicks exStreaming exSound
           (clearedBuffer 3) 2 3 0 (preloadBuffer exSound)).
  - constructor; vm_compute; try reflexivity; discriminate.
  - lia.
  - vm_compute. split; [discriminate | reflexivity].
  - vm_compute. split; discriminate.
  - reflexivity.
  - split; [lia|]. split; [vm_compute; discriminate | reflexivity].
  - right. split; [reflexivity|]. split; [vm_compute; discriminate|].
    exists (b1 exStreaming). split; [reflexivity|].
    split; [vm_compute; discriminate|]. split; [vm_compute; discriminate | reflexivity].
Defined.

(** ** The windows of a loader during sequential playback

    Without a background pool every fill completes inside the request.  The
    hypotheses of the transparency theorem are then those that [startNote]
    establishes and that every crossing into the next buffer re-establishes,
    as long as the window after the next one lies below the end of the
    file. *)

Lemma slice_all (b : AudioSampleBuffer) (n : Z) :
  getNumSamples b = n -> slice b 0 n = b.
Proof.
  intros H. unfold slice. simpl. apply firstn_all2. unfold getNumSamples in H. lia.
Qed.

Lemma fillSampleBuffer_window (s : StreamingSamplerSound) (w : AudioSampleBuffer)
    (size pos : Z) :
  preloaded s -> 0 < size -> 0 <= pos ->
  pos + size <= mappedLength (memoryReader s) ->
  getNumSamples w = size ->
  fillSampleBuffer s w size pos = Some (slice (memoryReader s) pos size).
Proof.
  intros (Hp & Hbuf) Hsz Hpos Hend Hw. unfold fillSampleBuffer.
  assert (Htail : skipn (Z.to_nat (0 + size)) w = []).
  { apply skipn_all2. unfold getNumSamples in Hw. lia. }
  destruct (_ <? preloadSize s) eqn:E.
  - apply Z.ltb_lt in E.
    assert (Hlen : getNumSamples (preloadBuffer s) = preloadSize s).
    { rewrite Hbuf. unfold getNumSamples. rewrite slice_length;
        unfold getNumSamples, mappedLength in *; lia. }
    rewrite copyStereo_defined by lia.
    rewrite Htail, app_nil_r. simpl. rewrite Hbuf.
    rewrite slice_slice by lia. reflexivity.
  - unfold readerRead.
    destruct (size <=? 0) eqn:E0; [apply Z.leb_le in E0; lia|].
    replace ((0 <=? 0) && (0 + size <=? getNumSamples w)) with true
      by range_check.
    rewrite Htail, app_nil_r. simpl.
    rewrite sourceFrames_in_range by lia. reflexivity.
Qed.

Lemma requestNewData_sync_window (cfg : Config) (tk : Ticks) (l : SampleLoader)
    (s : StreamingSamplerSound) :
  USE_BACKGROUND_THREAD cfg = false ->
  loaderWf l s -> preloaded s -> writeBuffer l <> PreloadRef ->
  bufferSize l + positionInSampleFile l < mappedLength (memoryReader s) ->
  exists l',
    requestNewData cfg tk l = Some l'
    /\ loaderWf l' s
    /\ bufferSize l' = bufferSize l
    /\ readBuffer l' = readBuffer l /\ writeBuffer l' = writeBuffer l
    /\ positionInSampleFile l' = positionInSampleFile l
    /\ writeBufferIsBeingFilled l' = false
    /\ deref l' (writeBuffer l)
       = Some (slice (memoryReader s) (positionInSampleFile l) (bufferSize l))
    /\ (forall r, r <> writeBuffer l -> deref l' r = deref l r).
Proof.
  intros Hsync Hwf Hpre Hw Hguard. pose proof Hwf as [Hs Hsz H1 H2 Hpos Hp].
  unfold requestNewData. rewrite Hsync. unfold runJob, fillInactiveBuffer.
  cbn [sound setPool setBeingFilled bufferSize positionInSampleFile writeBuffer].
  rewrite Hs. cbn [obind].
  unfold hasEnoughSamplesForBlock, mappedEnd.
  replace (_ <? _) with true by (symmetry; apply Z.ltb_lt; exact Hguard).
  destruct (writeBuffer l) eqn:Ew; [congruence| |]; cbn [deref b1 b2 obind];
    rewrite fillSampleBuffer_window by (auto; lia);
    cbn [obind store]; eexists; (split; [reflexivity|]);
    (split; [constructor; cbn; auto;
             unfold getNumSamples; rewrite slice_length;
             unfold getNumSamples, mappedLength in *; lia|]);
    cbn; repeat split; auto;
    intros r Hr; destruct r; cbn; try reflexivity; try congruence; rewrite Hs; reflexivity.
Qed.

(** [startNote] starts the stream at window 0. *)
Lemma loaderStartNote_streaming (cfg : Config) (tk : Ticks) (l : SampleLoader)
    (s : StreamingSamplerSound) :
  USE_BACKGROUND_THREAD cfg = false ->
  0 < bufferSize l ->
  getNumSamples (b1 l) = bufferSize l -> getNumSamples (b2 l) = bufferSize l ->
  writeBufferIsBeingFilled l = false ->
  preloaded s -> bufferSize l <= preloadSize s ->
  2 * bufferSize l < mappedLength (memoryReader s) ->
  exists l', loaderStartNote cfg tk l s = Some l'
             /\ bufferSize l' = bufferSize l /\ streaming l' s 0.
Proof.
  intros Hsync Hbs H1 H2 Hflag Hpre Hps Hlen.
  pose proof Hpre as ((Hp0 & Hp1) & Hbuf).
  assert (Hplen : getNumSamples (preloadBuffer s) = preloadSize s).
  { rewrite Hbuf. unfold getNumSamples. rewrite slice_length;
      unfold getNumSamples, mappedLength in *; lia. }
  unfold loaderStartNote. cbn [writeBufferIsBeingFilled]. rewrite Hflag. cbn [negb].
  set (l1 := mkLoader _ _ _ _ _ _ _ _ _ _ _ _ _).
  destruct (requestNewData_sync_window cfg tk l1 s Hsync)
    as (l' & Hreq & Hwf & Hsz & Hr & Hw & Hpos & Hfl & Hnew & Hold).
  { constructor; cbn; auto; lia. }
  { exact Hpre. }
  { cbn. discriminate. }
  { cbn. lia. }
  cbn in Hsz, Hr, Hw, Hpos, Hnew, Hold.
  exists l'. split; [exact Hreq|]. split; [exact Hsz|].
  unfold streaming, otherBuffer. rewrite Hsz, Hr, Hw, Hpos. cbn [BufferRef_eqb].
  split; [exact Hwf|]. split; [lia|]. split; [exact Hfl|]. split; [reflexivity|].
  split.
  - exists (preloadBuffer s). split.
    + rewrite Hold by discriminate. reflexivity.
    + split; [lia|]. split; [lia|]. rewrite Hbuf.
      rewrite slice_slice by lia. reflexivity.
  - eexists. split; [exact Hnew|].
    split; [lia|]. split; [lia|].
    replace ((0 + 1) * bufferSize l) with (bufferSize l) by lia.
    apply slice_all. unfold getNumSamples. rewrite slice_length;
      unfold getNumSamples, mappedLength in *; lia.
Qed.

Lemma deref_setPosition (l : SampleLoader) (p : Z) (r : BufferRef) :
  deref (setPosition l p) r = deref l r.
Proof. destruct r; reflexivity. Qed.

(** A request that stays inside the read buffer leaves the loader as it
    is. *)
Lemma fillSampleBlockBuffer_fast_state (cfg : Config) (tk : Ticks) (l l' : SampleLoader)
    (dest d : AudioSampleBuffer) (n p : Z) (oc : FillOutcome) :
  Z.rem p (bufferSize l) + n < bufferSize l ->
  fillSampleBlockBuffer cfg tk l dest n p = Some (l', d, oc) ->
  l' = l /\ oc = FillOk.
Proof.
  intros Hfast. unfold fillSampleBlockBuffer.
  destruct (bufferSize l =? 0); [discriminate|].
  destruct (_ <? bufferSize l) eqn:E; [|apply Z.ltb_ge in E; lia].
  unfold obind. destruct (deref l (readBuffer l)); [|discriminate].
  destruct (copyStereo _ _ _ _ _); [|discriminate].
  intros H; injection H as <- _ <-. auto.
Qed.

(** A request that crosses into the other buffer moves the stream to the
    next window. *)
Lemma fillSampleBlockBuffer_keeps_streaming (cfg : Config) (tk : Ticks)
    (l l' : SampleLoader) (s : StreamingSamplerSound) (dest d : AudioSampleBuffer)
    (n p k : Z) (oc : FillOutcome) :
  USE_BACKGROUND_THREAD cfg = false ->
  preloaded s -> streaming l s k -> 0 <= k ->
  k * bufferSize l <= p < (k + 1) * bufferSize l ->
  (k + 1) * bufferSize l <= p + n ->
  (k + 3) * bufferSize l < mappedLength (memoryReader s) ->
  fillSampleBlockBuffer cfg tk l dest n p = Some (l', d, oc) ->
  oc = FillOk /\ bufferSize l' = bufferSize l /\ streaming l' s (k + 1).
Proof.
  intros Hsync Hpre (Hwf & Hpos & Hflag & Hw & (rb & Hrb & Hwin) & (ob & Hob & Hwin'))
         Hk Hp Hcross Hnext.
  pose proof Hwf as [Hs Hsz H1 H2 Hpos0 Hps].
  set (bs := bufferSize l) in *.
  assert (Hrem : Z.rem p bs = p - k * bs) by (apply rem_in_window; lia).
  unfold fillSampleBlockBuffer. fold bs.
  remember (swapBuffers l) as sw eqn:Hsw.
  destruct (bs =? 0) eqn:E0; [apply Z.eqb_eq in E0; lia|].
  rewrite Hrem. destruct (_ <? bs) eqn:E; [apply Z.ltb_lt in E; lia|].
  rewrite Hrb. cbn [obind].
  destruct (copyStereo dest 0 rb _ _) as [d1|]; [|discriminate]. cbn [obind].
  assert (Hsw' : sw = (setPosition (fst sw) (positionInSampleFile (fst sw)), true)
                 /\ bufferSize (fst sw) = bs
                 /\ positionInSampleFile (fst sw) = positionInSampleFile l
                 /\ readBuffer (fst sw) = otherBuffer l
                 /\ writeBuffer (fst sw) = (if BufferRef_eqb (readBuffer l) B1 then B1 else B2)
                 /\ writeBufferIsBeingFilled (fst sw) = false
                 /\ (forall r, deref (fst sw) r = deref l r)).
  { subst sw. unfold swapBuffers, otherBuffer.
    destruct (BufferRef_eqb (readBuffer l) B1); cbn; rewrite Hflag; cbn;
      repeat split; destruct l; reflexivity. }
  destruct Hsw' as (Heq & Hb & Hp1 & Hr1 & Hw1 & Hf1 & Hd1).
  destruct (swapBuffers_wf l s (positionInSampleFile l + bs) Hwf ltac:(lia))
    as (Hwf1 & Hwne).
  rewrite <- Hsw in Hwf1, Hwne.
  destruct sw as [l1 ok]. cbn [fst snd] in *.
  injection Heq as _ ->.
  rewrite Hd1, Hr1, Hob. cbn [obind].
  destruct (copyStereo d1 _ ob 0 _) as [d2|]; [|discriminate]. cbn [obind].
  rewrite Hb, Hp1.
  destruct (requestNewData_sync_window cfg tk
              (setPosition l1 (positionInSampleFile l + bs)) s Hsync Hwf1 Hpre Hwne)
    as (l2 & Hreq & Hwf2 & Hsz2 & Hr2 & Hw2 & Hpos2 & Hfl2 & Hnew & Hold).
  { cbn. rewrite Hb, Hpos. fold bs. unfold mappedLength in *. lia. }
  rewrite Hreq. cbn [obind]. intros H; injection H as <- _ <-.
  cbn in Hsz2, Hr2, Hw2, Hpos2, Hnew, Hold.
  rewrite Hb in *. rewrite Hr1 in Hr2. rewrite Hw1 in Hw2, Hnew, Hold.
  split; [reflexivity|]. split; [exact Hsz2|].
  assert (Hother : otherBuffer l2 = writeBuffer l2 /\ readBuffer l2 <> writeBuffer l2).
  { unfold otherBuffer in *. rewrite Hr2, Hw2.
    destruct (readBuffer l); cbn; split; (reflexivity || discriminate). }
  destruct Hother as (Hoth & Hne).
  unfold streaming. rewrite Hsz2, Hoth, Hpos2, Hpos.
  split; [exact Hwf2|]. split; [fold bs; lia|]. split; [exact Hfl2|].
  split; [reflexivity|]. split.
  - exists ob. split.
    + rewrite Hold by (rewrite <- Hw2; exact Hne).
      rewrite Hr2, deref_setPosition, Hd1. exact Hob.
    + fold bs. exact Hwin'.
  - eexists. split; [rewrite Hw2; exact Hnew|].
    fold bs. unfold bs in Hpos. rewrite Hpos. fold bs.
    replace ((k + 1) * bs + bs) with ((k + 1 + 1) * bs) by lia.
    split; [nia|]. split; [unfold mappedLength in *; nia|].
    apply slice_all. unfold getNumSamples. rewrite slice_length;
      unfold getNumSamples, mappedLength in *; nia.
Qed.

(** A sound as the constructor leaves it streams from window 0 once a note
    starts on it. *)
Lemma loaded_sound_streams (cfg : Config) (tk : Ticks) (allocOk : Z -> bool)
    (m : MappedSource) (root : Z) (pitch : Z -> double) (s : StreamingSamplerSound)
    (l : SampleLoader) :
  load cfg allocOk (Some m) root pitch = inl s ->
  USE_BACKGROUND_THREAD cfg = false ->
  0 < bufferSize l ->
  getNumSamples (b1 l) = bufferSize l -> getNumSamples (b2 l) = bufferSize l ->
  writeBufferIsBeingFilled l = false ->
  bufferSize l <= preloadSize s ->
  2 * bufferSize l < mappedLength m ->
  exists l', loaderStartNote cfg tk l s = Some l'
             /\ bufferSize l' = bufferSize l /\ streaming l' s 0.
Proof.
  unfold load. destruct (0 <? mappedLength m); [|discriminate].
  destruct (pr_error _) eqn:E; [discriminate|].
  intros H; injection H as <-. intros Hsync Hbs H1 H2 Hflag Hps Hlen.
  destruct (setPreloadSize_preloaded allocOk
              (mkSound m root 0 [] pitch) (PRELOAD_SIZE cfg) E ltac:(lia))
    as (Hm & Hpre).
  apply loaderStartNote_streaming; auto. rewrite Hm. exact Hlen.
Qed.

(** ** The render loop adds into the output buffer *)

Lemma frameAt_Some (b : AudioSampleBuffer) (i : Z) :
  0 <= i < getNumSamples b -> exists f, frameAt b i = Some f.
Proof.
  intros Hi. unfold frameAt. destruct (i <? 0) eqn:E; [apply Z.ltb_lt in E; lia|].
  destruct (nth_error b (Z.to_nat i)) as [f|] eqn:En; [eauto|].
  apply nth_error_None in En. unfold getNumSamples in Hi. lia.
Qed.

Lemma frameAt_in_range (b : AudioSampleBuffer) (i : Z) (f : frame) :
  frameAt b i = Some f -> 0 <= i < getNumSamples b.
Proof.
  unfold frameAt. destruct (i <? 0) eqn:E; [discriminate|]. apply Z.ltb_ge in E.
  intros H. assert (Hn : nth_error b (Z.to_nat i) <> None) by congruence.
  apply nth_error_Some in Hn. unfold getNumSamples. lia.
Qed.

Lemma addFrame_length (out out' : AudioSampleBuffer) (o : Z) (c : frame) :
  addFrame out o c = Some out' -> getNumSamples out' = getNumSamples out.
Proof.
  unfold addFrame, obind. destruct (frameAt out o) as [f|] eqn:E; [|discriminate].
  apply frameAt_in_range in E. intros H; injection H as <-.
  unfold getNumSamples in *. rewrite length_app. cbn [length].
  rewrite length_firstn, length_skipn. lia.
Qed.

Lemma addFrame_same (out out' : AudioSampleBuffer) (o : Z) (c f : frame) :
  frameAt out o = Some f -> addFrame out o c = Some out' ->
  frameAt out' o = Some ((fst f + fst c)%Q, (snd f + snd c)%Q).
Proof.
  intros Hf. unfold addFrame. rewrite Hf. cbn [obind]. intros H; injection H as <-.
  pose proof (frameAt_in_range _ _ _ Hf) as Hr. unfold getNumSamples in Hr.
  unfold frameAt. destruct (o <? 0) eqn:E; [apply Z.ltb_lt in E; lia|].
  rewrite nth_error_app2 by (rewrite length_firstn; lia).
  rewrite length_firstn.
  replace (Z.to_nat o - Init.Nat.min (Z.to_nat o) (length out))%nat with 0%nat by lia.
  reflexivity.
Qed.

Lemma addFrame_other (out out' : AudioSampleBuffer) (o i : Z) (c : frame) :
  addFrame out o c = Some out' -> i <> o -> frameAt out' i = frameAt out i.
Proof.
  unfold addFrame, obind. destruct (frameAt out o) as [f|] eqn:E; [|discriminate].
  pose proof (frameAt_in_range _ _ _ E) as Hr. unfold getNumSamples in Hr.
  intros H Hne; injection H as <-. unfold frameAt.
  destruct (i <? 0) eqn:Ei; [reflexivity|]. apply Z.ltb_ge in Ei.
  destruct (Z_lt_le_dec i o) as [Hlt|Hge].
  - rewrite nth_error_app1 by (rewrite length_firstn; lia).
    rewrite nth_error_firstn.
    destruct (Z.to_nat i <? Z.to_nat o)%nat eqn:El; [reflexivity|].
    apply Nat.ltb_ge in El. lia.
  - rewrite nth_error_app2 by (rewrite length_firstn; lia).
    rewrite length_firstn.
    replace (Z.to_nat i - Init.Nat.min (Z.to_nat o) (length out))%nat
      with (S (Z.to_nat i - Z.to_nat (o + 1))) by lia.
    cbn [nth_error]. rewrite nth_error_skipn. f_equal. lia.
Qed.

Lemma interpolate_defined (work : AudioSampleBuffer) (pos : Z) (uptime : double) :
  0 <= indexAt pos uptime ->
  indexAt pos uptime + 1 < getNumSamples work ->
  exists c, interpolate work pos uptime = Some c.
Proof.
  intros H0 H1. unfold interpolate. fold (indexAt pos uptime).
  destruct (frameAt_Some work (indexAt pos uptime)) as (a & ->); [lia|].
  destruct (frameAt_Some work (indexAt pos uptime + 1)) as (b & ->); [lia|].
  simpl. eauto.
Qed.


(** The loop, by induction on the number of iterations: iteration [j] adds
    the frame interpolated at the uptime it starts with to the output frame
    at offset [o + j]; no other output frame changes. *)
Lemma renderLoop_adds (cfg : Config) (delta : double) (pd : option (Z -> float))
    (work : AudioSampleBuffer) (pos : Z) (n : nat) :
  forall (startSample : Z) (uptime : double) (out : AudioSampleBuffer) (o : Z),
    indicesInBounds cfg delta pd work pos n startSample uptime = true ->
    0 <= o -> o + Z.of_nat n <= getNumSamples out ->
    exists uptime' out',
      renderLoop cfg delta pd work pos n startSample uptime out o
      = Some (uptime', out')
      /\ uptimeAt cfg delta pd startSample uptime n = Some uptime'
      /\ getNumSamples out' = getNumSamples out
      /\ (forall j, (j < n)%nat ->
            exists u c f,
              uptimeAt cfg delta pd startSample uptime j = Some u
              /\ interpolate work pos u = Some c
              /\ frameAt out (o + Z.of_nat j) = Some f
              /\ frameAt out' (o + Z.of_nat j)
                 = Some ((fst f + fst c)%Q, (snd f + snd c)%Q))
      /\ (forall i, i < o \/ o + Z.of_nat n <= i -> frameAt out' i = frameAt out i).
Proof.
  induction n as [|n IH]; intros ss u out o Hb Ho Hlen.
  - exists u, out. simpl. repeat split; auto. intros j Hj. lia.
  - simpl in Hb.
    apply andb_true_iff in Hb. destruct Hb as [Hb Hrest].
    apply andb_true_iff in Hb. destruct Hb as [Hi0 Hi1].
    apply Z.leb_le in Hi0. apply Z.ltb_lt in Hi1.
    destruct (interpolate_defined work pos u Hi0 Hi1) as (c & Hc).
    destruct (frameAt_Some out o) as (f & Hf); [lia|].
    destruct (advanceUptime cfg delta pd ss u) as [u1|] eqn:Hadv; [|discriminate].
    assert (Hadd : exists out1, addFrame out o c = Some out1).
    { unfold addFrame. rewrite Hf. simpl. eauto. }
    destruct Hadd as (out1 & Hadd).
    pose proof (addFrame_length _ _ _ _ Hadd) as Hl1.
    destruct (IH (if STAND_ALONE cfg then ss + 1 else ss) u1 out1 (o + 1) Hrest)
      as (u' & out' & Hloop & Hup & Hl' & Hin & Hout); [lia | lia |].
    exists u', out'.
    split.
    { cbn [renderLoop]. rewrite Hc. cbn [obind]. rewrite Hadd. cbn [obind].
      rewrite Hadv. cbn [obind]. exact Hloop. }
    split.
    { cbn [uptimeAt]. rewrite Hadv. cbn [obind]. exact Hup. }
    split; [lia|]. split.
    + intros [|j] Hj.
      * exists u, c, f. cbn [uptimeAt]. rewrite Z.add_0_r.
        repeat split; auto.
        rewrite Hout by lia. eapply addFrame_same; eauto.
      * destruct (Hin j ltac:(lia)) as (uj & cj & fj & Hu & Hcj & Hfj & Hres).
        exists uj, cj, fj. cbn [uptimeAt]. rewrite Hadv. cbn [obind].
        replace (o + Z.of_nat (S j)) with (o + 1 + Z.of_nat j) by lia.
        repeat split; auto.
        rewrite <- Hfj. symmetry. eapply addFrame_other; eauto. lia.
    + intros i Hi. rewrite Hout by lia. eapply addFrame_other; eauto. lia.
Qed.




(** ** The frame count at an integral playback position

    Whenever the playback position is a whole number of frames and the
    frames needed are not negative, [samplesToCopy] is at most the ceiling
    of the frames needed: the count of the spec, one more than the ceiling,
    is never reached. *)

Lemma toInt_rounds_up_at_most (x : Q) :
  (0 <= x)%Q -> toInt (x + c_0_99999f)%Q <= Qceiling x.
Proof.
  intros Hx.
  assert (Hc0 : (0 <= c_0_99999f)%Q) by (unfold Qle; simpl; lia).
  assert (Hc1 : (c_0_99999f < 1)%Q) by (unfold Qlt; simpl; lia).
  rewrite toInt_floor.
  2:{ rewrite <- (Qplus_0_r 0). apply Qplus_le_compat; assumption. }
  apply Z.lt_succ_r. rewrite <- Z.add_1_r. rewrite Zlt_Qlt.
  apply Qle_lt_trans with (x + c_0_99999f)%Q; [apply Qfloor_le|].
  rewrite inject_Z_plus.
  apply Qlt_le_trans with (x + 1)%Q.
  - apply Qplus_lt_r. exact Hc1.
  - apply Qplus_le_compat; [apply Qle_ceiling | apply Qle_refl].
Qed.

Lemma integral_position_has_no_fraction (z : Z) :
  (inject_Z z - ofInt (toInt (inject_Z z)))%Q = 0%Q.
Proof.
  unfold toInt, ofInt, inject_Z, Qminus, Qplus, Qopp. simpl.
  rewrite Z.quot_1_r. f_equal. lia.
Qed.

Lemma samplesToCopy_at_most_ceiling (cfg : Config) (v : StreamingSamplerVoice)
    (startSample numSamples z : Z) (needed : double) :
  voiceUptime v = inject_Z z ->
  framesNeeded cfg v startSample numSamples = Some needed ->
  (0 <= needed)%Q ->
  exists n, samplesToCopy cfg v startSample numSamples = Some n
            /\ n <= Qceiling needed
            /\ specSamplesToCopy cfg v startSample numSamples = Some (Qceiling needed + 1).
Proof.
  intros Hu Hneeded Hpos.
  unfold samplesToCopy, numSamplesUsed, specSamplesToCopy.
  rewrite Hu, integral_position_has_no_fraction, Hneeded.
  unfold framesNeeded in Hneeded. rewrite Hneeded. simpl.
  eexists. split; [reflexivity|]. split; [|reflexivity].
  apply toInt_rounds_up_at_most. exact Hpos.
Qed.

(** ** The frame count at two inputs *)

(** C3, the code at two inputs.  From position 0 at pitch ratio 1, four
    output frames need four source frames; [samplesToCopy] is 4, where the
    ceiling plus one is 5.  At pitch ratio 1/2, two output frames give
    [samplesToCopy] 1, where the ceiling plus one is 2: only frame 0 is
    fetched, and the second output frame, interpolated half-way between
    frames 0 and 1, takes its right-hand neighbour from whatever the work
    buffer held before, so two runs that differ only in that stale content
    produce different audio. *)
Theorem samplesToCopy_is_not_ceiling_plus_one :
  (voiceUptime exVoice = 0%Q /\ uptimeDelta exVoice = 1%Q
   /\ samplesToCopy exSync exVoice 0 4 = Some 4
   /\ specSamplesToCopy exSync exVoice 0 4 = Some 5)
  /\ (voiceUptime exVoiceHalf = 0%Q /\ uptimeDelta exVoiceHalf = (1 # 2)%Q
      /\ samplesToCopy exSync exVoiceHalf 0 2 = Some 1
      /\ specSamplesToCopy exSync exVoiceHalf 0 2 = Some 2)
  /\ exists v1 out1 v2 out2,
       renderNextBlock exSync exTicks exVoiceHalf (clearedBuffer 2) 0 2
       = Some (v1, out1, FillOk)
       /\ renderNextBlock exSync exTicks exVoiceHalfStale (clearedBuffer 2) 0 2
          = Some (v2, out2, FillOk)
       /\ frameAt (samplesForThisBlock v1) 0 = frameAt (memoryReader exSound) 0
       /\ frameAt (samplesForThisBlock v2) 0 = frameAt (memoryReader exSound) 0
       /\ frameAt (samplesForThisBlock v1) 1 = Some silence
       /\ frameAt (samplesForThisBlock v2) 1 = Some (7%Q, 7%Q)
       /\ frameAt (memoryReader exSound) 1 = Some (1%Q, (-1)%Q)
       /\ frameAt out1 1 = Some ((0 # 4)%Q, (0 # 4)%Q)
       /\ frameAt out2 1 = Some ((14 # 4)%Q, (14 # 4)%Q).
Proof.
  split; [repeat split; reflexivity|].
  split; [repeat split; reflexivity|].
  do 4 eexists.
  split; [vm_compute; reflexivity|].
  split; [vm_compute; reflexivity|].
  repeat split; reflexivity.
Qed.

(** * Further properties of the code *)

(** ** Loading a sound *)

Lemma mappedLength_zero (m : MappedSource) : mappedLength m = 0 <-> m = [].
Proof.
  unfold mappedLength. destruct m; simpl; split; intros H; try reflexivity;
    try discriminate; lia.
Qed.

Lemma setPreloadSize_clampedSize (allocOk : Z -> bool) (s : StreamingSamplerSound)
    (n : Z) :
  preloadSize (pr_sound (setPreloadSize allocOk s n)) = clampedSize (memoryReader s) n
  /\ memoryReader (pr_sound (setPreloadSize allocOk s n)) = memoryReader s
  /\ pr_error (setPreloadSize allocOk s n)
     = (if allocOk (clampedSize (memoryReader s) n) then None else Some OutOfMemory).
Proof.
  unfold setPreloadSize, clampedSize. simpl.
  destruct ((n =? -1) || (mappedLength (memoryReader s) <? n)); simpl;
    match goal with |- context [allocOk ?x] => destruct (allocOk x) end;
    repeat split; reflexivity.
Qed.

(** X1.  The constructor fails with "file does not exist" exactly for a
    null reader, with "Error at memory mapping" exactly for an empty mapped
    section, and with "out of Memory!" exactly when the mapping is not empty
    and the allocation of the clamped preload size fails; in every other
    case it returns a sound. *)
Theorem load_error_cases :
  forall (cfg : Config) (allocOk : Z -> bool) (reader : option MappedSource)
         (root : Z) (pitch : Z -> double),
    (load cfg allocOk reader root pitch = inr FileDoesNotExist <-> reader = None)
    /\ (load cfg allocOk reader root pitch = inr ErrorAtMemoryMapping
        <-> reader = Some [])
    /\ (load cfg allocOk reader root pitch = inr OutOfMemory
        <-> exists m, reader = Some m /\ m <> []
                      /\ allocOk (clampedSize m (PRELOAD_SIZE cfg)) = false)
    /\ ((exists s, load cfg allocOk reader root pitch = inl s)
        <-> exists m, reader = Some m /\ m <> []
                      /\ allocOk (clampedSize m (PRELOAD_SIZE cfg)) = true).
Proof.
  intros cfg allocOk reader root pitch. unfold load.
  destruct reader as [m|].
  2:{ repeat split; intros H; try reflexivity; try discriminate;
      destruct H as (x & H); try discriminate; destruct H; discriminate. }
  destruct (0 <? mappedLength m) eqn:E.
  - apply Z.ltb_lt in E.
    assert (Hne : m <> []) by (intros ->; unfold mappedLength in E; simpl in E; lia).
    destruct (setPreloadSize_clampedSize allocOk (mkSound m root 0 [] pitch)
                (PRELOAD_SIZE cfg)) as (_ & _ & He).
    simpl in He. rewrite He.
    destruct (allocOk (clampedSize m (PRELOAD_SIZE cfg))) eqn:Ea.
    + repeat split; intros H; try discriminate.
      * injection H as ->. contradiction.
      * destruct H as (m' & H & _ & H'). injection H as <-. congruence.
      * exists m. auto.
      * eexists. reflexivity.
    + repeat split; intros H; try discriminate; try reflexivity.
      * injection H as ->. contradiction.
      * exists m. auto.
      * destruct H as (x & H). discriminate.
      * destruct H as (m' & H & _ & H'). injection H as <-. congruence.
  - apply Z.ltb_ge in E.
    assert (Hm : m = []) by (apply mappedLength_zero; unfold mappedLength in *; lia).
    subst m. repeat split; intros H; try discriminate; try reflexivity.
    + destruct H as (m' & H & Hne & _). injection H as <-. contradiction.
    + destruct H as (x & H). discriminate.
    + destruct H as (m' & H & Hne & _). injection H as <-. contradiction.
Qed.

(** X2.  A sound that the constructor returns for a [PRELOAD_SIZE] of at
    least -1 has a mapping that is not empty, a preload size between 0 and
    the mapped length, and a preload buffer of exactly that many frames which
    is a copy of the head of the file; for -1 it is a copy of the whole
    file. *)
Theorem load_preloads_head :
  forall (cfg : Config) (allocOk : Z -> bool) (m : MappedSource)
         (root : Z) (pitch : Z -> double) (s : StreamingSamplerSound),
    -1 <= PRELOAD_SIZE cfg ->
    load cfg allocOk (Some m) root pitch = inl s ->
    memoryReader s = m /\ m <> []
    /\ 0 <= preloadSize s <= mappedLength m
    /\ preloadBuffer s = slice m 0 (preloadSize s)
    /\ getNumSamples (preloadBuffer s) = preloadSize s
    /\ (PRELOAD_SIZE cfg = -1 -> preloadBuffer s = m).
Proof.
  intros cfg allocOk m root pitch s Hp. unfold load.
  destruct (0 <? mappedLength m) eqn:E; [|discriminate]. apply Z.ltb_lt in E.
  destruct (pr_error _) eqn:Ee; [discriminate|].
  intros H; injection H as <-.
  set (s0 := mkSound m root 0 [] pitch) in *.
  destruct (setPreloadSize_clampedSize allocOk s0 (PRELOAD_SIZE cfg)) as (Hsz & Hm & _).
  assert (Hnn : 0 <= preloadSize (pr_sound (setPreloadSize allocOk s0 (PRELOAD_SIZE cfg)))).
  { rewrite Hsz. unfold clampedSize. simpl.
    destruct (PRELOAD_SIZE cfg =? -1) eqn:E1; simpl; [lia|].
    apply Z.eqb_neq in E1. destruct (mappedLength m <? PRELOAD_SIZE cfg); lia. }
  destruct (setPreloadSize_preloaded allocOk s0 (PRELOAD_SIZE cfg) Ee Hnn)
    as (_ & (Hr & Hb)).
  rewrite Hm in Hr, Hb. simpl in Hr, Hb. rewrite Hm. simpl.
  split; [reflexivity|]. split; [intros ->; unfold mappedLength in E; simpl in E; lia|].
  split; [exact Hr|]. split; [exact Hb|]. split.
  - rewrite Hb. unfold getNumSamples. rewrite slice_length;
      unfold getNumSamples, mappedLength in *; lia.
  - intros H1. rewrite Hb, Hsz. unfold clampedSize. simpl. rewrite H1. simpl.
    apply slice_all. reflexivity.
Qed.

Lemma load_preloads_head_witness :
  memoryReader exSound = ramp 10 /\ ramp 10 <> []
  /\ 0 <= preloadSize exSound <= mappedLength (ramp 10)
  /\ preloadBuffer exSound = slice (ramp 10) 0 (preloadSize exSound)
  /\ getNumSamples (preloadBuffer exSound) = preloadSize exSound
  /\ (PRELOAD_SIZE exSync = -1 -> preloadBuffer exSound = ramp 10).
Proof.
  apply (load_preloads_head exSync (fun _ => true) (ramp 10) 60
           (fun note => if note =? 48 then (1 # 2)%Q else 1%Q) exSound).
  - vm_compute. discriminate.
  - reflexivity.
Defined.

(** ** Resizing the preload buffer *)

(** X3.  [setPreloadSize] never touches the mapping and always leaves the
    clamped size in [preloadSize].  When the allocation fails it reports
    "out of Memory!" with the old preload buffer still in place, although
    [preloadSize] has already been overwritten.  When it succeeds and the
    size is not negative, the preload buffer is a copy of that many leading
    frames of the file. *)
Theorem setPreloadSize_outcomes :
  forall (allocOk : Z -> bool) (s : StreamingSamplerSound) (n : Z),
    memoryReader (pr_sound (setPreloadSize allocOk s n)) = memoryReader s
    /\ preloadSize (pr_sound (setPreloadSize allocOk s n))
       = clampedSize (memoryReader s) n
    /\ (allocOk (clampedSize (memoryReader s) n) = false ->
        pr_error (setPreloadSize allocOk s n) = Some OutOfMemory
        /\ preloadBuffer (pr_sound (setPreloadSize allocOk s n)) = preloadBuffer s)
    /\ (allocOk (clampedSize (memoryReader s) n) = true ->
        0 <= clampedSize (memoryReader s) n ->
        pr_error (setPreloadSize allocOk s n) = None
        /\ clampedSize (memoryReader s) n <= mappedLength (memoryReader s)
        /\ preloadBuffer (pr_sound (setPreloadSize allocOk s n))
           = slice (memoryReader s) 0 (clampedSize (memoryReader s) n)
        /\ getNumSamples (preloadBuffer (pr_sound (setPreloadSize allocOk s n)))
           = clampedSize (memoryReader s) n).
Proof.
  intros allocOk s n.
  destruct (setPreloadSize_clampedSize allocOk s n) as (Hsz & Hm & He).
  split; [exact Hm|]. split; [exact Hsz|]. split.
  - intros Ha. rewrite Ha in He. split; [exact He|].
    revert Ha. unfold setPreloadSize, clampedSize. simpl.
    destruct ((n =? -1) || (mappedLength (memoryReader s) <? n)); simpl;
      intros ->; reflexivity.
  - intros Ha Hnn. rewrite Ha in He. split; [exact He|].
    destruct (setPreloadSize_preloaded allocOk s n He ltac:(rewrite Hsz; exact Hnn))
      as (_ & (Hr & Hb)).
    rewrite Hm, Hsz in Hr, Hb. split; [lia|]. split; [exact Hb|].
    rewrite Hb. unfold getNumSamples. rewrite slice_length;
      unfold getNumSamples, mappedLength in *; lia.
Qed.

Lemma setPreloadSize_keeps (allocOk : Z -> bool) (s : StreamingSamplerSound) (n : Z) :
  rootNote (pr_sound (setPreloadSize allocOk s n)) = rootNote s
  /\ getPitchFactor (pr_sound (setPreloadSize allocOk s n)) = getPitchFactor s.
Proof.
  unfold setPreloadSize. simpl.
  destruct ((n =? -1) || (mappedLength (memoryReader s) <? n)); simpl;
    match goal with |- context [allocOk ?x] => destruct (allocOk x) end;
    split; reflexivity.
Qed.

(** X4.  A resize that succeeds forgets the previous preload state: the
    result of [setPreloadSize] with [n2] after any earlier resize is the
    result of [setPreloadSize] with [n2] alone. *)
Theorem setPreloadSize_last_request_wins :
  forall (allocOk : Z -> bool) (s : StreamingSamplerSound) (n1 n2 : Z),
    allocOk (clampedSize (memoryReader s) n2) = true ->
    setPreloadSize allocOk (pr_sound (setPreloadSize allocOk s n1)) n2
    = setPreloadSize allocOk s n2.
Proof.
  intros allocOk s n1 n2 Ha.
  destruct (setPreloadSize_clampedSize allocOk s n1) as (_ & Hm & _).
  destruct (setPreloadSize_keeps allocOk s n1) as (Hr & Hg).
  revert Ha. unfold clampedSize.
  unfold setPreloadSize at 1 3. simpl. rewrite Hm.
  destruct ((n2 =? -1) || (mappedLength (memoryReader s) <? n2)); simpl;
    rewrite ?Hm; intros ->; unfold withPreloadBuffer, withPreloadSize; simpl;
    rewrite ?Hm, Hr, Hg; reflexivity.
Qed.

Lemma setPreloadSize_last_request_wins_witness :
  setPreloadSize (fun _ => true) (pr_sound (setPreloadSize (fun _ => true) exSound 2)) (-1)
  = setPreloadSize (fun _ => true) exSound (-1).
Proof.
  apply (setPreloadSize_last_request_wins (fun _ => true) exSound 2 (-1)).
  reflexivity.
Defined.

(** X5.  The preload cache is transparent: for a sound whose preload buffer
    is a copy of the head of the file, [fillSampleBuffer] delivers the
    frames of the file at the requested position, whether it takes them
    from the preload buffer or from the mapped file, and leaves the rest of
    the destination as it was. *)
Theorem fillSampleBuffer_reads_file :
  forall (s : StreamingSamplerSound) (dest : AudioSampleBuffer) (n pos : Z),
    preloaded s -> 0 <= pos -> 0 <= n <= getNumSamples dest ->
    pos + n <= mappedLength (memoryReader s) ->
    fillSampleBuffer s dest n pos
    = Some (slice (memoryReader s) pos n ++ skipn (Z.to_nat n) dest).
Proof.
  intros s dest n pos (Hp & Hbuf) Hpos Hn Hend. unfold fillSampleBuffer.
  destruct (_ <? preloadSize s) eqn:E.
  - apply Z.ltb_lt in E.
    assert (Hlen : getNumSamples (preloadBuffer s) = preloadSize s).
    { rewrite Hbuf. unfold getNumSamples. rewrite slice_length;
        unfold getNumSamples, mappedLength in *; lia. }
    rewrite copyStereo_defined by lia. simpl. rewrite Hbuf.
    rewrite slice_slice by lia. reflexivity.
  - unfold readerRead. destruct (n <=? 0) eqn:E0.
    + apply Z.leb_le in E0. assert (n = 0) as -> by lia. reflexivity.
    + replace ((0 <=? 0) && (0 + n <=? getNumSamples dest)) with true by range_check.
      simpl. rewrite sourceFrames_in_range by lia. reflexivity.
Qed.

Lemma fillSampleBuffer_reads_file_witness :
  fillSampleBuffer exSound (clearedBuffer 3) 2 1
  = Some (slice (memoryReader exSound) 1 2 ++ skipn 2 (clearedBuffer 3))
  /\ fillSampleBuffer exSound (clearedBuffer 3) 2 3
     = Some (slice (memoryReader exSound) 3 2 ++ skipn 2 (clearedBuffer 3)).
Proof.
  split.
  - apply (fillSampleBuffer_reads_file exSound (clearedBuffer 3) 2 1).
    + split; [vm_compute; split; discriminate | reflexivity].
    + lia.
    + vm_compute. split; discriminate.
    + vm_compute. discriminate.
  - apply (fillSampleBuffer_reads_file exSound (clearedBuffer 3) 2 3).
    + split; [vm_compute; split; discriminate | reflexivity].
    + lia.
    + vm_compute. split; discriminate.
    + vm_compute. discriminate.
Defined.

(** ** What a job touches *)

Lemma store_deref_other (l l' : SampleLoader) (w r : BufferRef) (b : AudioSampleBuffer) :
  store l w b = Some l' -> r <> w -> deref l' r = deref l r.
Proof.
  destruct w; simpl; intros H Hne; [discriminate| |];
    injection H as <-; destruct r; try reflexivity; congruence.
Qed.

Lemma store_deref_same (l l' : SampleLoader) (w : BufferRef) (b : AudioSampleBuffer) :
  store l w b = Some l' -> deref l' w = Some b.
Proof.
  destruct w; simpl; intros H; [discriminate| |]; injection H as <-; reflexivity.
Qed.

Lemma fillInactiveBuffer_deref_other (l l' : SampleLoader) (r : BufferRef) :
  fillInactiveBuffer l = Some l' -> r <> writeBuffer l -> deref l' r = deref l r.
Proof.
  unfold fillInactiveBuffer, obind.
  destruct (sound l) as [s|]; [|discriminate].
  destruct (hasEnoughSamplesForBlock s _).
  - destruct (deref l (writeBuffer l)) as [w|]; [|discriminate].
    destruct (fillSampleBuffer s w _ _) as [w'|]; [|discriminate].
    intros H Hne. eapply store_deref_other; eauto.
  - intros H _. injection H as <-. reflexivity.
Qed.

Lemma deref_setUsage (l : SampleLoader) (u c : double) (r : BufferRef) :
  deref (setUsage l u c) r = deref l r.
Proof. destruct r; reflexivity. Qed.

Lemma deref_setBeingFilled (l : SampleLoader) (f : bool) (r : BufferRef) :
  deref (setBeingFilled l f) r = deref l r.
Proof. destruct r; reflexivity. Qed.

Lemma deref_setPool (l : SampleLoader) (j q : nat) (r : BufferRef) :
  deref (setPool l j q) r = deref l r.
Proof. destruct r; reflexivity. Qed.

(** X6.  A job that runs to completion changes the contents of the buffer
    the write pointer designates, the fill flag (cleared), the disk usage
    and [lastCallToRequestData] (set to the start of the read), and nothing
    else: the pointers, the bound sound, the stream offset and every buffer
    other than the write buffer are as before. *)
Theorem runJob_touches_only_the_write_buffer :
  forall (tk : Ticks) (l l' : SampleLoader),
    runJob tk l = Some l' ->
    bufferSize l' = bufferSize l
    /\ readBuffer l' = readBuffer l /\ writeBuffer l' = writeBuffer l
    /\ sound l' = sound l
    /\ positionInSampleFile l' = positionInSampleFile l
    /\ queuedJobs l' = queuedJobs l /\ fillRequests l' = fillRequests l
    /\ writeBufferIsBeingFilled l' = false
    /\ lastCallToRequestData l' = readStart tk
    /\ (forall r, r <> writeBuffer l -> deref l' r = deref l r).
Proof.
  intros tk l l' H. apply runJob_inv in H. destruct H as (l1 & Hf & ->).
  pose proof (fillInactiveBuffer_control _ _ Hf) as Hc. unfold control in Hc.
  injection Hc as Hbs Hr Hw Hs _ Hp _ _ _ Hq Hfr. simpl.
  repeat split; auto.
  intros r Hne. rewrite deref_setUsage, deref_setBeingFilled.
  eapply fillInactiveBuffer_deref_other; eauto.
Qed.

Lemma runJob_touches_only_the_write_buffer_witness :
  exists l',
    runJob exTicks exInFlight = Some l'
    /\ writeBufferIsBeingFilled l' = false
    /\ deref l' B2 = deref exInFlight B2
    /\ deref l' PreloadRef = deref exInFlight PreloadRef.
Proof.
  eexists. split; [vm_compute; reflexivity|].
  match goal with
  | |- context [writeBufferIsBeingFilled ?x] =>
      destruct (runJob_touches_only_the_write_buffer exTicks exInFlight x)
        as (_ & _ & _ & _ & _ & _ & _ & Hf & _ & Hd); [vm_compute; reflexivity|]
  end.
  split; [exact Hf|]. split; apply Hd; discriminate.
Defined.

(** X7.  What a job loads.  For a bound sound with its preload buffer in
    order and a write pointer on a swap buffer: when the window of
    [bufferSize] frames at the stream offset ends strictly below the end of
    the file, the job leaves exactly that window in the write buffer; when
    it does not, the job loads nothing and both swap buffers keep their
    contents, so that frames of the last, partial window of a file never
    reach a swap buffer. *)
Theorem runJob_loads_a_whole_window_or_nothing :
  forall (tk : Ticks) (l : SampleLoader) (s : StreamingSamplerSound),
    loaderWf l s -> preloaded s -> writeBuffer l <> PreloadRef ->
    exists l',
      runJob tk l = Some l'
      /\ (bufferSize l + positionInSampleFile l < mappedLength (memoryReader s) ->
          deref l' (writeBuffer l)
          = Some (slice (memoryReader s) (positionInSampleFile l) (bufferSize l)))
      /\ (mappedLength (memoryReader s) <= bufferSize l + positionInSampleFile l ->
          b1 l' = b1 l /\ b2 l' = b2 l).
Proof.
  intros tk l s Hwf Hpre Hw. pose proof Hwf as [Hs Hsz H1 H2 Hpos Hp].
  unfold runJob, fillInactiveBuffer. rewrite Hs. cbn [obind].
  unfold hasEnoughSamplesForBlock, mappedEnd. fold (mappedLength (memoryReader s)).
  destruct (_ <? mappedLength (memoryReader s)) eqn:E.
  - apply Z.ltb_lt in E.
    destruct (writeBuffer l) eqn:Ew; [congruence| |]; cbn [deref obind];
      rewrite fillSampleBuffer_window by (auto; lia);
      cbn [obind store]; eexists; (split; [reflexivity|]);
      (split; [intros _; reflexivity | intros; lia]).
  - apply Z.ltb_ge in E. cbn [obind]. eexists. split; [reflexivity|].
    split; [intros; lia | intros _; split; reflexivity].
Qed.

Lemma runJob_loads_a_whole_window_or_nothing_witness :
  exists l',
    runJob exTicks exInFlight = Some l'
    /\ deref l' (writeBuffer exInFlight) = Some (slice (memoryReader exSound) 4 4).
Proof.
  destruct (runJob_loads_a_whole_window_or_nothing exTicks exInFlight exSound)
    as (l' & Hr & Hin & _).
  - constructor; vm_compute; try reflexivity; discriminate.
  - split; [vm_compute; split; discriminate | reflexivity].
  - discriminate.
  - exists l'. split; [exact Hr|]. apply Hin. reflexivity.
Defined.

(** ** Requests and the fill flag *)

(** X8.  Without a background thread a fill is never left in flight: from a
    loader with the flag clear, [startNote] and every block request return
    with the flag clear, and no block request reports an underrun. *)
Theorem synchronous_loader_never_underruns :
  forall (cfg : Config) (tk : Ticks) (l : SampleLoader),
    USE_BACKGROUND_THREAD cfg = false ->
    writeBufferIsBeingFilled l = false ->
    (forall s l', loaderStartNote cfg tk l s = Some l' ->
                  writeBufferIsBeingFilled l' = false)
    /\ (forall dest n p l' d oc,
          fillSampleBlockBuffer cfg tk l dest n p = Some (l', d, oc) ->
          oc = FillOk /\ writeBufferIsBeingFilled l' = false).
Proof.
  intros cfg tk l Hsync Hflag. split.
  - intros s l'. unfold loaderStartNote. cbn [writeBufferIsBeingFilled].
    rewrite Hflag. cbn [negb]. intros H. apply requestNewData_inv in H.
    rewrite Hsync in H. tauto.
  - intros dest n p l' d oc H.
    destruct (Z_lt_le_dec (Z.rem p (bufferSize l) + n) (bufferSize l)) as [Hfast|Hslow].
    + destruct (fillSampleBlockBuffer_fast_state _ _ _ _ _ _ _ _ _ Hfast H) as (-> & ->).
      auto.
    + destruct (fillSampleBlockBuffer_slow_inv _ _ _ _ _ _ _ _ _ Hslow H)
        as [(Hf & _) | (_ & R & ->)]; [congruence|].
      apply requestNewData_inv in R. rewrite Hsync in R. tauto.
Qed.

Lemma synchronous_loader_never_underruns_witness :
  exists l' d,
    fillSampleBlockBuffer exSync exTicks exStreaming (clearedBuffer 3) 2 3
    = Some (l', d, FillOk)
    /\ writeBufferIsBeingFilled l' = false.
Proof.
  destruct (synchronous_loader_never_underruns exSync exTicks exStreaming)
    as (_ & H); [reflexivity | reflexivity |].
  do 2 eexists.
  match goal with
  | |- ?e = Some (?a, ?b, _) /\ _ =>
      assert (Hrun : exists oc, e = Some (a, b, oc))
        by (eexists; vm_compute; reflexivity)
  end.
  destruct Hrun as (oc & Hrun). destruct (H _ _ _ _ _ _ Hrun) as (-> & Hf).
  split; [exact Hrun | exact Hf].
Defined.

(** ** What a block request writes *)

Lemma copyStereo_inv (dst : AudioSampleBuffer) (dOff : Z) (src : AudioSampleBuffer)
    (sOff n : Z) (d : AudioSampleBuffer) :
  copyStereo dst dOff src sOff n = Some d ->
  (0 <= n /\ 0 <= sOff /\ sOff + n <= getNumSamples src
   /\ 0 <= dOff /\ dOff + n <= getNumSamples dst)
  /\ d = firstn (Z.to_nat dOff) dst ++ slice src sOff n
         ++ skipn (Z.to_nat (dOff + n)) dst.
Proof.
  intros H.
  assert (Hr : 0 <= n /\ 0 <= sOff /\ sOff + n <= getNumSamples src
               /\ 0 <= dOff /\ dOff + n <= getNumSamples dst).
  { revert H. unfold copyStereo, copyChannel, obind.
    destruct ((0 <=? n) && (0 <=? sOff) && (sOff + n <=? getNumSamples src)
              && (0 <=? dOff) && (dOff + n <=? getNumSamples dst)) eqn:E;
      [|discriminate].
    intros _. repeat (apply andb_true_iff in E; destruct E as [E ?]).
    repeat split; apply Z.leb_le; assumption. }
  split; [exact Hr|].
  rewrite copyStereo_defined in H by tauto. injection H as <-. reflexivity.
Qed.

Lemma copied_length (dst src : AudioSampleBuffer) (dOff sOff n : Z) :
  0 <= n -> 0 <= sOff -> sOff + n <= getNumSamples src ->
  0 <= dOff -> dOff + n <= getNumSamples dst ->
  getNumSamples (firstn (Z.to_nat dOff) dst ++ slice src sOff n
                 ++ skipn (Z.to_nat (dOff + n)) dst) = getNumSamples dst.
Proof.
  intros. unfold getNumSamples in *.
  rewrite !length_app, length_firstn, length_skipn, slice_length
    by (unfold getNumSamples; lia).
  lia.
Qed.

Lemma copied_tail (dst src : AudioSampleBuffer) (dOff sOff n k : Z) :
  0 <= n -> 0 <= sOff -> sOff + n <= getNumSamples src ->
  0 <= dOff -> dOff + n <= getNumSamples dst -> dOff + n <= k ->
  skipn (Z.to_nat k) (firstn (Z.to_nat dOff) dst ++ slice src sOff n
                      ++ skipn (Z.to_nat (dOff + n)) dst)
  = skipn (Z.to_nat k) dst.
Proof.
  intros. unfold getNumSamples in *.
  assert (Hl1 : length (firstn (Z.to_nat dOff) dst) = Z.to_nat dOff)
    by (rewrite length_firstn; lia).
  assert (Hl2 : length (slice src sOff n) = Z.to_nat n)
    by (apply slice_length; unfold getNumSamples; lia).
  rewrite skipn_app_beyond by lia. rewrite Hl1.
  rewrite skipn_app_beyond by lia. rewrite Hl2.
  rewrite skipn_skipn. f_equal. lia.
Qed.

(** X11.  A block request never writes beyond the frames it was asked for:
    whatever the path and the outcome, the destination keeps its length,
    the requested count is not negative (and fits the destination unless an
    underrun cut the request short), and every destination frame from index
    [numSamples] on is as it was. *)
Theorem fillSampleBlockBuffer_writes_only_the_requested_frames :
  forall (cfg : Config) (tk : Ticks) (l l' : SampleLoader)
         (dest d : AudioSampleBuffer) (n p : Z) (oc : FillOutcome),
    fillSampleBlockBuffer cfg tk l dest n p = Some (l', d, oc) ->
    0 <= n
    /\ (oc = FillOk -> n <= getNumSamples dest)
    /\ getNumSamples d = getNumSamples dest
    /\ skipn (Z.to_nat n) d = skipn (Z.to_nat n) dest.
Proof.
  intros cfg tk l l' dest d n p oc. unfold fillSampleBlockBuffer.
  destruct (bufferSize l =? 0); [discriminate|].
  set (r := Z.rem p (bufferSize l)).
  destruct (r + n <? bufferSize l) eqn:E.
  - unfold obind. destruct (deref l (readBuffer l)) as [rb|]; [|discriminate].
    destruct (copyStereo dest 0 rb r n) as [d1|] eqn:C; [|discriminate].
    intros H; injection H as _ <- _.
    apply copyStereo_inv in C. destruct C as ((H1 & H2 & H3 & H4 & H5) & ->).
    split; [lia|]. split; [intros _; lia|].
    split; [apply copied_length; lia | apply copied_tail; lia].
  - apply Z.ltb_ge in E. unfold obind.
    destruct (deref l (readBuffer l)) as [rb|]; [|discriminate].
    destruct (copyStereo dest 0 rb r _) as [d1|] eqn:C; [|discriminate].
    apply copyStereo_inv in C. destruct C as ((H1 & H2 & H3 & H4 & H5) & Hd1).
    assert (Hl1 : getNumSamples d1 = getNumSamples dest)
      by (rewrite Hd1; apply copied_length; lia).
    assert (Ht1 : skipn (Z.to_nat n) d1 = skipn (Z.to_nat n) dest)
      by (rewrite Hd1; apply copied_tail; lia).
    destruct (swapBuffers l) as [l1 ok]. destruct ok.
    + destruct (deref l1 (readBuffer l1)) as [rb'|]; [|discriminate].
      destruct (copyStereo d1 _ rb' 0 _) as [d2|] eqn:C2; [|discriminate].
      destruct (requestNewData _ _ _); [|discriminate].
      intros H; injection H as _ <- _.
      apply copyStereo_inv in C2. destruct C2 as ((G1 & G2 & G3 & G4 & G5) & ->).
      split; [lia|]. split; [intros _; lia|]. split.
      * rewrite copied_length by lia. exact Hl1.
      * rewrite copied_tail by lia. exact Ht1.
    + intros H; injection H as _ <- <-. split; [lia|].
      split; [discriminate|]. split; assumption.
Qed.

Lemma fillSampleBlockBuffer_writes_only_the_requested_frames_witness :
  exists l' d,
    fillSampleBlockBuffer exSync exTicks exStreaming exOutput 2 3 = Some (l', d, FillOk)
    /\ getNumSamples d = getNumSamples exOutput
    /\ skipn 2 d = skipn 2 exOutput.
Proof.
  do 2 eexists.
  match goal with
  | |- ?e = Some (?a, ?b, ?c) /\ _ =>
      assert (Hrun : e = Some (a, b, c)) by (vm_compute; reflexivity)
  end.
  split; [exact Hrun|].
  destruct (fillSampleBlockBuffer_writes_only_the_requested_frames _ _ _ _ _ _ _ _ _ Hrun)
    as (_ & _ & Hl & Ht).
  split; [exact Hl | exact Ht].
Defined.

(** X12.  The loader never checks which window a position belongs to: a
    block request sees the stream position only through its remainder
    modulo [bufferSize], so positions that differ by whole buffers are
    answered alike.  It is the caller that has to keep its position inside
    the window the read buffer holds. *)
Theorem fillSampleBlockBuffer_sees_position_modulo_bufferSize :
  forall (cfg : Config) (tk : Ticks) (l : SampleLoader)
         (dest : AudioSampleBuffer) (n p j : Z),
    0 <= bufferSize l -> 0 <= p -> 0 <= j ->
    fillSampleBlockBuffer cfg tk l dest n (p + j * bufferSize l)
    = fillSampleBlockBuffer cfg tk l dest n p.
Proof.
  intros cfg tk l dest n p j Hbs Hp Hj. unfold fillSampleBlockBuffer.
  destruct (bufferSize l =? 0) eqn:E0; [reflexivity|]. apply Z.eqb_neq in E0.
  rewrite Z.rem_add by nia. reflexivity.
Qed.

Lemma fillSampleBlockBuffer_sees_position_modulo_bufferSize_witness :
  fillSampleBlockBuffer exSync exTicks exStreaming (clearedBuffer 3) 1 (1 + 1 * 4)
  = fillSampleBlockBuffer exSync exTicks exStreaming (clearedBuffer 3) 1 1.
Proof.
  apply (fillSampleBlockBuffer_sees_position_modulo_bufferSize exSync exTicks
           exStreaming (clearedBuffer 3) 1 1 1); [vm_compute; discriminate | lia | lia].
Defined.

(** X13.  A request that ends exactly at the last frame of the read buffer
    takes the slow path although it needs nothing from the other buffer:
    all its frames come from the read buffer, and still the buffers are
    exchanged and, unless an underrun is reported, the stream offset
    advances and a new fill is requested. *)
Theorem request_ending_at_the_buffer_end_swaps :
  forall (cfg : Config) (tk : Ticks) (l l' : SampleLoader)
         (dest d rb : AudioSampleBuffer) (n p : Z) (oc : FillOutcome),
    0 < bufferSize l -> 0 <= p ->
    deref l (readBuffer l) = Some rb ->
    Z.rem p (bufferSize l) + n = bufferSize l ->
    fillSampleBlockBuffer cfg tk l dest n p = Some (l', d, oc) ->
    d = slice rb (Z.rem p (bufferSize l)) n ++ skipn (Z.to_nat n) dest
    /\ readBuffer l' = otherBuffer l
    /\ (oc = FillOk ->
        positionInSampleFile l' = positionInSampleFile l + bufferSize l
        /\ fillRequests l' = S (fillRequests l)).
Proof.
  intros cfg tk l l' dest d rb n p oc Hbs Hp Hrb Hend H.
  assert (Hslow : bufferSize l <= Z.rem p (bufferSize l) + n) by lia.
  assert (Hother : readBuffer (fst (swapBuffers l)) = otherBuffer l).
  { rewrite swapBuffers_unfold. unfold otherBuffer.
    destruct (BufferRef_eqb (readBuffer l) B1); reflexivity. }
  split; [|split].
  - revert H. unfold fillSampleBlockBuffer.
    destruct (bufferSize l =? 0); [discriminate|].
    destruct (_ <? bufferSize l) eqn:E; [apply Z.ltb_lt in E; lia|].
    rewrite Hrb. cbn [obind].
    replace (bufferSize l - Z.rem p (bufferSize l)) with n by lia.
    destruct (copyStereo dest 0 rb _ n) as [d1|] eqn:C; [|discriminate].
    cbn [obind].
    apply copyStereo_inv in C. destruct C as ((H1 & H2 & H3 & H4 & H5) & Hd1).
    simpl in Hd1.
    destruct (swapBuffers l) as [l1 ok]. destruct ok.
    + unfold obind. destruct (deref l1 (readBuffer l1)) as [rb'|]; [|discriminate].
      replace (n - n) with 0 by lia.
      destruct (copyStereo d1 n rb' 0 0) as [d2|] eqn:C2; [|discriminate].
      destruct (requestNewData _ _ _); [|discriminate].
      intros H; injection H as _ <- _.
      apply copyStereo_inv in C2. destruct C2 as (_ & ->).
      unfold slice at 1. simpl firstn. simpl app.
      rewrite Z.add_0_r, firstn_skipn. exact Hd1.
    + intros H; injection H as _ <- _. exact Hd1.
  - destruct (fillSampleBlockBuffer_slow_inv _ _ _ _ _ _ _ _ _ Hslow H)
      as [(_ & -> & _) | (_ & R & _)]; [exact Hother|].
    apply requestNewData_inv in R. destruct R as (_ & R & _).
    rewrite R. exact Hother.
  - intros ->.
    destruct (fillSampleBlockBuffer_slow_inv _ _ _ _ _ _ _ _ _ Hslow H)
      as [(_ & _ & Hoc) | (_ & R & _)]; [discriminate|].
    apply requestNewData_inv in R. destruct R as (_ & _ & _ & _ & Rp & Rf & _).
    rewrite Rp, Rf. rewrite swapBuffers_unfold. cbn [fst].
    destruct (BufferRef_eqb (readBuffer l) B1); simpl; auto.
Qed.

Lemma request_ending_at_the_buffer_end_swaps_witness :
  exists l' d,
    fillSampleBlockBuffer exSync exTicks exStreaming (clearedBuffer 3) 2 2
    = Some (l', d, FillOk)
    /\ d = slice (preloadBuffer exSound) 2 2 ++ skipn 2 (clearedBuffer 3)
    /\ readBuffer l' = B1
    /\ positionInSampleFile l' = 8.
Proof.
  do 2 eexists.
  match goal with
  | |- ?e = Some (?a, ?b, ?c) /\ _ =>
      assert (Hrun : e = Some (a, b, c)) by (vm_compute; reflexivity)
  end.
  split; [exact Hrun|].
  destruct (request_ending_at_the_buffer_end_swaps exSync exTicks exStreaming _
              (clearedBuffer 3) _ (preloadBuffer exSound) 2 2 FillOk
              eq_refl ltac:(lia) eq_refl eq_refl Hrun)
    as (Hd & Hr & Hp).
  split; [exact Hd|]. split; [exact Hr|].
  destruct (Hp eq_refl) as (Hp' & _). exact Hp'.
Defined.

(** X14.  The first blocks of a note do not wait for the disk: after
    [startNote], with or without a fill in flight, every request that ends
    before the first [bufferSize] frames is served from the preload buffer
    of the sound, leaves the loader as it is and reports no underrun. *)
Theorem first_blocks_come_from_the_preload_buffer :
  forall (cfg : Config) (tk : Ticks) (l l1 : SampleLoader) (s : StreamingSamplerSound)
         (dest : AudioSampleBuffer) (n p : Z),
    loaderStartNote cfg tk l s = Some l1 ->
    0 <= p -> 0 <= n <= getNumSamples dest ->
    p + n < bufferSize l ->
    p + n <= getNumSamples (preloadBuffer s) ->
    fillSampleBlockBuffer cfg tk l1 dest n p
    = Some (l1, slice (preloadBuffer s) p n ++ skipn (Z.to_nat n) dest, FillOk).
Proof.
  intros cfg tk l l1 s dest n p Hstart Hp Hn Hfast Hpre.
  assert (Hl1 : bufferSize l1 = bufferSize l /\ readBuffer l1 = PreloadRef
                /\ sound l1 = Some s).
  { revert Hstart. unfold loaderStartNote. cbn [writeBufferIsBeingFilled].
    destruct (writeBufferIsBeingFilled l); cbn [negb].
    - intros H; injection H as <-. auto.
    - intros H. apply requestNewData_inv in H.
      destruct H as (H1 & H2 & _ & H3 & _). auto. }
  destruct Hl1 as (Hbs & Hr & Hs).
  unfold fillSampleBlockBuffer. rewrite Hbs, Hr.
  destruct (bufferSize l =? 0) eqn:E0; [apply Z.eqb_eq in E0; lia|].
  rewrite Z.rem_small by lia.
  destruct (p + n <? bufferSize l) eqn:E; [|apply Z.ltb_ge in E; lia].
  cbn [deref]. rewrite Hs. cbn [option_map obind].
  rewrite copyStereo_defined by lia. reflexivity.
Qed.

Lemma first_blocks_come_from_the_preload_buffer_witness :
  fillSampleBlockBuffer exBackground exTicks exInFlight (clearedBuffer 3) 2 1
  = Some (exInFlight, slice (preloadBuffer exSound) 1 2 ++ skipn 2 (clearedBuffer 3),
          FillOk)
  /\ writeBufferIsBeingFilled exInFlight = true.
Proof.
  split; [|reflexivity].
  apply (first_blocks_come_from_the_preload_buffer exBackground exTicks
           (idleLoader 4) exInFlight exSound (clearedBuffer 3) 2 1).
  - reflexivity.
  - lia.
  - vm_compute. split; discriminate.
  - reflexivity.
  - vm_compute. discriminate.
Defined.

(** ** Reading a stream block by block *)

(** One request of a loader that streams window [k], without a background
    thread: it is answered with the frames of the file, and the loader then
    streams the window the request ended in. *)
Lemma streaming_step (cfg : Config) (tk : Ticks) (l : SampleLoader)
    (s : StreamingSamplerSound) (dest : AudioSampleBuffer) (n p k : Z) :
  USE_BACKGROUND_THREAD cfg = false ->
  preloaded s -> streaming l s k -> 0 <= k ->
  k * bufferSize l <= p < (k + 1) * bufferSize l ->
  0 <= n <= getNumSamples dest -> n <= bufferSize l ->
  (k + 3) * bufferSize l < mappedLength (memoryReader s) ->
  exists l' d,
    fillSampleBlockBuffer cfg tk l dest n p = Some (l', d, FillOk)
    /\ d = slice (memoryReader s) p n ++ skipn (Z.to_nat n) dest
    /\ bufferSize l' = bufferSize l
    /\ streaming l' s (if p + n <? (k + 1) * bufferSize l then k else k + 1).
Proof.
  intros Hsync Hpre Hst Hk Hp Hn Hnbs Hnext.
  pose proof Hst as (Hwf & Hpos & Hflag & Hw & (rb & Hrb & Hwin) & (ob & Hob & Hwin')).
  pose proof Hwf as [Hs Hsz H1 H2 Hpos0 Hps].
  set (bs := bufferSize l) in *.
  assert (Hrem : Z.rem p bs = p - k * bs) by (apply rem_in_window; lia).
  assert (Hrblen : bs <= getNumSamples rb) by (eapply holdsWindow_length; eauto; lia).
  assert (Hoblen : bs <= getNumSamples ob) by (eapply holdsWindow_length; eauto; lia).
  assert (Hdef : exists l' d,
             fillSampleBlockBuffer cfg tk l dest n p = Some (l', d, FillOk)
             /\ d = slice (memoryReader s) p n ++ skipn (Z.to_nat n) dest).
  { unfold fillSampleBlockBuffer. fold bs.
    remember (swapBuffers l) as sw eqn:Hsw.
    destruct (bs =? 0) eqn:E0; [apply Z.eqb_eq in E0; lia|].
    rewrite Hrem, Hrb. cbn [obind].
    destruct (_ <? bs) eqn:E.
    - apply Z.ltb_lt in E.
      rewrite copyStereo_defined by lia. cbn [obind].
      rewrite (holdsWindow_slice s rb (k * bs) bs) by (auto; lia).
      replace (k * bs + (p - k * bs)) with p by lia.
      do 2 eexists. split; reflexivity.
    - apply Z.ltb_ge in E.
      set (rem := bs - (p - k * bs)) in *.
      rewrite copyStereo_defined by lia. cbn [obind].
      rewrite (holdsWindow_slice s rb (k * bs) bs) by (auto; lia).
      replace (k * bs + (p - k * bs)) with p by lia.
      replace (0 + rem) with rem by lia. simpl firstn. simpl app.
      pose proof (deref_after_swap l) as Hderef.
      assert (Hok : snd (swapBuffers l) = true)
        by (rewrite swapBuffers_unfold; cbn [snd]; rewrite Hflag; reflexivity).
      assert (Hbs1 : bufferSize (fst (swapBuffers l)) = bs
                     /\ positionInSampleFile (fst (swapBuffers l))
                        = positionInSampleFile l).
      { rewrite swapBuffers_unfold. cbn [fst].
        destruct (BufferRef_eqb _ _); simpl; auto. }
      destruct (swapBuffers_wf l s (positionInSampleFile l + bs) Hwf ltac:(lia))
        as (Hwf1 & Hw1).
      rewrite <- Hsw in Hderef, Hok, Hbs1, Hwf1, Hw1.
      destruct sw as [l1 ok]. cbn [fst snd] in *. subst ok.
      rewrite Hderef, Hob. cbn [obind].
      assert (Hd1len : length (slice (memoryReader s) p rem) = Z.to_nat rem).
      { apply slice_length; destruct Hwin as (_ & Hm & _);
          unfold getNumSamples, mappedLength in *; lia. }
      rewrite copyStereo_defined;
        [| lia | lia | lia | lia
         | unfold getNumSamples in *; rewrite length_app, length_skipn, Hd1len; lia].
      cbn [obind]. destruct Hbs1 as (Hb1 & Hp1). rewrite Hb1, Hp1.
      destruct (requestNewData_defined cfg tk
                  (setPosition l1 (positionInSampleFile l + bs)) s Hwf1 Hw1)
        as (l2 & Hreq & _).
      rewrite Hreq. cbn [obind].
      rewrite firstn_app_exact by exact Hd1len.
      rewrite skipn_app_beyond by (rewrite Hd1len; lia).
      rewrite Hd1len, skipn_skipn.
      replace (Z.to_nat (rem + (n - rem)) - Z.to_nat rem + Z.to_nat rem)%nat
        with (Z.to_nat n) by lia.
      rewrite (holdsWindow_slice s ob ((k + 1) * bs) bs) by (auto; lia).
      replace ((k + 1) * bs + 0) with (p + rem) by (unfold rem; lia).
      rewrite app_assoc, slice_app by lia.
      replace (rem + (n - rem)) with n by lia.
      do 2 eexists. split; reflexivity. }
  destruct Hdef as (l' & d & Hfill & Hd).
  exists l', d. split; [exact Hfill|]. split; [exact Hd|].
  destruct (p + n <? (k + 1) * bs) eqn:E.
  - apply Z.ltb_lt in E.
    destruct (fillSampleBlockBuffer_fast_state cfg tk l l' dest d n p FillOk) as (-> & _);
      [fold bs; lia | exact Hfill |].
    split; [reflexivity | exact Hst].
  - apply Z.ltb_ge in E.
    destruct (fillSampleBlockBuffer_keeps_streaming cfg tk l l' s dest d n p k FillOk)
      as (_ & Hb & Hst'); auto.
Qed.

(** X15.  Reading a note from its start, block by block, without a
    background thread.  The loader has swap buffers of [bufferSize] frames
    and no fill in flight, the preload buffer is a copy of at least the
    first [bufferSize] frames, no block is longer than a buffer, and the
    reading stops three buffers short of the end of the file: then
    [startNote] followed by the block requests delivers, in order, exactly
    the frames of the file from frame 0 on. *)
Theorem sequential_reading_reproduces_the_file :
  forall (cfg : Config) (tk : Ticks) (l : SampleLoader) (s : StreamingSamplerSound)
         (counts : list Z),
    USE_BACKGROUND_THREAD cfg = false ->
    0 < bufferSize l ->
    getNumSamples (b1 l) = bufferSize l -> getNumSamples (b2 l) = bufferSize l ->
    writeBufferIsBeingFilled l = false ->
    preloaded s -> bufferSize l <= preloadSize s ->
    Forall (fun c => 0 <= c <= bufferSize l) counts ->
    totalFrames counts + 3 * bufferSize l < mappedLength (memoryReader s) ->
    exists l1 l',
      loaderStartNote cfg tk l s = Some l1
      /\ readBlocks cfg tk l1 0 counts
         = Some (l', slice (memoryReader s) 0 (totalFrames counts)).
Proof.
  intros cfg tk l s counts Hsync Hbs H1 H2 Hflag Hpre Hps Hall Hend.
  assert (Htot : 0 <= totalFrames counts).
  { clear Hend. induction Hall as [|c cs Hc _ IH]; simpl; [lia|].
    unfold totalFrames in *. simpl. lia. }
  destruct (loaderStartNote_streaming cfg tk l s Hsync Hbs H1 H2 Hflag Hpre Hps)
    as (l1 & Hstart & Hb1 & Hst); [lia|].
  exists l1.
  assert (Hrun : forall cs l0 k p,
             Forall (fun c => 0 <= c <= bufferSize l) cs ->
             bufferSize l0 = bufferSize l -> streaming l0 s k -> 0 <= k ->
             k * bufferSize l <= p < (k + 1) * bufferSize l ->
             p + totalFrames cs + 3 * bufferSize l < mappedLength (memoryReader s) ->
             exists l', readBlocks cfg tk l0 p cs
                        = Some (l', slice (memoryReader s) p (totalFrames cs))).
  { clear Hall Hend Htot Hstart Hst Hb1 l1.
    induction cs as [|c cs IH]; intros l0 k p Hall Hb Hst Hk Hp Hend.
    - exists l0. simpl. unfold slice. simpl. reflexivity.
    - inversion Hall as [|c' cs' Hc Hcs]; subst.
      assert (Htot : 0 <= totalFrames cs).
      { clear - Hcs. induction Hcs as [|c cs Hc _ IH]; [simpl; lia|].
        unfold totalFrames in *. simpl. lia. }
      change (totalFrames (c :: cs)) with (c + totalFrames cs) in *.
      destruct (streaming_step cfg tk l0 s (clearedBuffer c) c p k Hsync Hpre Hst Hk)
        as (l1 & d & Hfill & Hd & Hb1 & Hst1).
      { rewrite Hb. exact Hp. }
      { unfold getNumSamples, clearedBuffer. rewrite repeat_length. lia. }
      { rewrite Hb. lia. }
      { rewrite Hb. nia. }
      rewrite Hb in Hst1.
      destruct (IH l1 (if p + c <? (k + 1) * bufferSize l then k else k + 1) (p + c))
        as (l2 & Hrest); auto.
      { congruence. }
      { destruct (_ <? _); lia. }
      { destruct (p + c <? (k + 1) * bufferSize l) eqn:E;
          [apply Z.ltb_lt in E | apply Z.ltb_ge in E]; lia. }
      { lia. }
      exists l2. cbn [readBlocks]. rewrite Hfill. cbn [obind]. rewrite Hrest.
      cbn [obind]. f_equal. f_equal. rewrite Hd.
      rewrite skipn_all2
        by (unfold clearedBuffer; rewrite repeat_length; lia).
      rewrite app_nil_r. apply slice_app; lia. }
  destruct (Hrun counts l1 0 0 Hall Hb1 Hst) as (l' & Hread); [lia | lia | lia |].
  exists l'. split; assumption.
Qed.

Lemma sequential_reading_reproduces_the_file_witness :
  exists l1 l',
    loaderStartNote exSync exTicks (idleLoader 4) exLongSound = Some l1
    /\ readBlocks exSync exTicks l1 0 [3; 2; 4; 2]
       = Some (l', slice (memoryReader exLongSound) 0 11).
Proof.
  apply (sequential_reading_reproduces_the_file exSync exTicks (idleLoader 4)
           exLongSound [3; 2; 4; 2]).
  - reflexivity.
  - reflexivity.
  - reflexivity.
  - reflexivity.
  - reflexivity.
  - split; [vm_compute; split; discriminate | reflexivity].
  - vm_compute. discriminate.
  - repeat constructor; vm_compute; discriminate.
  - reflexivity.
Defined.

(** ** The playback position *)




(** ** Interpolation *)




(** ** The count of frames fetched *)

Lemma Qfloor_unique (y : Q) (z : Z) :
  (inject_Z z <= y)%Q -> (y < inject_Z (z + 1))%Q -> Qfloor y = z.
Proof.
  intros H1 H2.
  assert (Hge : z <= Qfloor y).
  { rewrite <- (Qfloor_Z z). apply Qfloor_resp_le. exact H1. }
  assert (Hlt : Qfloor y < z + 1).
  { rewrite Zlt_Qlt. apply Qle_lt_trans with y; [apply Qfloor_le | exact H2]. }
  lia.
Qed.






(** ** Rendering at the original pitch *)

Lemma renderLoop_in_bounds (cfg : Config) (delta : double) (pd : option (Z -> float))
    (work : AudioSampleBuffer) (pos : Z) (n : nat) :
  forall (startSample : Z) (uptime : double) (out : AudioSampleBuffer) (o : Z)
         (uptime' : double) (out' : AudioSampleBuffer),
    renderLoop cfg delta pd work pos (S n) startSample uptime out o
    = Some (uptime', out') ->
    indicesInBounds cfg delta pd work pos (S n) startSample uptime = true
    /\ 0 <= o /\ o + Z.of_nat (S n) <= getNumSamples out.
Proof.
  induction n as [|n IH]; intros ss u out o u' out' H.
  - cbn [renderLoop] in H. cbn [indicesInBounds].
    unfold interpolate in H. fold (indexAt pos u) in H.
    destruct (frameAt work (indexAt pos u)) as [a|] eqn:Ea;
      cbn [obind] in H; [|discriminate].
    destruct (frameAt work (indexAt pos u + 1)) as [b|] eqn:Eb;
      cbn [obind] in H; [|discriminate].
    apply frameAt_in_range in Ea, Eb.
    unfold addFrame in H.
    destruct (frameAt out o) as [f|] eqn:Ef; cbn [obind] in H; [|discriminate].
    apply frameAt_in_range in Ef.
    destruct (advanceUptime cfg delta pd ss u); cbn [obind] in H; [|discriminate].
    split; [|lia].
    replace (0 <=? _) with true by (symmetry; apply Z.leb_le; lia).
    replace (_ <? getNumSamples work) with true by (symmetry; apply Z.ltb_lt; lia).
    reflexivity.
  - remember (S n) as m eqn:Hm. cbn [renderLoop] in H. cbn [indicesInBounds].
    unfold interpolate in H. fold (indexAt pos u) in H.
    destruct (frameAt work (indexAt pos u)) as [a|] eqn:Ea;
      cbn [obind] in H; [|discriminate].
    destruct (frameAt work (indexAt pos u + 1)) as [b|] eqn:Eb;
      cbn [obind] in H; [|discriminate].
    apply frameAt_in_range in Ea, Eb.
    destruct (addFrame out o _) as [out1|] eqn:Eadd; cbn [obind] in H; [|discriminate].
    pose proof (addFrame_length _ _ _ _ Eadd) as Hl.
    unfold addFrame in Eadd.
    destruct (frameAt out o) as [f|] eqn:Ef; [|discriminate].
    apply frameAt_in_range in Ef.
    destruct (advanceUptime cfg delta pd ss u) as [u1|]; cbn [obind] in H;
      [|discriminate].
    subst m. apply IH in H. destruct H as (Hb & Ho & Hlen).
    rewrite Hb.
    replace (0 <=? _) with true by (symmetry; apply Z.leb_le; lia).
    replace (_ <? getNumSamples work) with true by (symmetry; apply Z.ltb_lt; lia).
    split; [reflexivity|]. lia.
Qed.

Lemma uptimeAt_unit_ratio (cfg : Config) (pd : option (Z -> float)) (k : nat) :
  STAND_ALONE cfg = false ->
  forall (startSample a : Z),
    uptimeAt cfg 1%Q pd startSample (inject_Z a) k = Some (inject_Z (a + Z.of_nat k)).
Proof.
  intros Hsa. induction k as [|k IH]; intros ss a; cbn [uptimeAt].
  - rewrite Z.add_0_r. reflexivity.
  - unfold advanceUptime. rewrite Hsa. cbn [obind].
    replace (inject_Z a + 1)%Q with (inject_Z (a + 1)).
    + rewrite IH. do 2 f_equal. lia.
    + unfold inject_Z, Qplus. simpl. f_equal. lia.
Qed.

Lemma interpolate_on_a_frame (work : AudioSampleBuffer) (z j : Z) (c : frame) :
  0 <= j <= 16777216 ->
  interpolate work z (inject_Z (z + j)) = Some c ->
  exists a, frameAt work j = Some a /\ (fst c == fst a)%Q /\ (snd c == snd a)%Q.
Proof.
  intros Hj. unfold interpolate.
  assert (Hx : (inject_Z (z + j) - ofInt z)%Q = inject_Z j).
  { unfold ofInt, inject_Z, Qminus, Qplus, Qopp. simpl. f_equal. lia. }
  rewrite Hx, toFloat_whole by exact Hj.
  assert (Hi : toInt (inject_Z j) = j) by (unfold toInt; simpl; apply Z.quot_1_r).
  rewrite Hi.
  assert (Ha : (inject_Z j - ofInt j)%Q = 0%Q).
  { unfold ofInt, inject_Z, Qminus, Qplus, Qopp. simpl. f_equal. lia. }
  rewrite Ha.
  destruct (frameAt work j) as [a|]; cbn [obind]; [|discriminate].
  destruct (frameAt work (j + 1)) as [b|]; cbn [obind]; [|discriminate].
  intros H; injection H as <-. exists a. cbn [fst snd].
  split; [reflexivity|]. split; ring.
Qed.

(** X20.  Rendering at the original pitch from a whole position: with a
    pitch ratio of 1 and [STAND_ALONE] not set, output frame
    [startSample + j] of a rendered block ends as its previous value plus
    frame [j] of the frames fetched for the block, on both channels.  The
    block has at most [2^24] frames: up to there the position inside the
    block is a single-precision number, so that its narrowing is exact
    (at position [2^24 + 1] of a block the loop reads frame [2^24]). *)
Theorem unit_ratio_render_adds_the_fetched_frames :
  forall (cfg : Config) (tk : Ticks) (v v' : StreamingSamplerVoice)
         (s : StreamingSamplerSound) (out out' : AudioSampleBuffer)
         (startSample numSamples n z : Z) (oc : FillOutcome),
    STAND_ALONE cfg = false ->
    sound (loader v) = Some s ->
    voiceUptime v = inject_Z z -> uptimeDelta v = 1%Q ->
    numSamples <= 16777216 ->
    samplesToCopy cfg v startSample numSamples = Some n ->
    hasEnoughSamplesForBlock s (toInt (voiceUptime v) + n) = true ->
    renderNextBlock cfg tk v out startSample numSamples = Some (v', out', oc) ->
    forall j, 0 <= j < numSamples ->
      exists f a f',
        frameAt out (startSample + j) = Some f
        /\ frameAt (samplesForThisBlock v') j = Some a
        /\ frameAt out' (startSample + j) = Some f'
        /\ (fst f' == fst f + fst a)%Q /\ (snd f' == snd f + snd a)%Q.
Proof.
  intros cfg tk v v' s out out' ss ns n z oc Hsa Hs Hu Hd Hbig Hn He.
  unfold renderNextBlock. rewrite Hs, Hn. cbn [obind]. rewrite He. cbn [negb].
  destruct (fillSampleBlockBuffer _ _ _ _ _ _) as [[[l1 work] oc1]|]; [|discriminate].
  cbn [obind].
  destruct (renderLoop _ _ _ _ _ _ _ _ _ _) as [[u1 out1]|] eqn:Hloop; [|discriminate].
  cbn [obind]. intros H; injection H as <- <- _. cbn [samplesForThisBlock].
  intros j Hj.
  destruct (Z.to_nat ns) as [|m] eqn:Hm; [lia|].
  destruct (renderLoop_in_bounds _ _ _ _ _ _ _ _ _ _ _ _ Hloop) as (Hb & Ho & Hlen).
  destruct (renderLoop_adds _ _ _ _ _ _ _ _ _ _ Hb Ho Hlen)
    as (u2 & out2 & Hloop2 & _ & _ & Hin & _).
  rewrite Hloop in Hloop2. injection Hloop2 as _ <-.
  destruct (Hin (Z.to_nat j) ltac:(lia)) as (u & c & f & Hup & Hc & Hf & Hres).
  rewrite Z2Nat.id in Hf, Hres by lia.
  rewrite Hu, Hd, uptimeAt_unit_ratio in Hup by exact Hsa.
  injection Hup as <-. rewrite Z2Nat.id in Hc by lia.
  assert (Hpos : toInt (voiceUptime v) = z)
    by (rewrite Hu; unfold toInt; simpl; apply Z.quot_1_r).
  rewrite Hpos in Hc.
  assert (Hj24 : 0 <= j <= 16777216) by lia.
  destruct (interpolate_on_a_frame _ _ _ _ Hj24 Hc) as (a & Ha & Hl & Hr).
  exists f, a, ((fst f + fst c)%Q, (snd f + snd c)%Q).
  cbn [fst snd]. repeat split; auto.
  - rewrite Hl. reflexivity.
  - rewrite Hr. reflexivity.
Qed.

Lemma unit_ratio_render_adds_the_fetched_frames_witness :
  indexAt 0 (inject_Z 16777217) = 16777216
  /\ exists v' out' f a f',
       renderNextBlock exSync exTicks exVoice exOutput 1 2 = Some (v', out', FillOk)
       /\ frameAt exOutput 2 = Some f
       /\ frameAt (samplesForThisBlock v') 1 = Some a
       /\ frameAt out' 2 = Some f'
       /\ (fst f' == fst f + fst a)%Q /\ (snd f' == snd f + snd a)%Q.
Proof.
  split; [vm_compute; reflexivity|].
  do 2 eexists.
  match goal with
  | |- exists f a f', ?e = Some (?x, ?y, ?c) /\ _ =>
      assert (Hrun : e = Some (x, y, c)) by (vm_compute; reflexivity)
  end.
  destruct (unit_ratio_render_adds_the_fetched_frames exSync exTicks exVoice _
              exSound exOutput _ 1 2 2 0 FillOk eq_refl eq_refl eq_refl eq_refl
              ltac:(lia) eq_refl eq_refl Hrun 1 ltac:(lia))
    as (f & a & f' & Hf & Ha & Hf' & Hl & Hr).
  exists f, a, f'. repeat split; assumption.
Defined.

(** ** From the file to the output *)

Lemma inject_Z_plus_one (a : Z) : (inject_Z a + 1)%Q = inject_Z (a + 1).
Proof. unfold inject_Z, Qplus. simpl. f_equal. lia. Qed.

Lemma accumulatePitch_unit (cfg : Config) (pd : option (Z -> float)) (n : nat) :
  STANDALONE cfg = true ->
  forall (i a : Z),
    accumulatePitch cfg 1%Q pd i n (inject_Z a) = Some (inject_Z (a + Z.of_nat n)).
Proof.
  intros Hs. induction n as [|n IH]; intros i a; cbn [accumulatePitch].
  - rewrite Z.add_0_r. reflexivity.
  - rewrite Hs, inject_Z_plus_one, IH. do 2 f_equal. lia.
Qed.

Lemma toInt_whole_plus_rounding (a : Z) :
  0 <= a -> toInt (inject_Z a + c_0_99999f)%Q = a.
Proof.
  intros Ha.
  assert (Hq : (0 <= inject_Z a)%Q)
    by (change 0%Q with (inject_Z 0); rewrite <- Zle_Qle; exact Ha).
  assert (Hc0 : (0 <= c_0_99999f)%Q) by (unfold Qle; simpl; lia).
  assert (Hc1 : (c_0_99999f < 1)%Q) by (unfold Qlt; simpl; lia).
  rewrite toInt_floor by lra. apply Qfloor_unique.
  - lra.
  - rewrite inject_Z_plus. change (inject_Z 1) with 1%Q. lra.
Qed.

Lemma indicesInBounds_unit (cfg : Config) (pd : option (Z -> float))
    (work : AudioSampleBuffer) (z : Z) (n : nat) :
  STAND_ALONE cfg = false ->
  forall (startSample a : Z),
    0 <= a -> a + Z.of_nat n < getNumSamples work \/ n = 0%nat ->
    a + Z.of_nat n <= 16777216 ->
    indicesInBounds cfg 1%Q pd work z n startSample (inject_Z (z + a)) = true.
Proof.
  intros Hsa. induction n as [|n IH]; intros ss a Ha Hlen Hbig; [reflexivity|].
  destruct Hlen as [Hlen|Hlen]; [|discriminate].
  cbn [indicesInBounds]. unfold indexAt.
  assert (Hx : (inject_Z (z + a) - ofInt z)%Q = inject_Z a).
  { unfold ofInt, inject_Z, Qminus, Qplus, Qopp. simpl. f_equal. lia. }
  rewrite Hx, toFloat_whole by lia.
  assert (Hi : toInt (inject_Z a) = a) by (unfold toInt; simpl; apply Z.quot_1_r).
  rewrite Hi.
  replace (0 <=? a) with true by (symmetry; apply Z.leb_le; lia).
  replace (a + 1 <? getNumSamples work) with true by (symmetry; apply Z.ltb_lt; lia).
  unfold advanceUptime. rewrite Hsa, inject_Z_plus_one. cbn [andb].
  replace (z + a + 1) with (z + (a + 1)) by lia.
  apply IH; lia.
Qed.

Lemma frameAt_slice_app (m rest : list frame) (z n j : Z) :
  0 <= z -> 0 <= j < n -> z + n <= getNumSamples m ->
  frameAt (slice m z n ++ rest) j = frameAt m (z + j).
Proof.
  intros Hz Hj Hlen. unfold frameAt.
  destruct (j <? 0) eqn:E1; [apply Z.ltb_lt in E1; lia|].
  destruct (z + j <? 0) eqn:E2; [apply Z.ltb_lt in E2; lia|].
  rewrite nth_error_app1 by (rewrite slice_length; lia).
  unfold slice. rewrite nth_error_firstn.
  destruct (Z.to_nat j <? Z.to_nat n)%nat eqn:E3; [|apply Nat.ltb_ge in E3; lia].
  rewrite nth_error_skipn. f_equal. lia.
Qed.

(** X21.  One block at the original pitch, from the file to the output,
    without a background thread and without per-sample pitch data.  The
    loader streams window [k], the playback position is a whole frame [z]
    of that window, the pitch ratio is 1, the block is no longer than a
    buffer and shorter than the work buffer, and the window two buffers
    ahead ends below the end of the file.  Then the block is rendered with
    no underrun; output frame [startSample + j] ends as its previous value
    plus frame [z + j] of the file, every other output frame is unchanged;
    the position becomes [z + numSamples]; and the loader streams the
    window that position lies in, so that the next block can be rendered
    the same way.  The block has at most [2^24] frames, so that the
    narrowing of the position inside the block is exact. *)
Theorem original_pitch_block_mixes_the_file :
  forall (cfg : Config) (tk : Ticks) (v : StreamingSamplerVoice)
         (s : StreamingSamplerSound) (out : AudioSampleBuffer)
         (startSample numSamples z k : Z),
    USE_BACKGROUND_THREAD cfg = false ->
    STANDALONE cfg = true -> STAND_ALONE cfg = false ->
    preloaded s -> streaming (loader v) s k -> 0 <= k ->
    voiceUptime v = inject_Z z -> uptimeDelta v = 1%Q ->
    k * bufferSize (loader v) <= z < (k + 1) * bufferSize (loader v) ->
    0 <= numSamples <= bufferSize (loader v) ->
    numSamples <= 16777216 ->
    numSamples < getNumSamples (samplesForThisBlock v) ->
    (k + 3) * bufferSize (loader v) < mappedLength (memoryReader s) ->
    0 <= startSample -> startSample + numSamples <= getNumSamples out ->
    exists v' out',
      renderNextBlock cfg tk v out startSample numSamples = Some (v', out', FillOk)
      /\ voiceUptime v' = inject_Z (z + numSamples)
      /\ uptimeDelta v' = 1%Q
      /\ bufferSize (loader v') = bufferSize (loader v)
      /\ getNumSamples (samplesForThisBlock v') = getNumSamples (samplesForThisBlock v)
      /\ streaming (loader v') s
           (if z + numSamples <? (k + 1) * bufferSize (loader v) then k else k + 1)
      /\ (forall j, 0 <= j < numSamples ->
            exists f a f',
              frameAt out (startSample + j) = Some f
              /\ frameAt (memoryReader s) (z + j) = Some a
              /\ frameAt out' (startSample + j) = Some f'
              /\ (fst f' == fst f + fst a)%Q /\ (snd f' == snd f + snd a)%Q)
      /\ (forall i, i < startSample \/ startSample + numSamples <= i ->
            frameAt out' i = frameAt out i).
Proof.
  intros cfg tk v s out ss ns z k Hsync Hst1 Hsa Hpre Hstr Hk Hu Hd Hz Hns Hbig Hwork
         Hnext Hss Hout.
  pose proof Hstr as (Hwf & _). pose proof Hwf as [Hs Hsz _ _ _ _].
  set (bs := bufferSize (loader v)) in *.
  assert (Hz0 : 0 <= z) by nia.
  assert (Hpos : toInt (voiceUptime v) = z)
    by (rewrite Hu; unfold toInt; simpl; apply Z.quot_1_r).
  assert (Hn : samplesToCopy cfg v ss ns = Some ns).
  { unfold samplesToCopy, numSamplesUsed.
    rewrite Hu, integral_position_has_no_fraction, Hd.
    change 0%Q with (inject_Z 0). rewrite accumulatePitch_unit by exact Hst1.
    cbn [obind]. rewrite Z.add_0_l, Z2Nat.id by lia.
    rewrite toInt_whole_plus_rounding by lia. reflexivity. }
  assert (Hm : z + ns < mappedLength (memoryReader s)) by nia.
  destruct (streaming_step cfg tk (loader v) s (samplesForThisBlock v) ns z k
              Hsync Hpre Hstr Hk Hz ltac:(lia) ltac:(fold bs; lia) Hnext)
    as (l' & work & Hfill & Hw & Hb & Hstr').
  assert (Hwl : getNumSamples work = getNumSamples (samplesForThisBlock v)).
  { rewrite Hw. unfold getNumSamples in *.
    rewrite length_app, length_skipn, slice_length
      by (unfold getNumSamples, mappedLength in *; lia).
    lia. }
  assert (Hib : indicesInBounds cfg 1%Q (pitchData v) work z (Z.to_nat ns) ss
                  (inject_Z (z + 0)) = true)
    by (apply indicesInBounds_unit; [exact Hsa | lia | left; lia | lia]).
  rewrite Z.add_0_r in Hib.
  destruct (renderLoop_adds cfg 1%Q (pitchData v) work z (Z.to_nat ns) ss
              (inject_Z z) out ss Hib Hss ltac:(lia))
    as (u' & out' & Hloop & Hup & Hl & Hin & Hothers).
  pose proof (uptimeAt_unit_ratio cfg (pitchData v) (Z.to_nat ns) Hsa ss z) as Hup'.
  rewrite Hup in Hup'. injection Hup' as ->. rewrite Z2Nat.id in * by lia.
  eexists. exists out'. split.
  { unfold renderNextBlock. rewrite Hs, Hn. cbn [obind]. rewrite Hpos.
    unfold hasEnoughSamplesForBlock, mappedEnd.
    fold (mappedLength (memoryReader s)).
    replace (z + ns <? mappedLength (memoryReader s)) with true
      by (symmetry; apply Z.ltb_lt; exact Hm).
    cbn [negb]. rewrite Hfill. cbn [obind]. rewrite Hd, Hu, Hloop. cbn [obind].
    reflexivity. }
  cbn [voiceUptime uptimeDelta loader samplesForThisBlock].
  split; [reflexivity|]. split; [reflexivity|]. split; [exact Hb|].
  split; [exact Hwl|]. split; [exact Hstr'|]. split; [|exact Hothers].
  intros j Hj.
  destruct (Hin (Z.to_nat j) ltac:(lia)) as (u & c & f & Huj & Hc & Hf & Hres).
  rewrite Z2Nat.id in Hf, Hres by lia.
  rewrite uptimeAt_unit_ratio in Huj by exact Hsa.
  injection Huj as <-. rewrite Z2Nat.id in Hc by lia.
  assert (Hj24 : 0 <= j <= 16777216) by lia.
  destruct (interpolate_on_a_frame _ _ _ _ Hj24 Hc) as (a & Ha & Hl' & Hr').
  exists f, a, ((fst f + fst c)%Q, (snd f + snd c)%Q). cbn [fst snd].
  split; [exact Hf|]. split.
  - rewrite Hw in Ha. rewrite frameAt_slice_app in Ha
      by (unfold getNumSamples, mappedLength in *; lia).
    exact Ha.
  - split; [exact Hres|]. split; [rewrite Hl' | rewrite Hr']; reflexivity.
Qed.

Lemma original_pitch_block_mixes_the_file_witness :
  exists v' out',
    renderNextBlock exSync exTicks
      (mkVoice (match loaderStartNote exSync exTicks (idleLoader 4) exLongSound with
                | Some l => l
                | None => idleLoader 4
                end) 0%Q 1%Q (clearedBuffer 8) None)
      exOutput 1 3 = Some (v', out', FillOk)
    /\ voiceUptime v' = inject_Z 3
    /\ exists f a f',
         frameAt exOutput 3 = Some f
         /\ frameAt (memoryReader exLongSound) 2 = Some a
         /\ frameAt out' 3 = Some f'
         /\ (fst f' == fst f + fst a)%Q /\ (snd f' == snd f + snd a)%Q.
Proof.
  destruct (original_pitch_block_mixes_the_file exSync exTicks
              (mkVoice (match loaderStartNote exSync exTicks (idleLoader 4) exLongSound with
                        | Some l => l
                        | None => idleLoader 4
                        end) 0%Q 1%Q (clearedBuffer 8) None)
              exLongSound exOutput 1 3 0 0)
    as (v' & out' & Hr & Hu & _ & _ & _ & _ & Hin & _).
  - reflexivity.
  - reflexivity.
  - reflexivity.
  - split; [vm_compute; split; discriminate | reflexivity].
  - repeat split; try (vm_compute; discriminate); try reflexivity.
    + eexists. split; [reflexivity|].
      repeat split; try (vm_compute; discriminate); reflexivity.
    + eexists. split; [reflexivity|].
      repeat split; try (vm_compute; discriminate); reflexivity.
  - lia.
  - reflexivity.
  - reflexivity.
  - vm_compute. split; [discriminate | reflexivity].
  - vm_compute. split; discriminate.
  - lia.
  - reflexivity.
  - reflexivity.
  - lia.
  - vm_compute. discriminate.
  - exists v', out'. split; [exact Hr|]. split; [exact Hu|].
    apply (Hin 2). lia.
Defined.

(** ** The background pool, statement by statement *)

Lemma fillSampleBuffer_length (s : StreamingSamplerSound) (w w' : AudioSampleBuffer)
    (size pos : Z) :
  fillSampleBuffer s w size pos = Some w' -> getNumSamples w' = getNumSamples w.
Proof.
  unfold fillSampleBuffer. destruct (_ <? preloadSize s).
  - intros H. apply copyStereo_inv in H. destruct H as (Hr & ->).
    apply copied_length; tauto.
  - unfold readerRead. destruct (size <=? 0) eqn:E0.
    + intros H; injection H as <-. reflexivity.
    + apply Z.leb_gt in E0.
      destruct ((0 <=? 0) && (0 + size <=? getNumSamples w)) eqn:E; [|discriminate].
      apply andb_true_iff in E. destruct E as (_ & E). apply Z.leb_le in E.
      intros H; injection H as <-. unfold getNumSamples in *.
      rewrite !length_app, length_skipn. cbn [Z.to_nat firstn length].
      unfold sourceFrames. rewrite length_map, length_seq. lia.
Qed.

(** A job that starts on a loader with its sizes in order reaches the end
    of line 179: the flag is clear, and [runJob] has not returned. *)
Lemma jobSteps_past_the_clear (tk : Ticks) (l : SampleLoader)
    (s : StreamingSamplerSound) :
  loaderWf l s -> writeBuffer l <> PreloadRef ->
  exists k l',
    jobSteps tk k AtReadStart l = Some (Some (AtMeasure (readStart tk)), l')
    /\ writeBufferIsBeingFilled l' = false
    /\ queuedJobs l' = queuedJobs l /\ fillRequests l' = fillRequests l
    /\ bufferSize l' = bufferSize l
    /\ getNumSamples (b1 l') = bufferSize l /\ getNumSamples (b2 l') = bufferSize l.
Proof.
  intros Hwf Hw. pose proof Hwf as [Hs Hsz H1 H2 Hp Hpre].
  destruct (fillInactiveBuffer_defined l s Hwf Hw) as (l1 & Hf & Hb1 & Hb2).
  pose proof (fillInactiveBuffer_control _ _ Hf) as Hc. unfold control in Hc.
  injection Hc as Hbs _ _ _ _ _ _ _ _ Hq Hfr.
  revert Hf. unfold fillInactiveBuffer. rewrite Hs. cbn [obind].
  destruct (hasEnoughSamplesForBlock s _) eqn:Eg.
  - destruct (deref l (writeBuffer l)) as [w|] eqn:Hd; cbn [obind]; [|discriminate].
    destruct (fillSampleBuffer s w _ _) as [w'|] eqn:Hfill; cbn [obind]; [|discriminate].
    intros Hst. exists 5%nat, (setBeingFilled l1 false).
    split.
    { cbn [jobSteps jobStep]. rewrite Hs. cbn [obind]. rewrite Eg.
      cbn [jobSteps jobStep]. rewrite Hs. cbn [obind jobSteps jobStep].
      rewrite Hd. cbn [obind]. rewrite Hfill. cbn [obind]. rewrite Hst.
      cbn [obind]. reflexivity. }
    cbn. repeat split; auto.
  - intros H; injection H as <-. exists 3%nat, (setBeingFilled l false).
    split.
    { cbn [jobSteps jobStep]. rewrite Hs. cbn [obind]. rewrite Eg. reflexivity. }
    cbn. repeat split; auto.
Qed.

(** X9.  The flag is no mutex for the pool.  With a background pool, from
    a loader with buffers in order, no fill in flight and no job in the
    pool: [startNote] hands a job to the pool; a thread takes it and runs
    it up to and including line 179, which clears the flag, while [runJob]
    has not returned and the pool still holds the job.  A [startNote] at
    that moment finds the flag clear and calls [requestNewData], and so
    does every block request that reaches the end of the read buffer (it
    reports no underrun): [requestNewData] is reached with the job in the
    pool, the case its assertion excludes. *)
Theorem requestNewData_reached_with_the_job_in_the_pool :
  forall (cfg : Config) (tk tk1 tk2 : Ticks) (l : SampleLoader)
         (s s' : StreamingSamplerSound),
    USE_BACKGROUND_THREAD cfg = true ->
    writeBufferIsBeingFilled l = false -> queuedJobs l = 0%nat ->
    0 < bufferSize l ->
    getNumSamples (b1 l) = bufferSize l -> getNumSamples (b2 l) = bufferSize l ->
    preloadSize s <= getNumSamples (preloadBuffer s) ->
    exists l1 l2 k l3,
      loaderStartNote cfg tk l s = Some l1
      /\ poolTakesJob l1 = Some (AtReadStart, l2)
      /\ jobSteps tk1 k AtReadStart l2 = Some (Some (AtMeasure (readStart tk1)), l3)
      /\ writeBufferIsBeingFilled l3 = false
      /\ poolContains (Some (AtMeasure (readStart tk1))) l3 = true
      /\ (exists l4, loaderStartNote cfg tk2 l3 s' = Some l4
                     /\ fillRequests l4 = S (fillRequests l3))
      /\ (forall dest n p l4 d oc,
            bufferSize l3 <= Z.rem p (bufferSize l3) + n ->
            fillSampleBlockBuffer cfg tk2 l3 dest n p = Some (l4, d, oc) ->
            oc = FillOk /\ fillRequests l4 = S (fillRequests l3)).
Proof.
  intros cfg tk tk1 tk2 l s s' Hbg Hflag Hq Hbs H1 H2 Hpre.
  assert (Hstart : exists l1,
             loaderStartNote cfg tk l s = Some l1
             /\ queuedJobs l1 = 1%nat /\ sound l1 = Some s /\ writeBuffer l1 = B1
             /\ bufferSize l1 = bufferSize l /\ b1 l1 = b1 l /\ b2 l1 = b2 l
             /\ positionInSampleFile l1 = bufferSize l).
  { unfold loaderStartNote. cbn [writeBufferIsBeingFilled]. rewrite Hflag. cbn [negb].
    unfold requestNewData. rewrite Hbg. eexists. split; [reflexivity|].
    cbn. rewrite Hq. repeat split; reflexivity. }
  destruct Hstart as (l1 & Hs1 & Hq1 & Hsd & Hw1 & Hb & Hb1 & Hb2 & Hp1).
  exists l1, (setPool l1 0 (fillRequests l1)).
  destruct (jobSteps_past_the_clear tk1 (setPool l1 0 (fillRequests l1)) s)
    as (k & l3 & Hrun & Hf3 & Hq3 & Hfr3 & Hbs3 & _).
  { constructor; cbn; try congruence; lia. }
  { cbn. rewrite Hw1. discriminate. }
  exists k, l3.
  split; [exact Hs1|].
  split; [unfold poolTakesJob; rewrite Hq1; reflexivity|].
  split; [exact Hrun|]. split; [exact Hf3|].
  split; [unfold poolContains; apply orb_true_r|].
  split.
  - unfold loaderStartNote. cbn [writeBufferIsBeingFilled]. rewrite Hf3. cbn [negb].
    unfold requestNewData. rewrite Hbg. eexists. split; [reflexivity|]. reflexivity.
  - intros dest n p l4 d oc Hslow H.
    destruct (fillSampleBlockBuffer_slow_inv _ _ _ _ _ _ _ _ _ Hslow H)
      as [(Hf & _) | (_ & R & ->)]; [congruence|].
    split; [reflexivity|].
    apply requestNewData_inv in R. destruct R as (_ & _ & _ & _ & _ & R & _).
    rewrite R. rewrite swapBuffers_unfold. cbn [fst].
    destruct (BufferRef_eqb (readBuffer l3) B1); reflexivity.
Qed.

Lemma requestNewData_reached_with_the_job_in_the_pool_witness :
  exists l1 l2 k l3 l4,
    loaderStartNote exBackground exTicks (idleLoader 4) exSound = Some l1
    /\ poolTakesJob l1 = Some (AtReadStart, l2)
    /\ jobSteps exTicks k AtReadStart l2 = Some (Some (AtMeasure 1%Q), l3)
    /\ writeBufferIsBeingFilled l3 = false
    /\ poolContains (Some (AtMeasure 1%Q)) l3 = true
    /\ loaderStartNote exBackground exTicks l3 exLongSound = Some l4
    /\ fillRequests l4 = S (fillRequests l3).
Proof.
  destruct (requestNewData_reached_with_the_job_in_the_pool exBackground exTicks
              exTicks exTicks (idleLoader 4) exSound exLongSound)
    as (l1 & l2 & k & l3 & H1 & H2 & H3 & H4 & H5 & (l4 & H6 & H7) & _);
    [reflexivity | reflexivity | reflexivity | reflexivity | reflexivity | reflexivity
    | vm_compute; discriminate |].
  exists l1, l2, k, l3, l4. repeat split; assumption.
Defined.

(** X10.  An underrun hands the buffer that is being filled to the reader.
    A job is inside [fillSampleBuffer], called with the write buffer as its
    destination, and the write buffer is the other buffer.  A block request
    that reaches the end of the read buffer reports an underrun and
    exchanges the pointers all the same, so that the read buffer is now the
    destination of the copy under way; when the copy completes, it is the
    contents of the read buffer that the job has replaced. *)
Theorem underrun_hands_over_the_buffer_being_filled :
  forall (cfg : Config) (tk tk1 : Ticks) (l : SampleLoader)
         (dest : AudioSampleBuffer) (n p : Z) (rb w w' : AudioSampleBuffer)
         (t0 : double) (s0 : StreamingSamplerSound) (size position : Z),
    0 < bufferSize l -> 0 <= p ->
    deref l (readBuffer l) = Some rb -> bufferSize l <= getNumSamples rb ->
    bufferSize l <= Z.rem p (bufferSize l) + n ->
    bufferSize l - Z.rem p (bufferSize l) <= getNumSamples dest ->
    writeBufferIsBeingFilled l = true ->
    writeBuffer l = otherBuffer l ->
    deref l (writeBuffer l) = Some w ->
    fillSampleBuffer s0 w size position = Some w' ->
    exists l1 d l2,
      fillSampleBlockBuffer cfg tk l dest n p = Some (l1, d, BufferUnderrun)
      /\ readBuffer l1 = writeBuffer l
      /\ deref l1 (readBuffer l1) = Some w
      /\ jobStep tk1 (InCopy t0 s0 (writeBuffer l) size position) l1
         = Some (Some (AtClear t0), l2)
      /\ readBuffer l2 = readBuffer l1
      /\ deref l2 (readBuffer l2) = Some w'.
Proof.
  intros cfg tk tk1 l dest n p rb w w' t0 s0 size position
         Hbs Hp Hrb Hlen Hslow Hd Hflag Hw Hdw Hfill.
  pose proof (rem_bounds p (bufferSize l) Hp Hbs) as Hr.
  assert (Hrun : fillSampleBlockBuffer cfg tk l dest n p
                 = Some (fst (swapBuffers l),
                         slice rb (Z.rem p (bufferSize l))
                           (bufferSize l - Z.rem p (bufferSize l))
                         ++ skipn (Z.to_nat (bufferSize l - Z.rem p (bufferSize l))) dest,
                         BufferUnderrun)).
  { unfold fillSampleBlockBuffer.
    destruct (bufferSize l =? 0) eqn:E0; [apply Z.eqb_eq in E0; lia|].
    destruct (_ <? bufferSize l) eqn:E; [apply Z.ltb_lt in E; lia|].
    rewrite Hrb. cbn [obind]. rewrite copyStereo_defined by lia. cbn [obind].
    rewrite swapBuffers_unfold.
    destruct (BufferRef_eqb (readBuffer l) B1); cbn; rewrite Hflag; reflexivity. }
  set (l1 := fst (swapBuffers l)).
  assert (Hr1 : readBuffer l1 = writeBuffer l).
  { unfold l1. rewrite Hw. unfold swapBuffers, otherBuffer.
    destruct (BufferRef_eqb (readBuffer l) B1); reflexivity. }
  assert (Hd1 : forall r, deref l1 r = deref l r).
  { intros r. unfold l1, swapBuffers.
    destruct (BufferRef_eqb (readBuffer l) B1); destruct r; reflexivity. }
  assert (Hst : exists l2, store l1 (writeBuffer l) w' = Some l2
                           /\ readBuffer l2 = readBuffer l1
                           /\ deref l2 (writeBuffer l) = Some w').
  { rewrite Hw. unfold otherBuffer.
    destruct (BufferRef_eqb (readBuffer l) B1); cbn [store];
      eexists; (split; [reflexivity|]); split; reflexivity. }
  destruct Hst as (l2 & Hst & Hr2 & Hd2).
  exists l1. eexists. exists l2.
  split; [exact Hrun|]. split; [exact Hr1|].
  split; [rewrite Hr1, Hd1; exact Hdw|].
  split.
  { cbn [jobStep]. rewrite Hd1, Hdw. cbn [obind]. rewrite Hfill. cbn [obind].
    rewrite Hst. reflexivity. }
  split; [exact Hr2|]. rewrite Hr2, Hr1. exact Hd2.
Qed.

Lemma underrun_hands_over_the_buffer_being_filled_witness :
  exists l0 l1 d l2,
    poolTakesJob exInFlight = Some (AtReadStart, l0)
    /\ jobSteps exTicks 3 AtReadStart l0 = Some (Some (InCopy 1%Q exSound B1 4 4), l0)
    /\ fillSampleBlockBuffer exBackground exTicks l0 (clearedBuffer 3) 2 3
       = Some (l1, d, BufferUnderrun)
    /\ readBuffer l1 = B1
    /\ deref l1 (readBuffer l1) = Some (clearedBuffer 4)
    /\ jobStep exTicks (InCopy 1%Q exSound B1 4 4) l1 = Some (Some (AtClear 1%Q), l2)
    /\ readBuffer l2 = readBuffer l1
    /\ deref l2 (readBuffer l2) = Some (slice (memoryReader exSound) 4 4).
Proof.
  eexists. 
  match goal with
  | |- exists l1 d l2, ?e = Some (_, ?l0) /\ _ =>
      assert (Htake : e = Some (AtReadStart, l0)) by (vm_compute; reflexivity)
  end.
  destruct (underrun_hands_over_the_buffer_being_filled exBackground exTicks exTicks
              (setPool exInFlight 0 (fillRequests exInFlight))
              (clearedBuffer 3) 2 3 (preloadBuffer exSound) (clearedBuffer 4)
              (slice (memoryReader exSound) 4 4) 1%Q exSound 4 4)
    as (l1 & d & l2 & H1 & H2 & H3 & H4 & H5 & H6);
    [reflexivity | lia | reflexivity | vm_compute; discriminate
    | vm_compute; discriminate | vm_compute; discriminate | reflexivity
    | reflexivity | reflexivity | vm_compute; reflexivity |].
  exists l1, d, l2.
  split; [exact Htake|]. split; [vm_compute; reflexivity|].
  split; [exact H1|]. split; [exact H2|]. split; [exact H3|].
  split; [exact H4|]. split; [exact H5 | exact H6].
Defined.

(** X22.  A note restarted while a fill is under way.  A job is inside
    [fillSampleBuffer], called for a sound [s0] with one of the swap
    buffers as its destination, and the flag is set.  [startNote] for a
    sound [s] binds [s] and resets pointers and offset, but requests no
    fill, since the flag is set.  The job then completes its copy and
    clears the flag.  The loader is now bound to [s] with no fill in flight
    and none requested for [s], and [b1], the buffer that the first swap
    makes the read buffer, holds what the job read from [s0] if it was the
    destination, and what it held before the restart otherwise.  A request
    that crosses the end of the preload buffer delivers the head of that
    [b1] after the tail of the preload buffer, and reports no underrun. *)
Theorem restart_during_a_fill_keeps_the_old_frames :
  forall (cfg : Config) (tk tk1 tk2 : Ticks) (l : SampleLoader)
         (s s0 : StreamingSamplerSound) (t0 : double) (target : BufferRef)
         (size position : Z) (w w' : AudioSampleBuffer),
    USE_BACKGROUND_THREAD cfg = true ->
    writeBufferIsBeingFilled l = true ->
    0 < bufferSize l ->
    getNumSamples (b1 l) = bufferSize l -> getNumSamples (b2 l) = bufferSize l ->
    preloadSize s <= getNumSamples (preloadBuffer s) ->
    bufferSize l <= getNumSamples (preloadBuffer s) ->
    target <> PreloadRef ->
    deref l target = Some w ->
    fillSampleBuffer s0 w size position = Some w' ->
    exists l1 l2 l3,
      loaderStartNote cfg tk l s = Some l1
      /\ fillRequests l1 = fillRequests l
      /\ jobStep tk1 (InCopy t0 s0 target size position) l1
         = Some (Some (AtClear t0), l2)
      /\ jobStep tk1 (AtClear t0) l2 = Some (Some (AtMeasure t0), l3)
      /\ sound l3 = Some s /\ readBuffer l3 = PreloadRef /\ writeBuffer l3 = B1
      /\ positionInSampleFile l3 = bufferSize l
      /\ writeBufferIsBeingFilled l3 = false
      /\ fillRequests l3 = fillRequests l
      /\ b1 l3 = (if BufferRef_eqb target B1 then w' else b1 l)
      /\ (forall dest n p,
            0 <= p ->
            bufferSize l <= Z.rem p (bufferSize l) + n ->
            Z.rem p (bufferSize l) + n <= 2 * bufferSize l ->
            n <= getNumSamples dest ->
            exists l4,
              fillSampleBlockBuffer cfg tk2 l3 dest n p
              = Some (l4,
                      slice (preloadBuffer s) (Z.rem p (bufferSize l))
                        (bufferSize l - Z.rem p (bufferSize l))
                      ++ slice (b1 l3) 0 (n - (bufferSize l - Z.rem p (bufferSize l)))
                      ++ skipn (Z.to_nat n) dest,
                      FillOk)).
Proof.
  intros cfg tk tk1 tk2 l s s0 t0 target size position w w'
         Hbg Hflag Hbs H1 H2 Hpre Hplen Ht Hdw Hfill.
  pose proof (fillSampleBuffer_length _ _ _ _ _ Hfill) as Hlen'.
  set (l1 := mkLoader (bufferSize l) (b1 l) (b2 l) PreloadRef B1 (Some s) 0
               (bufferSize l) true 0%Q (lastCallToRequestData l) (queuedJobs l)
               (fillRequests l)).
  assert (Hs1 : loaderStartNote cfg tk l s = Some l1).
  { unfold loaderStartNote. cbn [writeBufferIsBeingFilled]. rewrite Hflag.
    reflexivity. }
  assert (Hst : exists l2, store l1 target w' = Some l2
                  /\ jobStep tk1 (InCopy t0 s0 target size position) l1
                     = Some (Some (AtClear t0), l2)
                  /\ control l2 = control l1
                  /\ b1 l2 = (if BufferRef_eqb target B1 then w' else b1 l)
                  /\ getNumSamples (b1 l2) = bufferSize l
                  /\ getNumSamples (b2 l2) = bufferSize l).
  { destruct target; [congruence| |]; cbn [deref] in Hdw; injection Hdw as <-;
      (eexists; split; [reflexivity|]); cbn [jobStep deref l1 b1 b2 obind];
      rewrite Hfill; cbn [obind store];
      (split; [reflexivity|]); (split; [reflexivity|]);
      cbn; repeat split; congruence. }
  destruct Hst as (l2 & _ & Hjob & Hc & Hb1 & Hl1 & Hl2).
  unfold control in Hc. injection Hc as Hbs2 Hr2 Hw2 Hsd2 _ Hp2 _ _ _ _ Hfr2.
  exists l1, l2, (setBeingFilled l2 false).
  split; [exact Hs1|]. split; [reflexivity|]. split; [exact Hjob|].
  split; [reflexivity|].
  cbn [sound readBuffer writeBuffer positionInSampleFile writeBufferIsBeingFilled
       fillRequests b1 setBeingFilled].
  split; [exact Hsd2|]. split; [exact Hr2|]. split; [exact Hw2|].
  split; [exact Hp2|]. split; [reflexivity|]. split; [exact Hfr2|].
  split; [exact Hb1|].
  intros dest n p Hp Hslow Hend Hn.
  destruct (fillSampleBlockBuffer_crossing cfg tk2 (setBeingFilled l2 false) s dest n p
              (preloadBuffer s) (b1 l2)) as (l4 & Hrun & _).
  - constructor; cbn; rewrite ?Hbs2, ?Hp2; cbn; auto; lia.
  - exact Hp.
  - cbn. rewrite Hr2. cbn. rewrite Hsd2. reflexivity.
  - cbn. rewrite Hbs2. exact Hplen.
  - unfold otherBuffer. cbn. rewrite Hr2. reflexivity.
  - cbn. rewrite Hbs2. exact Hslow.
  - cbn. rewrite Hbs2. exact Hend.
  - exact Hn.
  - reflexivity.
  - cbn [bufferSize setBeingFilled] in Hrun. rewrite Hbs2 in Hrun.
    exists l4. exact Hrun.
Qed.

Lemma restart_during_a_fill_keeps_the_old_frames_witness :
  exists l0 l1 l2 l3 l4 d,
    poolTakesJob exInFlight = Some (AtReadStart, l0)
    /\ jobSteps exTicks 3 AtReadStart l0 = Some (Some (InCopy 1%Q exSound B1 4 4), l0)
    /\ loaderStartNote exBackground exTicks l0 exOtherSound = Some l1
    /\ fillRequests l1 = fillRequests l0
    /\ jobStep exTicks (InCopy 1%Q exSound B1 4 4) l1 = Some (Some (AtClear 1%Q), l2)
    /\ jobStep exTicks (AtClear 1%Q) l2 = Some (Some (AtMeasure 1%Q), l3)
    /\ sound l3 = Some exOtherSound
    /\ writeBufferIsBeingFilled l3 = false
    /\ b1 l3 = slice (memoryReader exSound) 4 4
    /\ fillSampleBlockBuffer exBackground exTicks l3 (clearedBuffer 3) 2 3
       = Some (l4, d, FillOk)
    /\ frameAt d 1 = frameAt (memoryReader exSound) 4
    /\ frameAt d 1 <> frameAt (memoryReader exOtherSound) 4.
Proof.
  eexists.
  match goal with
  | |- exists l1 l2 l3 l4 d, ?e = Some (_, ?l0) /\ _ =>
      assert (Htake : e = Some (AtReadStart, l0)) by (vm_compute; reflexivity)
  end.
  destruct (restart_during_a_fill_keeps_the_old_frames exBackground exTicks exTicks
              exTicks (setPool exInFlight 0 (fillRequests exInFlight))
              exOtherSound exSound 1%Q B1 4 4 (clearedBuffer 4)
              (slice (memoryReader exSound) 4 4))
    as (l1 & l2 & l3 & H1 & H2 & H3 & H4 & H5 & _ & _ & _ & H6 & _ & H7 & H8);
    [reflexivity | reflexivity | reflexivity | reflexivity | reflexivity
    | vm_compute; discriminate | vm_compute; discriminate | discriminate
    | reflexivity | vm_compute; reflexivity |].
  destruct (H8 (clearedBuffer 3) 2 3) as (l4 & H9);
    [lia | vm_compute; discriminate | vm_compute; discriminate
    | vm_compute; discriminate |].
  exists l1, l2, l3, l4. eexists.
  split; [exact Htake|]. split; [vm_compute; reflexivity|].
  split; [exact H1|]. split; [exact H2|]. split; [exact H3|]. split; [exact H4|].
  split; [exact H5|]. split; [exact H6|]. split; [exact H7|].
  split; [exact H9|].
  rewrite H7. split; [vm_compute; reflexivity | vm_compute; discriminate].
Defined.

(** X23.  What a statement of the job can change.  No statement of
    [runJob] assigns the pointers, the bound sound, the stream offset or the
    buffer size; none hands a job to the pool or requests data; none sets
    the flag, and only line 179 clears it; none lowers the disk usage; and
    the only buffer whose contents change is the destination with which
    [fillSampleBuffer] was called. *)
Theorem job_statements_leave_the_stream_state_alone :
  forall (tk : Ticks) (pc : JobPc) (pc' : option JobPc) (l l' : SampleLoader),
    jobStep tk pc l = Some (pc', l') ->
    bufferSize l' = bufferSize l
    /\ readBuffer l' = readBuffer l /\ writeBuffer l' = writeBuffer l
    /\ sound l' = sound l
    /\ positionInSampleFile l' = positionInSampleFile l
    /\ queuedJobs l' = queuedJobs l /\ fillRequests l' = fillRequests l
    /\ (writeBufferIsBeingFilled l' = true -> writeBufferIsBeingFilled l = true)
    /\ (writeBufferIsBeingFilled l' <> writeBufferIsBeingFilled l ->
        exists t0, pc = AtClear t0)
    /\ (diskUsage l <= diskUsage l')%Q
    /\ (forall r, deref l' r <> deref l r ->
          exists t0 s size position, pc = InCopy t0 s r size position).
Proof.
  intros tk pc pc' l l' H.
  assert (Hsame : l' = l ->
            bufferSize l' = bufferSize l
            /\ readBuffer l' = readBuffer l /\ writeBuffer l' = writeBuffer l
            /\ sound l' = sound l
            /\ positionInSampleFile l' = positionInSampleFile l
            /\ queuedJobs l' = queuedJobs l /\ fillRequests l' = fillRequests l
            /\ (writeBufferIsBeingFilled l' = true -> writeBufferIsBeingFilled l = true)
            /\ (writeBufferIsBeingFilled l' <> writeBufferIsBeingFilled l ->
                exists t0, pc = AtClear t0)
            /\ (diskUsage l <= diskUsage l')%Q
            /\ (forall r, deref l' r <> deref l r ->
                  exists t0 s size position, pc = InCopy t0 s r size position)).
  { intros ->. repeat split; auto; try apply Qle_refl.
    - intros Hne. exfalso. apply Hne. reflexivity.
    - intros r Hne. exfalso. apply Hne. reflexivity. }
  destruct pc as [|t0|t0|t0 s target size position|t0|t0|]; cbn [jobStep] in H.
  - injection H as _ <-. apply Hsame. reflexivity.
  - destruct (sound l) as [s|]; cbn [obind] in H; [|discriminate].
    destruct (hasEnoughSamplesForBlock s _); injection H as _ <-;
      apply Hsame; reflexivity.
  - destruct (sound l) as [s|]; cbn [obind] in H; [|discriminate].
    injection H as _ <-. apply Hsame. reflexivity.
  - clear Hsame.
    destruct (deref l target) as [w|]; cbn [obind] in H; [|discriminate].
    destruct (fillSampleBuffer s w size position) as [w'|]; cbn [obind] in H;
      [|discriminate].
    destruct (store l target w') as [l1|] eqn:Hst; cbn [obind] in H; [|discriminate].
    injection H as _ <-.
    pose proof (store_control _ _ _ _ Hst) as Hc. unfold control in Hc.
    injection Hc as Hbs Hr Hw Hs _ Hp Hf Hu _ Hq Hfr.
    repeat split; auto; try congruence.
    + rewrite Hu. apply Qle_refl.
    + intros r Hne. exists t0, s, size, position.
      destruct (BufferRef_eqb r target) eqn:E.
      * destruct r, target; try discriminate; reflexivity.
      * exfalso. apply Hne. eapply store_deref_other; [exact Hst|].
        intros ->. destruct target; discriminate.
  - clear Hsame. injection H as _ <-. cbn.
    repeat split; auto; try apply Qle_refl; try congruence.
    + intros _. eauto.
    + intros r Hne. exfalso. apply Hne. apply deref_setBeingFilled.
  - clear Hsame. injection H as _ <-. cbn. repeat split; auto; try congruence.
    + apply jmax_ge_left.
    + intros r Hne. exfalso. apply Hne. apply deref_setUsage.
  - injection H as _ <-. apply Hsame. reflexivity.
Qed.

Lemma job_statements_leave_the_stream_state_alone_witness :
  exists l',
    jobStep exTicks (InCopy 1%Q exSound B1 4 4) exInFlight = Some (Some (AtClear 1%Q), l')
    /\ readBuffer l' = readBuffer exInFlight
    /\ positionInSampleFile l' = positionInSampleFile exInFlight
    /\ writeBufferIsBeingFilled l' = true.
Proof.
  eexists.
  match goal with
  | |- ?e = Some (?pc, ?x) /\ _ =>
      assert (Hrun : e = Some (pc, x)) by (vm_compute; reflexivity)
  end.
  destruct (job_statements_leave_the_stream_state_alone _ _ _ _ _ Hrun)
    as (_ & Hr & _ & _ & Hp & _).
  split; [exact Hrun|]. split; [exact Hr|]. split; [exact Hp | reflexivity].
Defined.


Lemma runJob_window (tk : Ticks) (l : SampleLoader) (s : StreamingSamplerSound) :
  loaderWf l s -> preloaded s -> writeBuffer l <> PreloadRef ->
  bufferSize l + positionInSampleFile l < mappedLength (memoryReader s) ->
  exists l',
    runJob tk l = Some l'
    /\ bufferSize l' = bufferSize l
    /\ readBuffer l' = readBuffer l /\ writeBuffer l' = writeBuffer l
    /\ positionInSampleFile l' = positionInSampleFile l
    /\ writeBufferIsBeingFilled l' = false
    /\ deref l' (writeBuffer l)
       = Some (slice (memoryReader s) (positionInSampleFile l) (bufferSize l))
    /\ (forall r, r <> writeBuffer l -> deref l' r = deref l r).
Proof.
  intros Hwf Hpre Hw Hguard. pose proof Hwf as [Hs Hsz H1 H2 Hpos Hp].
  unfold runJob, fillInactiveBuffer. rewrite Hs. cbn [obind].
  unfold hasEnoughSamplesForBlock, mappedEnd.
  replace (_ <? _) with true by (symmetry; apply Z.ltb_lt; exact Hguard).
  destruct (writeBuffer l) eqn:Ew; [congruence| |]; cbn [deref b1 b2 obind];
    rewrite fillSampleBuffer_window by (auto; lia);
    cbn [obind store]; eexists; (split; [reflexivity|]);
    cbn; repeat split; auto;
    intros r Hr; destruct r; cbn; try reflexivity; try congruence; rewrite Hs; reflexivity.
Qed.

(** X25.  An underrun is not made good.  The loader is bound to [s], a
    fill of the other buffer has been requested, and its job waits in the
    pool when a block request reaches the end of the read buffer: the
    request reports an underrun and exchanges the pointers.  When the job
    then runs, its destination is the new write buffer, that is, the buffer
    that was read before: the window that was awaited is loaded there, and
    the buffer that is read now is never filled.  Every later request that
    stays inside the read buffer returns what that buffer held before, and
    reports nothing. *)
Theorem underrun_is_not_made_good :
  forall (cfg : Config) (tk tk1 tk2 : Ticks) (l : SampleLoader)
         (s : StreamingSamplerSound) (dest : AudioSampleBuffer) (n p : Z)
         (rb : AudioSampleBuffer),
    loaderWf l s -> preloaded s -> 0 <= p ->
    deref l (readBuffer l) = Some rb -> bufferSize l <= getNumSamples rb ->
    bufferSize l <= Z.rem p (bufferSize l) + n ->
    bufferSize l - Z.rem p (bufferSize l) <= getNumSamples dest ->
    writeBufferIsBeingFilled l = true -> queuedJobs l = 1%nat ->
    bufferSize l + positionInSampleFile l < mappedLength (memoryReader s) ->
    exists l1 d l2 l3 stale,
      fillSampleBlockBuffer cfg tk l dest n p = Some (l1, d, BufferUnderrun)
      /\ deref l (otherBuffer l) = Some stale
      /\ poolTakesJob l1 = Some (AtReadStart, l2)
      /\ jobSteps tk1 7 AtReadStart l2 = Some (None, l3)
      /\ writeBufferIsBeingFilled l3 = false
      /\ positionInSampleFile l3 = positionInSampleFile l
      /\ readBuffer l3 = otherBuffer l
      /\ deref l3 (readBuffer l3) = Some stale
      /\ deref l3 (writeBuffer l3)
         = Some (slice (memoryReader s) (positionInSampleFile l) (bufferSize l))
      /\ (forall dest' n' p',
            0 <= p' -> Z.rem p' (bufferSize l) + n' < bufferSize l ->
            0 <= n' <= getNumSamples dest' ->
            fillSampleBlockBuffer cfg tk2 l3 dest' n' p'
            = Some (l3, slice stale (Z.rem p' (bufferSize l)) n'
                        ++ skipn (Z.to_nat n') dest', FillOk)).
Proof.
  intros cfg tk tk1 tk2 l s dest n p rb Hwf Hpre Hp Hrb Hlen Hslow Hd Hflag Hq Hguard.
  pose proof Hwf as [Hs Hsz H1 H2 Hpos Hpl].
  pose proof (rem_bounds p (bufferSize l) Hp Hsz) as Hr.
  set (l1 := fst (swapBuffers l)).
  assert (Hrun : fillSampleBlockBuffer cfg tk l dest n p
                 = Some (l1,
                         slice rb (Z.rem p (bufferSize l))
                           (bufferSize l - Z.rem p (bufferSize l))
                         ++ skipn (Z.to_nat (bufferSize l - Z.rem p (bufferSize l))) dest,
                         BufferUnderrun)).
  { unfold fillSampleBlockBuffer.
    destruct (bufferSize l =? 0) eqn:E0; [apply Z.eqb_eq in E0; lia|].
    destruct (_ <? bufferSize l) eqn:E; [apply Z.ltb_lt in E; lia|].
    rewrite Hrb. cbn [obind]. rewrite copyStereo_defined by lia. cbn [obind].
    unfold l1. rewrite swapBuffers_unfold.
    destruct (BufferRef_eqb (readBuffer l) B1); cbn; rewrite Hflag; reflexivity. }
  assert (Hl1 : bufferSize l1 = bufferSize l /\ sound l1 = sound l
                /\ positionInSampleFile l1 = positionInSampleFile l
                /\ queuedJobs l1 = queuedJobs l
                /\ b1 l1 = b1 l /\ b2 l1 = b2 l
                /\ readBuffer l1 = otherBuffer l
                /\ writeBuffer l1 <> PreloadRef
                /\ writeBuffer l1 <> readBuffer l1
                /\ (forall r, deref l1 r = deref l r)).
  { unfold l1, swapBuffers, otherBuffer.
    destruct (BufferRef_eqb (readBuffer l) B1); cbn; repeat split; auto;
      try discriminate; intros r; destruct r; reflexivity. }
  destruct Hl1 as (Hb & Hsd & Hps & Hq1 & Hb1 & Hb2 & Hr1 & Hw1 & Hne & Hd1).
  clearbody l1.
  assert (Hstale : exists stale, deref l (otherBuffer l) = Some stale
                                 /\ getNumSamples stale = bufferSize l).
  { unfold otherBuffer. destruct (BufferRef_eqb (readBuffer l) B1); cbn; eauto. }
  destruct Hstale as (stale & Hst & Hstl).
  destruct (runJob_window tk1 (setPool l1 0 (fillRequests l1)) s)
    as (l3 & Hjob & Hb3 & Hr3 & Hw3 & Hp3 & Hf3 & Hnew & Hold).
  { constructor; cbn; try congruence; lia. }
  { exact Hpre. }
  { exact Hw1. }
  { cbn. rewrite Hb, Hps. exact Hguard. }
  cbn [bufferSize readBuffer writeBuffer positionInSampleFile setPool]
    in Hb3, Hr3, Hw3, Hp3, Hnew, Hold.
  assert (Hread : deref l3 (readBuffer l3) = Some stale).
  { rewrite Hr3, Hold by (intro E; apply Hne; symmetry; exact E).
    rewrite deref_setPool, Hd1, Hr1. exact Hst. }
  exists l1. eexists. exists (setPool l1 0 (fillRequests l1)), l3, stale.
  split; [exact Hrun|]. split; [exact Hst|].
  split; [unfold poolTakesJob; rewrite Hq1, Hq; reflexivity|].
  split; [rewrite jobSteps_uninterrupted, Hjob; reflexivity|].
  split; [exact Hf3|]. split; [congruence|]. split; [congruence|].
  split; [exact Hread|].
  split; [rewrite Hw3, Hnew; congruence|].
  intros dest' n' p' Hp' Hfast Hn'.
  pose proof (rem_bounds p' (bufferSize l) Hp' Hsz) as Hr'.
  unfold fillSampleBlockBuffer. rewrite Hb3, Hb.
  destruct (bufferSize l =? 0) eqn:E0; [apply Z.eqb_eq in E0; lia|].
  destruct (_ <? bufferSize l) eqn:E; [|apply Z.ltb_ge in E; lia].
  rewrite Hread. cbn [obind]. rewrite copyStereo_defined by lia. reflexivity.
Qed.

Lemma underrun_is_not_made_good_witness :
  exists l1 d l2 l3 d',
    fillSampleBlockBuffer exBackground exTicks exInFlight (clearedBuffer 3) 2 3
    = Some (l1, d, BufferUnderrun)
    /\ poolTakesJob l1 = Some (AtReadStart, l2)
    /\ jobSteps exTicks 7 AtReadStart l2 = Some (None, l3)
    /\ deref l3 (writeBuffer l3) = Some (slice (memoryReader exSound) 4 4)
    /\ fillSampleBlockBuffer exBackground exTicks l3 (clearedBuffer 3) 1 4
       = Some (l3, d', FillOk)
    /\ frameAt d' 0 = Some silence
    /\ frameAt (memoryReader exSound) 4 = Some (4%Q, (-4)%Q).
Proof.
  destruct (underrun_is_not_made_good exBackground exTicks exTicks exTicks exInFlight
              exSound (clearedBuffer 3) 2 3 (preloadBuffer exSound))
    as (l1 & d & l2 & l3 & stale & H1 & H2 & H3 & H4 & _ & _ & _ & _ & H5 & H6).
  - constructor; vm_compute; try reflexivity; discriminate.
  - split; [vm_compute; split; discriminate | reflexivity].
  - lia.
  - reflexivity.
  - vm_compute. discriminate.
  - vm_compute. discriminate.
  - vm_compute. discriminate.
  - reflexivity.
  - reflexivity.
  - reflexivity.
  - exists l1, d, l2, l3. eexists.
    split; [exact H1|]. split; [exact H3|]. split; [exact H4|]. split; [exact H5|].
    split; [apply (H6 (clearedBuffer 3) 1 4); vm_compute;
            [discriminate | reflexivity | split; discriminate]|].
    vm_compute in H2. injection H2 as <-. split; reflexivity.
Defined.
